(** * Ojogbon: profile store, response parsing, history and export

    A shallow embedding of the parts of the resume generator that its
    specification makes claims about, and of the code around them:

    - [resume_generator]: [extract_json_from_text],
      [truncate_bullets_to_25_words] and [generate_story_content]
      (src/backend/resume_generator.py);
    - [ResumeGenerator]: [generate_tailored_resume] and the methods it
      calls (src/backend/resume_generator.py);
    - [profile_manager]: the pydantic models, [create_profile],
      [load_profile], [list_profiles] and [delete_profile]
      (src/profile_manager.py), and the variant with backup directories
      (src/backend/profile_manager.py);
    - [app]: [load_resume_history], [save_resume_history],
      [add_to_history], [auto_save_profile] and the API key (src/app.py);
    - [export_handler]: the three renderers (src/export_handler.py);
    - [backend_main]: the routes of the API (src/backend/main.py).

    Python values are modelled as follows.  A [str] is a [string]; a
    character stands for the code point of the same number, so the model
    covers the code points below 256.  A value read from JSON is a [json]
    tree whose objects are association lists in insertion order, like a
    Python [dict].  A function that can raise returns a [result]; a
    function that calls the text-generation service is a [prog], run
    against any service with a log of the requests made.  The file system
    is a finite map from paths to the JSON documents the files hold:
    [json.dump] followed by [json.load] gives the document back.  Whether
    a file opens for writing lies with the file system and is supplied to
    the function that writes: [create_profile] takes the exception, if
    any, that [open] raises for a path.

    What the libraries do is modelled from their documentation:
    [json.loads] by a scanner that follows the one of the [json] module
    (the recursion limit of the interpreter is not modelled); the two
    regular expressions by matchers that follow the backtracking order of
    [re.search]; pydantic by field-by-field validation; the calls on the
    DOCX document by the list of the calls made.  The PDF renderer is a
    script, the calls it makes on the [FPDF] object in the order of the
    program and what its own code comes to; the library is supplied to
    the run of the script and decides for each call whether it raises. *)

From Stdlib Require Import Ascii String ZArith Lia Bool.
From stdpp Require Import gmap strings list fin_maps pretty.

(** ** Python built-ins on [str] *)

Module Py.

(** [str.isspace] on one character: the code points below 256 that Unicode
    classes as whitespace (also the class [\s] of [re] on [str] patterns). *)
Definition isspace (c : ascii) : bool :=
  match c with
  | "009" | "010" | "011" | "012" | "013"
  | "028" | "029" | "030" | "031" | " "
  | "133" | "160" => true
  | _ => false
  end%char.

(** The next word starts here: end of text or a whitespace character. *)
Definition at_break (s : string) : bool :=
  match s with
  | "" => true
  | String c _ => isspace c
  end.

(** [s.split()]: the maximal runs of non-whitespace characters, in order. *)
Fixpoint split (s : string) : list string :=
  match s with
  | "" => []
  | String c s' =>
      if isspace c then split s'
      else if at_break s' then String c "" :: split s'
      else match split s' with
           | w :: ws => String c w :: ws
           | [] => [String c ""]
           end
  end.

(** [sep.join(l)] on a list of [str]. *)
Fixpoint join (sep : string) (l : list string) : string :=
  match l with
  | [] => ""
  | [x] => x
  | x :: l' => x +:+ sep +:+ join sep l'
  end.

(** [s.lstrip()], [s.rstrip()] and [s.strip()]. *)
Fixpoint lstrip (s : string) : string :=
  match s with
  | "" => ""
  | String c s' => if isspace c then lstrip s' else s
  end.

Fixpoint rstrip (s : string) : string :=
  match s with
  | "" => ""
  | String c s' =>
      match rstrip s' with
      | "" => if isspace c then "" else String c ""
      | r => String c r
      end
  end.

Definition strip (s : string) : string := rstrip (lstrip s).

(** [s.startswith(p)], returning the rest of [s] after [p]. *)
Fixpoint strip_prefix (p s : string) : option string :=
  match p, s with
  | "", _ => Some s
  | String a p', String b s' =>
      if Ascii.eqb a b then strip_prefix p' s' else None
  | String _ _, "" => None
  end.

Definition startswith (p s : string) : bool :=
  match strip_prefix p s with Some _ => true | None => false end.

(** [s.replace(old, new)] for a non-empty [old]: occurrences are replaced
    from the left and do not overlap.  [skip] counts the characters of the
    occurrence just replaced that are still to be passed over. *)
Fixpoint replace_go (old new : string) (skip : nat) (s : string) : string :=
  match s with
  | "" => ""
  | String c s' =>
      match skip with
      | S k => replace_go old new k s'
      | O =>
          if startswith old s
          then new +:+ replace_go old new (String.length old - 1) s'
          else String c (replace_go old new 0 s')
      end
  end.

Definition replace (old new s : string) : string := replace_go old new 0 s.

(** [s[:n]]. *)
Fixpoint slice_to (n : nat) (s : string) : string :=
  match n, s with
  | S n', String c s' => String c (slice_to n' s')
  | _, _ => ""
  end.

(** [c in s] for a character [c]. *)
Fixpoint has_char (c : ascii) (s : string) : bool :=
  match s with
  | "" => false
  | String a s' => Ascii.eqb a c || has_char c s'
  end.

(** [sub in s] for [str] operands. *)
Fixpoint contains (sub s : string) : bool :=
  startswith sub s ||
  match s with
  | "" => false
  | String _ s' => contains sub s'
  end.

(** [s.upper()]: the letters a-z and the accented letters of Latin-1 move
    to their capitals; the sharp s becomes SS.  The micro sign and the y
    with diaeresis, whose capitals lie above 255, are left as they are. *)
Definition upper_char (c : ascii) : string :=
  let n := nat_of_ascii c in
  if (97 <=? n)%nat && (n <=? 122)%nat then String (ascii_of_nat (n - 32)) ""
  else if (224 <=? n)%nat && (n <=? 254)%nat && negb (n =? 247)%nat
  then String (ascii_of_nat (n - 32)) ""
  else if (n =? 223)%nat then "SS"
  else String c "".

Fixpoint upper (s : string) : string :=
  match s with
  | "" => ""
  | String c s' => upper_char c +:+ upper s'
  end.

(** [s.lstrip(chars)]: drop leading characters that occur in [chars]. *)
Fixpoint lstrip_chars (chars s : string) : string :=
  match s with
  | "" => ""
  | String c s' => if has_char c chars then lstrip_chars chars s' else s
  end.

(** [s.rstrip(chars)] and [s.strip(chars)]. *)
Fixpoint rstrip_chars (chars s : string) : string :=
  match s with
  | "" => ""
  | String c s' =>
      match rstrip_chars chars s' with
      | "" => if has_char c chars then "" else String c ""
      | r => String c r
      end
  end.

Definition strip_chars (chars s : string) : string :=
  rstrip_chars chars (lstrip_chars chars s).

(** [s.split(sep)[0]] for a separator of one character: the text before
    the first [sep], all of [s] if there is none. *)
Fixpoint before (sep : ascii) (s : string) : string :=
  match s with
  | "" => ""
  | String c s' => if Ascii.eqb c sep then "" else String c (before sep s')
  end.

(** [s.lower()]: the letters A-Z and the accented capitals of Latin-1 move
    to their small letters. *)
Definition lower_char (c : ascii) : ascii :=
  let n := nat_of_ascii c in
  if (65 <=? n)%nat && (n <=? 90)%nat then ascii_of_nat (n + 32)
  else if (192 <=? n)%nat && (n <=? 222)%nat && negb (n =? 215)%nat
  then ascii_of_nat (n + 32)
  else c.

Fixpoint lower (s : string) : string :=
  match s with
  | "" => ""
  | String c s' => String (lower_char c) (lower s')
  end.

(** The title case of a character: its capital, and Ss for the sharp s.
    As in [upper], the micro sign and the y with diaeresis stay. *)
Definition title_char (c : ascii) : string :=
  if (nat_of_ascii c =? 223)%nat then "Ss" else upper_char c.

(** [s.capitalize()]: the first character in title case, the rest in
    lower case. *)
Definition capitalize (s : string) : string :=
  match s with
  | "" => ""
  | String c s' => title_char c +:+ lower s'
  end.

(** [s[n:]], and [s[-n:]] for a positive [n]: the last [n] characters, all
    of [s] if it has fewer. *)
Fixpoint slice_from (n : nat) (s : string) : string :=
  match n, s with
  | S n', String _ s' => slice_from n' s'
  | _, _ => s
  end.

Definition slice_last (n : nat) (s : string) : string :=
  slice_from (String.length s - n) s.

(** [s.endswith(suffix)] *)
Definition endswith (suffix s : string) : bool :=
  String.eqb (slice_last (String.length suffix) s) suffix.

(** [s.rfind(c)] for a character [c]: the index of its last occurrence. *)
Fixpoint rfind (c : ascii) (s : string) : option nat :=
  match s with
  | "" => None
  | String a s' =>
      match rfind c s' with
      | Some i => Some (S i)
      | None => if Ascii.eqb a c then Some 0 else None
      end
  end.

End Py.

(** ** Exceptions and results *)

Inductive exn : Type :=
  | ValueError (msg : string)
  | FileNotFoundError (msg : string)
  | KeyError (key : string)
  | TypeError
  | AttributeError
  | ValidationError
  | ServiceError (msg : string).

Inductive result (A : Type) : Type :=
  | Ok (a : A)
  | Raise (e : exn).
Arguments Ok {A} a.
Arguments Raise {A} e.

Global Instance result_ret : MRet result := fun A a => Ok a.
Global Instance result_bind : MBind result := fun A B k r =>
  match r with
  | Ok a => k a
  | Raise e => Raise e
  end.

(** [try: r except: handler] with a bare [except]. *)
Definition try_except {A} (r : result A) (handler : result A) : result A :=
  match r with
  | Ok a => Ok a
  | Raise _ => handler
  end.

(** ** JSON values and [json.loads] *)

(** A number with a fraction or an exponent is kept as the decimal it was
    written as; [NaN], [Infinity] and [-Infinity] are the three constants
    that [json.loads] accepts besides. *)
Inductive float_lit : Type :=
  | FDec (neg : bool) (mant : Z) (exp10 : Z)
  | FNaN
  | FInf (neg : bool).

#[warnings="-register-all"]
Inductive json : Type :=
  | JNull
  | JBool (b : bool)
  | JInt (n : Z)
  | JFloat (x : float_lit)
  | JStr (s : string)
  | JArr (items : list json)
  | JObj (fields : list (string * json)).

Module dict.

(** A Python [dict] with [str] keys: an association list in insertion
    order.  [set] overwrites the value of a key that is present and appends
    a new key at the end. *)
Section ops.
Context {V : Type}.

Fixpoint get (k : string) (d : list (string * V)) : option V :=
  match d with
  | [] => None
  | (k', v) :: d' => if String.eqb k k' then Some v else get k d'
  end.

Definition has (k : string) (d : list (string * V)) : bool :=
  match get k d with Some _ => true | None => false end.

Fixpoint set (k : string) (v : V) (d : list (string * V)) : list (string * V) :=
  match d with
  | [] => [(k, v)]
  | (k', v') :: d' =>
      if String.eqb k k' then (k', v) :: d' else (k', v') :: set k v d'
  end.

Fixpoint del (k : string) (d : list (string * V)) : list (string * V) :=
  match d with
  | [] => []
  | (k', v') :: d' => if String.eqb k k' then d' else (k', v') :: del k d'
  end.

End ops.
End dict.

Module Json.

Definition is_digit (c : ascii) : bool :=
  let n := nat_of_ascii c in (48 <=? n)%nat && (n <=? 57)%nat.

Definition digit_val (c : ascii) : Z := (Z.of_nat (nat_of_ascii c) - 48)%Z.

(** The value of a string of decimal digits, most significant first. *)
Fixpoint digits_val (acc : Z) (s : string) : Z :=
  match s with
  | "" => acc
  | String c s' => digits_val (10 * acc + digit_val c)%Z s'
  end.

(** The longest prefix of digits, and the rest. *)
Fixpoint span_digits (s : string) : string * string :=
  match s with
  | String c s' =>
      if is_digit c
      then let '(ds, r) := span_digits s' in (String c ds, r)
      else ("", s)
  | "" => ("", "")
  end.

(** CPython refuses to convert more than 4300 digits between [str] and
    [int] (the default of [sys.set_int_max_str_digits]). *)
Definition max_str_digits : nat := 4300.

(** The whitespace of the JSON grammar: space, tab, line feed, carriage
    return. *)
Definition is_ws (c : ascii) : bool :=
  match c with
  | " " | "009" | "010" | "013" => true
  | _ => false
  end%char.

Fixpoint skip_ws (s : string) : string :=
  match s with
  | String c s' => if is_ws c then skip_ws s' else s
  | "" => ""
  end.

Definition hex_val (c : ascii) : option nat :=
  let n := nat_of_ascii c in
  if (48 <=? n)%nat && (n <=? 57)%nat then Some (n - 48)
  else if (97 <=? n)%nat && (n <=? 102)%nat then Some (n - 87)
  else if (65 <=? n)%nat && (n <=? 70)%nat then Some (n - 55)
  else None.

(** The text of a [\uXXXX] escape.  A code point below 256 is the
    character it names; a larger one has no character in [string] and is
    kept as the six characters of the escape. *)
Definition unicode_escape (h1 h2 h3 h4 : ascii) : option string :=
  match hex_val h1, hex_val h2, hex_val h3, hex_val h4 with
  | Some a, Some b, Some c, Some d =>
      let cp := (((a * 16 + b) * 16 + c) * 16 + d)%nat in
      if (cp <? 256)%nat then Some (String (ascii_of_nat cp) "")
      else Some (String "\"%char (String "u"%char (String h1 (String h2 (String h3 (String h4 ""))))))
  | _, _, _, _ => None
  end.

(** The one-character escapes of a JSON string (the table [BACKSLASH] of
    the decoder). *)
Definition simple_escape (e : ascii) : option ascii :=
  match e with
  | "034" => Some "034"
  | "\" => Some "\"
  | "/" => Some "/"
  | "b" => Some "008"
  | "f" => Some "012"
  | "n" => Some "010"
  | "r" => Some "013"
  | "t" => Some "009"
  | _ => None
  end%char.

(** [scanstring] in strict mode, after the opening quote: the decoded
    text up to the closing quote, and what follows it. *)
Fixpoint scanstring (s : string) : option (string * string) :=
  match s with
  | "" => None
  | String c s' =>
      if Ascii.eqb c "034"%char then Some ("", s')
      else if Ascii.eqb c "\"%char then
        match s' with
        | "" => None
        | String e s'' =>
            if Ascii.eqb e "u"%char then
              match s'' with
              | String h1 (String h2 (String h3 (String h4 s4))) =>
                  match unicode_escape h1 h2 h3 h4, scanstring s4 with
                  | Some u, Some (t, r) => Some (u +:+ t, r)
                  | _, _ => None
                  end
              | _ => None
              end
            else
              match simple_escape e, scanstring s'' with
              | Some x, Some (t, r) => Some (String x t, r)
              | _, _ => None
              end
        end
      else if (nat_of_ascii c <? 32)%nat then None
      else
        match scanstring s' with
        | Some (t, r) => Some (String c t, r)
        | None => None
        end
  end.

(** The text after the character [c], if the text starts with it. *)
Definition after (c : ascii) (s : string) : option string :=
  match s with
  | String a r => if Ascii.eqb a c then Some r else None
  | "" => None
  end.

(** The optional fraction of a number: a dot and digits. *)
Definition scan_frac (s : string) : option string * string :=
  match after "." s with
  | Some (String d s') =>
      if is_digit d
      then let '(ds, r) := span_digits s' in (Some (String d ds), r)
      else (None, s)
  | _ => (None, s)
  end.

(** The sign of an exponent, if there is one. *)
Definition scan_sign (s : string) : bool * string :=
  match after "-" s, after "+" s with
  | Some r, _ => (true, r)
  | None, Some r => (false, r)
  | None, None => (false, s)
  end.

(** The optional exponent of a number: e or E, an optional sign and
    digits. *)
Definition scan_exp (s : string) : option Z * string :=
  match s with
  | String e s1 =>
      if Ascii.eqb e "e"%char || Ascii.eqb e "E"%char then
        let '(neg, s2) := scan_sign s1 in
        match span_digits s2 with
        | ("", _) => (None, s)
        | (ds, r) => (Some (if neg then (- digits_val 0 ds)%Z else digits_val 0 ds), r)
        end
      else (None, s)
  | "" => (None, s)
  end.

(** A number: an optional minus sign, then 0 or a digit 1-9 followed by
    digits, then the optional fraction and exponent.  It is an [int] when
    there is neither fraction nor exponent, a [float] otherwise. *)
Definition match_number (s : string) : option (json * string) :=
  let '(neg, s1) :=
    match after "-" s with
    | Some r => (true, r)
    | None => (false, s)
    end in
  match s1 with
  | "" => None
  | String c r =>
      if is_digit c then
        let '(ds, r1) :=
          if Ascii.eqb c "0"%char then ("0", r)
          else let '(ds, r1) := span_digits r in (String c ds, r1) in
        let '(frac, r2) := scan_frac r1 in
        let '(ex, r3) := scan_exp r2 in
        match frac, ex with
        | None, None =>
            if (max_str_digits <? String.length ds)%nat then None
            else Some (JInt (if neg then (- digits_val 0 ds)%Z else digits_val 0 ds), r3)
        | _, _ =>
            let fs := default "" frac in
            Some (JFloat (FDec neg (digits_val 0 (ds +:+ fs))
                               (default 0 ex - Z.of_nat (String.length fs))%Z), r3)
        end
      else None
  end.

(** What the scanner is reading: a value; the members of an object after
    the ones in [acc], at the start of a key; or what follows an element
    of an array, after the elements in [acc]. *)
Inductive mode : Type :=
  | Value
  | Members (acc : list (string * json))
  | Elements (acc : list json).

Definition keyword (kw : string) (v : json) (s : string) : option (json * string) :=
  match Py.strip_prefix kw s with
  | Some r => Some (v, r)
  | None => None
  end.

(** A value that is neither a string, an object nor an array: one of the
    constants, or a number. *)
Definition scan_atom (c : ascii) (s : string) : option (json * string) :=
  if Ascii.eqb c "n"%char then keyword "null" JNull s
  else if Ascii.eqb c "t"%char then keyword "true" (JBool true) s
  else if Ascii.eqb c "f"%char then keyword "false" (JBool false) s
  else if Ascii.eqb c "N"%char then keyword "NaN" (JFloat FNaN) s
  else if Ascii.eqb c "I"%char then keyword "Infinity" (JFloat (FInf false)) s
  else if Ascii.eqb c "-"%char then
    match keyword "-Infinity" (JFloat (FInf true)) s with
    | Some x => Some x
    | None => match_number s
    end
  else match_number s.

(** [scan_once] with the loops of [JSONObject] and [JSONArray].  Every
    call made with less fuel starts further into the text, so the text's
    length plus one is enough fuel (lemma [scan_fuel]). *)
Fixpoint scan (fuel : nat) (m : mode) (s : string) : option (json * string) :=
  match fuel with
  | O => None
  | S fuel' =>
      match m with
      | Value =>
          match s with
          | "" => None
          | String c s' =>
              if Ascii.eqb c "034"%char then
                match scanstring s' with
                | Some (t, r) => Some (JStr t, r)
                | None => None
                end
              else if Ascii.eqb c "{"%char then
                match after "}" (skip_ws s') with
                | Some r => Some (JObj [], r)
                | None => scan fuel' (Members []) (skip_ws s')
                end
              else if Ascii.eqb c "["%char then
                match after "]" (skip_ws s') with
                | Some r => Some (JArr [], r)
                | None =>
                    match scan fuel' Value (skip_ws s') with
                    | Some (v, r) => scan fuel' (Elements [v]) r
                    | None => None
                    end
                end
              else scan_atom c s
          end
      | Members acc =>
          match after "034" s ≫= scanstring with
          | Some (key, r) =>
              match after ":" (skip_ws r) with
              | Some r1 =>
                  match scan fuel' Value (skip_ws r1) with
                  | Some (v, r2) =>
                      let acc' := dict.set key v acc in
                      match after "}" (skip_ws r2), after "," (skip_ws r2) with
                      | Some r3, _ => Some (JObj acc', r3)
                      | None, Some r3 => scan fuel' (Members acc') (skip_ws r3)
                      | None, None => None
                      end
                  | None => None
                  end
              | None => None
              end
          | None => None
          end
      | Elements acc =>
          match after "]" (skip_ws s), after "," (skip_ws s) with
          | Some r, _ => Some (JArr acc, r)
          | None, Some r =>
              match scan fuel' Value (skip_ws r) with
              | Some (v, r1) => scan fuel' (Elements (acc ++ [v])) r1
              | None => None
              end
          | None, None => None
          end
      end
  end.

(** [json.loads(s)]: one value with whitespace around it and nothing
    else; [None] stands for the exception it raises otherwise. *)
Definition loads (s : string) : option json :=
  match scan (S (String.length s)) Value (skip_ws s) with
  | Some (v, r) => if String.eqb (skip_ws r) "" then Some v else None
  | None => None
  end.

End Json.

(** ** Python's dynamic operations on JSON values *)

(** [x == 0.0] for the [float] that the literal rounds to: the literal is
    zero, or it is at most half the smallest subnormal, 2^-1075. *)
Definition float_is_zero (x : float_lit) : bool :=
  match x with
  | FDec _ mant exp10 =>
      (mant =? 0)%Z ||
      ((exp10 <? 0)%Z && (mant * 2 ^ 1075 <=? 10 ^ (- exp10))%Z)
  | FNaN | FInf _ => false
  end.

(** [bool(v)]. *)
Definition truthy (v : json) : bool :=
  match v with
  | JNull => false
  | JBool b => b
  | JInt n => negb (n =? 0)%Z
  | JFloat x => negb (float_is_zero x)
  | JStr s => negb (String.eqb s "")
  | JArr l => match l with [] => false | _ => true end
  | JObj d => match d with [] => false | _ => true end
  end.

(** [v.get(key)]: defined on a [dict] only; an absent key gives [None]. *)
Definition py_get (key : string) (v : json) : result json :=
  match v with
  | JObj d => Ok (default JNull (dict.get key d))
  | _ => Raise AttributeError
  end.

(** [v.get(key, dflt)]. *)
Definition py_get_default (key : string) (dflt : json) (v : json) : result json :=
  match v with
  | JObj d => Ok (default dflt (dict.get key d))
  | _ => Raise AttributeError
  end.

(** [v[key]] for a [str] key: defined on a [dict] that has the key. *)
Definition py_index (key : string) (v : json) : result json :=
  match v with
  | JObj d =>
      match dict.get key d with
      | Some x => Ok x
      | None => Raise (KeyError key)
      end
  | _ => Raise TypeError
  end.

(** A method of [str] called on [v]. *)
Definition as_str (v : json) : result string :=
  match v with
  | JStr s => Ok s
  | _ => Raise AttributeError
  end.

(** The characters of a [str], each as a [str] of length one. *)
Fixpoint chars (s : string) : list string :=
  match s with
  | "" => []
  | String c s' => String c "" :: chars s'
  end.

Definition is_str (key : string) (v : json) : bool :=
  match v with
  | JStr s => String.eqb s key
  | _ => false
  end.

(** [key in v] for a [str] key: a key of a [dict], an element of a
    [list], a substring of a [str]; other values are not containers. *)
Definition py_in (key : string) (v : json) : result bool :=
  match v with
  | JObj d => Ok (dict.has key d)
  | JArr l => Ok (existsb (is_str key) l)
  | JStr s => Ok (Py.contains key s)
  | _ => Raise TypeError
  end.

(** [for x in v]: the elements of a [list], the keys of a [dict], the
    characters of a [str]. *)
Definition py_iter (v : json) : result (list json) :=
  match v with
  | JArr l => Ok l
  | JObj d => Ok ((fun kv => JStr kv.1) <$> d)
  | JStr s => Ok (JStr <$> chars s)
  | _ => Raise TypeError
  end.

(** The digits of an [int] literal with the underscores taken out; an
    underscore must stand between two digits. *)
Fixpoint int_digits (after_digit : bool) (s : string) : option string :=
  match s with
  | "" => if after_digit then Some "" else None
  | String c s' =>
      if Json.is_digit c then String c <$> int_digits true s'
      else if Ascii.eqb c "_"%char && after_digit then int_digits false s'
      else None
  end.

(** [int(s)] for a [str] in base 10: whitespace around, an optional sign,
    digits.  [None] stands for [ValueError]. *)
Definition py_int (s : string) : option Z :=
  let '(neg, body) :=
    match Py.strip s with
    | String "-"%char r => (true, r)
    | String "+"%char r => (false, r)
    | r => (false, r)
    end in
  match int_digits false body with
  | Some ds =>
      if (Json.max_str_digits <? String.length ds)%nat then None
      else Some (if neg then (- Json.digits_val 0 ds)%Z else Json.digits_val 0 ds)
  | None => None
  end.

(** [str(n)] for an [int]; [None] stands for the [ValueError] raised when
    [n] has more than 4300 digits. *)
Definition py_str_of_int (n : Z) : option string :=
  if (Json.max_str_digits <? String.length (pretty (Z.abs n)))%nat then None
  else Some (pretty n).

(** ** The pydantic models of profile_manager.py *)

Module Education.
Record t : Type := mk {
  degree : string;
  institution : string;
  location : string;
  start_date : string;
  end_date : string;
  gpa : option string;
  relevant_coursework : list string;
  achievements : list string
}.
End Education.

Module Experience.
Record t : Type := mk {
  title : string;
  company : string;
  location : string;
  start_date : string;
  end_date : string;
  description : list string;
  skills_used : list string
}.
End Experience.

Module Project.
Record t : Type := mk {
  name : string;
  description : string;
  technologies : list string;
  achievements : list string;
  url : option string
}.
End Project.

Module UserProfile.
Record t : Type := mk {
  personal_info : list (string * string);
  summary : string;
  my_story : string;
  education : list Education.t;
  experience : list Experience.t;
  projects : list Project.t;
  skills : list (string * list string);
  certifications : list string;
  awards : list string
}.

(** [UserProfile()]: every field at its default. *)
Definition default : t := {|
  personal_info :=
    [("name", ""); ("email", ""); ("phone", ""); ("linkedin", "");
     ("github", ""); ("portfolio", ""); ("location", "")];
  summary := "";
  my_story := "";
  education := [];
  experience := [];
  projects := [];
  skills := [("technical", []); ("languages", []); ("tools", []); ("soft_skills", [])];
  certifications := [];
  awards := []
|}.
End UserProfile.

(** ** The text-generation service *)

(** One call of [client.messages.create]. *)
Record request : Type := mk_request {
  model : string;
  max_tokens : nat;
  temperature : string;
  system : string;
  user_content : string
}.

(** A computation that may call the service: it returns, raises, or
    issues a request and goes on with the text of the response. *)
Inductive prog (A : Type) : Type :=
  | Ret (a : A)
  | Throw (e : exn)
  | Call (req : request) (k : string -> prog A).
Arguments Ret {A} a.
Arguments Throw {A} e.
Arguments Call {A} req k.

Definition lift {A} (r : result A) : prog A :=
  match r with
  | Ok a => Ret a
  | Raise e => Throw e
  end.

(** Running a computation against a service.  The service answers a
    request with a text or fails; every request issued is logged. *)
Fixpoint run {A} (service : request -> result string) (p : prog A)
    (log : list request) : list request * result A :=
  match p with
  | Ret a => (log, Ok a)
  | Throw e => (log, Raise e)
  | Call req k =>
      match service req with
      | Ok text => run service (k text) (log ++ [req])
      | Raise e => (log ++ [req], Raise e)
      end
  end.

Global Instance prog_ret : MRet prog := fun A a => Ret a.
Global Instance prog_bind : MBind prog := fun A B f =>
  fix go (p : prog A) : prog B :=
    match p with
    | Ret a => f a
    | Throw e => Throw e
    | Call req k => Call req (fun text => go (k text))
    end.

(** ** resume_generator.py *)

Module resume_generator.

(** The double quote character, as a [str]. *)
Definition dq : string := String "034"%char "".

(** The closing fence of the code-block pattern: [\s*] and three
    backquotes. *)
Definition closes_fence (s : string) : bool :=
  Py.startswith "```" (Py.lstrip s).

(** The lazy group body [.*?\}] followed by the closing fence: the
    shortest text ending in a closing brace after which the fence
    closes. *)
Fixpoint lazy_body (s : string) : option string :=
  match s with
  | "" => None
  | String c s' =>
      if Ascii.eqb c "}"%char && closes_fence s' then Some "}"
      else match lazy_body s' with
           | Some b => Some (String c b)
           | None => None
           end
  end.

(** The code-block pattern matched at the start of [s]: three backquotes,
    an optional [json], whitespace, and the group, an opening brace with
    its lazy body.  The result is group 1. *)
Definition match_fence (s : string) : option string :=
  match Py.strip_prefix "```" s with
  | None => None
  | Some r =>
      let r1 := default r (Py.strip_prefix "json" r) in
      match Py.lstrip r1 with
      | String "{"%char r2 =>
          match lazy_body r2 with
          | Some b => Some (String "{"%char b)
          | None => None
          end
      | _ => None
      end
  end.

(** [re.search] of the code-block pattern with [re.DOTALL]: group 1 of
    the match at the leftmost position that has one. *)
Fixpoint search_fence (s : string) : option string :=
  match match_fence s with
  | Some g => Some g
  | None =>
      match s with
      | "" => None
      | String _ s' => search_fence s'
      end
  end.

(** The greedy [.*\}]: the text up to its last closing brace. *)
Fixpoint upto_last_brace (s : string) : option string :=
  match s with
  | "" => None
  | String c s' =>
      match upto_last_brace s' with
      | Some t => Some (String c t)
      | None => if Ascii.eqb c "}"%char then Some "}" else None
      end
  end.

(** [re.search] of the brace pattern with [re.DOTALL]: from the first
    opening brace to the last closing brace. *)
Fixpoint search_braces (s : string) : option string :=
  match s with
  | "" => None
  | String c s' =>
      if Ascii.eqb c "{"%char then
        match upto_last_brace s' with
        | Some t => Some (String c t)
        | None => None
        end
      else search_braces s'
  end.

(** [extract_json_from_text] *)
Definition extract_json_from_text (text : string) : result json :=
  match Json.loads text with
  | Some v => Ok v
  | None =>
      match search_fence text ≫= Json.loads with
      | Some v => Ok v
      | None =>
          match search_braces text ≫= Json.loads with
          | Some v => Ok v
          | None =>
              Raise (ValueError ("Could not extract valid JSON from response: "
                                 +:+ Py.slice_to 200 text +:+ "..."))
          end
      end
  end.

(** [truncate_bullets_to_25_words] *)
Definition truncate_bullet (bullet : string) : string :=
  let words := Py.split bullet in
  if (25 <? length words)%nat
  then Py.join " " (take 25 words) +:+ "..."
  else bullet.

Definition truncate_bullets_to_25_words (bullets : list string) : list string :=
  truncate_bullet <$> bullets.

(** The line feed, [chr(10)]. *)
Definition nl : string := String "010"%char "".

Definition why_request : string :=
  "1. WHY_RESPONSE: A 3-paragraph narrative explaining why the candidate wants to work at the company, directly tying motivations from 'My Story' to the specific job description. Each paragraph should be 3-5 sentences, separated by blank lines.".

Definition cover_letter_request : string :=
  "2. COVER_LETTER: A full professional cover letter (4-5 paragraphs) tailored to the job description. Follow standard cover letter structure (introduction, value proposition, evidence, cultural fit, closing) and ensure tone is authentic to the story.".

(** One line per experience entry of the story prompt. *)
Definition experience_summary (exp : Experience.t) : string :=
  let bullet_preview :=
    match Experience.description exp with
    | [] => "No detailed responsibilities provided"
    | d => Py.join " " (take 2 d)
    end in
  Experience.title exp +:+ " at " +:+ Experience.company exp +:+ " ("
  +:+ Experience.start_date exp +:+ " - " +:+ Experience.end_date exp +:+ "): "
  +:+ bullet_preview.

Definition story_prompt (story_context summary_context experience_context : string)
    (extra_knowledge : option string) (job_description : string)
    (outputs_requested : list string) : string :=
  "You are an expert career storyteller crafting personalised narratives that feel authentic and compelling.

CANDIDATE STORY (primary source material):
"
  +:+ story_context
  +:+ "

ADDITIONAL CONTEXT:
- Professional Summary (if provided): "
  +:+ (if String.eqb summary_context "" then "No summary provided" else summary_context)
  +:+ "
- Experience Highlights:
"
  +:+ experience_context
  +:+ "
- Extra Knowledge: "
  +:+ (match extra_knowledge with
     | Some e => if String.eqb e "" then "None provided" else e
     | None => "None provided"
     end)
  +:+ "

TARGET JOB DESCRIPTION:
"
  +:+ job_description
  +:+ "

OUTPUT REQUIREMENTS:
"
  +:+ Py.join nl outputs_requested
  +:+ "

STRICT RULES:
- Root every paragraph in the candidate's story, motivations, and authentic experiences.
- Reference relevant elements from the job description (mission, responsibilities, skills) to show alignment.
- Use confident, professional tone without exaggeration or buzzwords.
- Ensure paragraphs are separated by a blank line for readability.
- Return ONLY valid JSON with keys for the requested outputs. Omit keys that were not requested.

Return JSON like:
{" +:+ dq +:+ "why_you_want_to_work_here" +:+ dq +:+ ": " +:+ dq +:+ "..." +:+ dq +:+ ", " +:+ dq +:+ "cover_letter" +:+ dq +:+ ": " +:+ dq +:+ "..." +:+ dq +:+ "}".

Definition story_system : string :=
  "You are an expert career storyteller who writes authentic, tailored narratives. Always respond with valid JSON only.".

(** The keys of the response that were requested and hold a true value,
    stripped. *)
Definition filter_story (include_why include_cover_letter : bool) (res : json)
    : result (list (string * string)) :=
  filtered ←
    (if include_why then
       v ← py_get "why_you_want_to_work_here" res;
       if truthy v then
         w ← py_index "why_you_want_to_work_here" res;
         t ← as_str w;
         mret (dict.set "why_you_want_to_work_here" (Py.strip t) [])
       else mret []
     else mret []);
  if include_cover_letter then
    v ← py_get "cover_letter" res;
    if truthy v then
      w ← py_index "cover_letter" res;
      t ← as_str w;
      mret (dict.set "cover_letter" (Py.strip t) filtered)
    else mret filtered
  else mret filtered.

Definition no_story_error : exn :=
  ValueError "Please add content to 'My Story' in your profile before generating story-based responses.".

Definition no_job_description_error : exn :=
  ValueError "A job description is required to tailor story-based responses.".

(** [ResumeGenerator.generate_story_content] *)
Definition generate_story_content (profile : UserProfile.t) (job_description : string)
    (include_why include_cover_letter : bool) (extra_knowledge : option string)
    : prog (list (string * string)) :=
  if negb include_why && negb include_cover_letter then Ret []
  else if String.eqb (UserProfile.my_story profile) ""
          || String.eqb (Py.strip (UserProfile.my_story profile)) ""
  then Throw no_story_error
  else if String.eqb job_description "" || String.eqb (Py.strip job_description) ""
  then Throw no_job_description_error
  else
    let story_context := Py.strip (UserProfile.my_story profile) in
    let summary_context :=
      if String.eqb (UserProfile.summary profile) "" then ""
      else Py.strip (UserProfile.summary profile) in
    let experience_summaries :=
      experience_summary <$> take 4 (UserProfile.experience profile) in
    let experience_context :=
      match experience_summaries with
      | [] => "No experience entries provided."
      | l => Py.join nl l
      end in
    let outputs_requested :=
      (if include_why then [why_request] else [])
      ++ (if include_cover_letter then [cover_letter_request] else []) in
    let prompt :=
      story_prompt story_context summary_context experience_context
        extra_knowledge job_description outputs_requested in
    Call {| model := "claude-sonnet-4-5"; max_tokens := 1100; temperature := "0.7";
            system := story_system; user_content := prompt |}
      (fun text => lift (res ← extract_json_from_text text;
                         filter_story include_why include_cover_letter res)).

End resume_generator.


(** ** profile_manager.py *)

Module profile_manager.

(** *** [model_dump] *)

Definition dump_str_list (l : list string) : json := JArr (JStr <$> l).

Definition dump_optional_str (o : option string) : json :=
  match o with
  | Some s => JStr s
  | None => JNull
  end.

Definition dump_education (e : Education.t) : json :=
  JObj [("degree", JStr (Education.degree e));
        ("institution", JStr (Education.institution e));
        ("location", JStr (Education.location e));
        ("start_date", JStr (Education.start_date e));
        ("end_date", JStr (Education.end_date e));
        ("gpa", dump_optional_str (Education.gpa e));
        ("relevant_coursework", dump_str_list (Education.relevant_coursework e));
        ("achievements", dump_str_list (Education.achievements e))].

Definition dump_experience (e : Experience.t) : json :=
  JObj [("title", JStr (Experience.title e));
        ("company", JStr (Experience.company e));
        ("location", JStr (Experience.location e));
        ("start_date", JStr (Experience.start_date e));
        ("end_date", JStr (Experience.end_date e));
        ("description", dump_str_list (Experience.description e));
        ("skills_used", dump_str_list (Experience.skills_used e))].

Definition dump_project (p : Project.t) : json :=
  JObj [("name", JStr (Project.name p));
        ("description", JStr (Project.description p));
        ("technologies", dump_str_list (Project.technologies p));
        ("achievements", dump_str_list (Project.achievements p));
        ("url", dump_optional_str (Project.url p))].

Definition model_dump (p : UserProfile.t) : json :=
  JObj [("personal_info", JObj (prod_map id JStr <$> UserProfile.personal_info p));
        ("summary", JStr (UserProfile.summary p));
        ("my_story", JStr (UserProfile.my_story p));
        ("education", JArr (dump_education <$> UserProfile.education p));
        ("experience", JArr (dump_experience <$> UserProfile.experience p));
        ("projects", JArr (dump_project <$> UserProfile.projects p));
        ("skills", JObj (prod_map id dump_str_list <$> UserProfile.skills p));
        ("certifications", dump_str_list (UserProfile.certifications p));
        ("awards", dump_str_list (UserProfile.awards p))].

(** *** Validation: a model built from the keys of a [dict]

    pydantic checks every field against its annotation, fills in the
    default of a field that is absent, ignores keys that are not fields,
    and raises one [ValidationError] if any check fails. *)

Definition v_str (v : json) : result string :=
  match v with
  | JStr s => Ok s
  | _ => Raise ValidationError
  end.

Definition v_optional_str (v : json) : result (option string) :=
  match v with
  | JNull => Ok None
  | JStr s => Ok (Some s)
  | _ => Raise ValidationError
  end.

Definition v_list {A} (item : json -> result A) (v : json) : result (list A) :=
  match v with
  | JArr l => mapM item l
  | _ => Raise ValidationError
  end.

Definition v_dict {A} (item : json -> result A) (v : json)
    : result (list (string * A)) :=
  match v with
  | JObj d => mapM (fun kv => x ← item kv.2; mret (kv.1, x)) d
  | _ => Raise ValidationError
  end.

(** A field without a default. *)
Definition required {A} (item : json -> result A) (key : string)
    (d : list (string * json)) : result A :=
  match dict.get key d with
  | Some v => item v
  | None => Raise ValidationError
  end.

(** A field with a default. *)
Definition optional {A} (item : json -> result A) (key : string) (dflt : A)
    (d : list (string * json)) : result A :=
  match dict.get key d with
  | Some v => item v
  | None => Ok dflt
  end.

Definition validate_education (v : json) : result Education.t :=
  match v with
  | JObj d =>
      degree ← required v_str "degree" d;
      institution ← required v_str "institution" d;
      location ← optional v_str "location" "" d;
      start_date ← required v_str "start_date" d;
      end_date ← required v_str "end_date" d;
      gpa ← optional v_optional_str "gpa" None d;
      relevant_coursework ← optional (v_list v_str) "relevant_coursework" [] d;
      achievements ← optional (v_list v_str) "achievements" [] d;
      mret (Education.mk degree institution location start_date end_date gpa
              relevant_coursework achievements)
  | _ => Raise ValidationError
  end.

Definition validate_experience (v : json) : result Experience.t :=
  match v with
  | JObj d =>
      title ← required v_str "title" d;
      company ← required v_str "company" d;
      location ← optional v_str "location" "" d;
      start_date ← required v_str "start_date" d;
      end_date ← required v_str "end_date" d;
      description ← required (v_list v_str) "description" d;
      skills_used ← optional (v_list v_str) "skills_used" [] d;
      mret (Experience.mk title company location start_date end_date description
              skills_used)
  | _ => Raise ValidationError
  end.

Definition validate_project (v : json) : result Project.t :=
  match v with
  | JObj d =>
      name ← required v_str "name" d;
      description ← required v_str "description" d;
      technologies ← required (v_list v_str) "technologies" d;
      achievements ← required (v_list v_str) "achievements" d;
      url ← optional v_optional_str "url" None d;
      mret (Project.mk name description technologies achievements url)
  | _ => Raise ValidationError
  end.

(** [UserProfile] built from the keys of [data], which must be a mapping. *)
Definition validate (data : json) : result UserProfile.t :=
  match data with
  | JObj d =>
      let dflt := UserProfile.default in
      personal_info ← optional (v_dict v_str) "personal_info"
                        (UserProfile.personal_info dflt) d;
      summary ← optional v_str "summary" "" d;
      my_story ← optional v_str "my_story" "" d;
      education ← optional (v_list validate_education) "education" [] d;
      experience ← optional (v_list validate_experience) "experience" [] d;
      projects ← optional (v_list validate_project) "projects" [] d;
      skills ← optional (v_dict (v_list v_str)) "skills" (UserProfile.skills dflt) d;
      certifications ← optional (v_list v_str) "certifications" [] d;
      awards ← optional (v_list v_str) "awards" [] d;
      mret (UserProfile.mk personal_info summary my_story education experience
              projects skills certifications awards)
  | _ => Raise TypeError
  end.

(** *** The profile directory *)

(** The file of a profile, relative to [profiles_dir]. *)
Definition profile_path (profile_name : string) : string :=
  profile_name +:+ ".json".

Definition exists_ (store : gmap string json) (path : string) : bool :=
  bool_decide (is_Some (store !! path)).

(** The cleaning of a requested profile name. *)
Definition clean (profile_name : string) : string :=
  let clean_name := Py.strip profile_name in
  let clean_name := Py.join " " (Py.split clean_name) in
  Py.replace "." "" clean_name.

Definition versioned (clean_name : string) (version : nat) : string :=
  clean_name +:+ "_v" +:+ pretty version.

(** The auto-version loop, started at [version]: the first version from
    there on whose file does not exist.  [fuel] bounds the number of
    iterations. *)
Fixpoint next_version (store : gmap string json) (clean_name : string)
    (fuel version : nat) : option nat :=
  match fuel with
  | O => None
  | S fuel' =>
      if exists_ store (profile_path (versioned clean_name version))
      then next_version store clean_name fuel' (S version)
      else Some version
  end.

(** [ProfileManager.create_profile]: the directory after the call and the
    returned pair of path and name, or the exception that leaves the call.
    [open_error path] is the exception that [open(path, 'w')] raises for
    the path, as the file system decides (a directory of the path that
    does not exist, a name it refuses), and [None] when the file opens;
    when [open] raises, nothing is written.  The loop gets one iteration
    more than there are files; the outer [None] would mean that it has not
    found a version within them. *)
Definition create_profile (open_error : string -> option exn)
    (store : gmap string json) (profile_name : string)
    (profile : UserProfile.t) (replace : bool)
    : option (result (gmap string json * (string * string))) :=
  let clean_name := clean profile_name in
  let profile_path_ := profile_path clean_name in
  target ←
    (if exists_ store profile_path_ && negb replace then
       version ← next_version store clean_name (S (size store)) 2;
       Some (profile_path (versioned clean_name version), versioned clean_name version)
     else Some (profile_path_, clean_name));
  Some (match open_error target.1 with
        | Some e => Raise e
        | None => Ok (<[target.1 := model_dump profile]> store, target)
        end).

(** *** The migration of the old education format *)

Definition migrate_fields (g : string) (d : list (string * json))
    : list (string * json) :=
  match Py.split g with
  | [month; year] =>
      let start_date :=
        match py_int year ≫= (fun year_int => py_str_of_int (year_int - 4)) with
        | Some start_year => month +:+ " " +:+ start_year
        | None => "Sep 2020"
        end in
      dict.del "graduation_date"
        (dict.set "end_date" (JStr g)
           (dict.set "start_date" (JStr start_date) d))
  | _ => d
  end.

(** The body of the migration loop for one entry. *)
Definition migrate_education (edu : json) : result json :=
  has_grad ← py_in "graduation_date" edu;
  has_start ← (if has_grad then py_in "start_date" edu else Ok false);
  if has_grad && negb has_start then
    grad_date ← py_index "graduation_date" edu;
    if truthy grad_date then
      match grad_date, edu with
      | JStr g, JObj d => Ok (JObj (migrate_fields g d))
      | _, _ => Raise AttributeError
      end
    else Ok edu
  else Ok edu.

(** The migration loop over [data['education']]. *)
Definition migrate (d : list (string * json)) : result (list (string * json)) :=
  match dict.get "education" d with
  | None => Ok d
  | Some education =>
      items ← py_iter education;
      items' ← mapM migrate_education items;
      match education with
      | JArr _ => Ok (dict.set "education" (JArr items') d)
      | _ => Ok d
      end
  end.

(** What [load_profile] does with the document it has read. *)
Definition load_data (data : json) : result UserProfile.t :=
  match data with
  | JObj d => d' ← migrate d; validate (JObj d')
  | _ => Raise TypeError
  end.

Definition not_found (profile_name : string) : exn :=
  FileNotFoundError ("Profile '" +:+ profile_name +:+ "' not found").

(** [ProfileManager.load_profile] *)
Definition load_profile (store : gmap string json) (profile_name : string)
    : result UserProfile.t :=
  match store !! profile_path profile_name with
  | None => Raise (not_found profile_name)
  | Some data => load_data data
  end.

(** [ProfileManager.delete_profile] *)
Definition delete_profile (store : gmap string json) (profile_name : string)
    : gmap string json * bool :=
  if exists_ store (profile_path profile_name)
  then (delete (profile_path profile_name) store, true)
  else (store, false).

(** *** Listing *)

(** [p.stem]: the final component of a path without its last suffix.  A
    dot that starts or ends the name starts no suffix (pathlib up to
    Python 3.13; later versions differ on names made of dots only). *)
Definition stem (name : string) : string :=
  match Py.rfind "." name with
  | Some i =>
      if (0 <? i)%nat && (i <? String.length name - 1)%nat
      then Py.slice_to i name
      else name
  | None => name
  end.

(** What [glob] yields for the pattern [*.json]: the files of the
    directory itself whose name ends in [.json].  [glob] gives them in no
    particular order; here they come in the order of the map. *)
Definition glob_json (store : gmap string json) : list string :=
  filter (fun path => negb (Py.has_char "/" path) && Py.endswith ".json" path = true)
    (map_to_list store).*1.

(** [ProfileManager.list_profiles] *)
Definition list_profiles (store : gmap string json) : list string :=
  stem <$> glob_json store.

(** [ProfileManager.create_default_profile] *)
Definition create_default_profile : UserProfile.t := UserProfile.default.

End profile_manager.

(** ** backend/profile_manager.py

    The models, [create_profile] and the migration are those of
    profile_manager.py; [load_profile] also looks into the backup
    directories found when the manager was created. *)

Module backend_profile_manager.

Definition create_profile := profile_manager.create_profile.

(** The first backup directory that has the file. *)
Fixpoint find_backup (backup_dirs : list (gmap string json)) (path : string)
    : option json :=
  match backup_dirs with
  | [] => None
  | backup_dir :: rest =>
      match backup_dir !! path with
      | Some data => Some data
      | None => find_backup rest path
      end
  end.

(** [ProfileManager.load_profile] *)
Definition load_profile (store : gmap string json)
    (backup_dirs : list (gmap string json)) (profile_name : string)
    : result UserProfile.t :=
  let path := profile_manager.profile_path profile_name in
  match store !! path with
  | Some data => profile_manager.load_data data
  | None =>
      match find_backup backup_dirs path with
      | Some data => profile_manager.load_data data
      | None => Raise (profile_manager.not_found profile_name)
      end
  end.

(** The listing of the first backup directory that has a profile. *)
Fixpoint first_listing (backup_dirs : list (gmap string json)) : list string :=
  match backup_dirs with
  | [] => []
  | backup_dir :: rest =>
      match profile_manager.list_profiles backup_dir with
      | [] => first_listing rest
      | backup_names => backup_names
      end
  end.

(** [ProfileManager.list_profiles]: the profiles of the directory, and
    those of a backup directory when it has none. *)
Definition list_profiles (store : gmap string json)
    (backup_dirs : list (gmap string json)) : list string :=
  match profile_manager.list_profiles store with
  | [] => first_listing backup_dirs
  | names => names
  end.

Definition delete_profile := profile_manager.delete_profile.

End backend_profile_manager.

(** ** Files that hold JSON *)

(** What reading a file as JSON meets: no such file, a file that cannot be
    read or parsed, or a document. *)
Inductive file : Type :=
  | no_file
  | unreadable
  | document (v : json).

(** ** app.py: the history of generated resumes *)

Module app.

(** What the environment supplies to one call: the identifiers
    [uuid.uuid4()] returns, the formatted time of [datetime.now()], and
    whether writing the history file, and the fallback write after a
    failed one, go through. *)
Record env : Type := mk_env {
  uuid4 : nat -> string;
  now : string;
  write_ok : bool;
  fallback_ok : bool
}.

(** The part of [st.session_state] that the history uses, and the content
    of [HISTORY_FILE] ([None]: no such file). *)
Record state : Type := mk_state {
  resume_history : option (list json);
  current_resume_index : Z;
  history_file : option (list json)
}.

Definition is_dict (v : json) : bool :=
  match v with
  | JObj _ => true
  | _ => false
  end.

(** [d.setdefault(key, v)] *)
Definition setdefault (key : string) (v : json) (d : list (string * json))
    : list (string * json) :=
  if dict.has key d then d else dict.set key v d.

(** The copy of one history item that is written, with the fields a
    reader needs. *)
Definition item_to_save (e : env) (i : nat) (item : json) : json :=
  match item with
  | JObj d =>
      JObj (setdefault "job_description" (JStr "")
             (setdefault "company" (JStr "")
               (setdefault "job_title" (JStr "Untitled")
                 (setdefault "timestamp" (JStr (now e))
                   (setdefault "id" (JStr (uuid4 e (S i))) d)))))
  | _ => item
  end.

(** [save_resume_history]: the items that are dictionaries replace the
    content of the file; if that fails, an empty list is written; if that
    fails too, the file stays as it was. *)
Definition save_resume_history (e : env) (st : state) : state :=
  match resume_history st with
  | None => st
  | Some history =>
      let history_to_save := imap (item_to_save e) (filter (fun x => is_dict x = true) history) in
      let file :=
        if write_ok e then Some history_to_save
        else if fallback_ok e then Some []
        else history_file st in
      mk_state (resume_history st) (current_resume_index st) file
  end.

(** [x or dflt] for [str] operands. *)
Definition or_str (x dflt : string) : string :=
  if String.eqb x "" then dflt else x.

(** The entry [add_to_history] creates. *)
Definition new_entry (e : env) (resume_data : json)
    (job_description company_name job_title : string) : json :=
  JObj [("id", JStr (uuid4 e 0));
        ("timestamp", JStr (now e));
        ("job_description", JStr job_description);
        ("resume", resume_data);
        ("job_title", JStr (or_str job_title "Untitled"));
        ("company", JStr (or_str company_name ""))].

(** [add_to_history] *)
Definition add_to_history (e : env) (st : state) (resume_data : json)
    (job_description company_name job_title : string) : state :=
  let history := default [] (resume_history st) in
  let entry := new_entry e resume_data job_description company_name job_title in
  let history := entry :: history in
  let history := take 20 history in
  save_resume_history e (mk_state (Some history) 0 (history_file st)).

(** The fields [load_resume_history] makes sure of in an entry; the
    [k]-th entry that is a dictionary gets the [k]-th identifier. *)
Definition with_required_fields (e : env) (k : nat) (d : list (string * json))
    : list (string * json) :=
  setdefault "resume" (JObj [])
    (setdefault "job_description" (JStr "")
      (setdefault "company" (JStr "")
        (setdefault "job_title" (JStr "Untitled")
          (setdefault "timestamp" (JStr (now e))
            (setdefault "id" (JStr (uuid4 e k)) d))))).

Fixpoint ensure_fields (e : env) (k : nat) (history : list json) : list json :=
  match history with
  | [] => []
  | JObj d :: rest => JObj (with_required_fields e k d) :: ensure_fields e (S k) rest
  | item :: rest => item :: ensure_fields e k rest
  end.

(** [load_resume_history]: the document of [HISTORY_FILE], its entries
    completed.  The loop runs over the items of a list, the keys of a
    dictionary or the characters of a text, and only changes items that
    are dictionaries; any failure gives the empty list. *)
Definition load_resume_history (e : env) (content : file) : json :=
  match content with
  | no_file => JArr []
  | unreadable => JArr []
  | document (JArr history) => JArr (ensure_fields e 0 history)
  | document (JObj d) => JObj d
  | document (JStr s) => JStr s
  | document _ => JArr []
  end.

(** [load_api_key]: the key of the environment when it is set, else the
    one of the configuration file, else the empty text. *)
Definition load_api_key (env_key : string) (config : file) : json :=
  if negb (String.eqb env_key "") then JStr env_key
  else match config with
       | document (JObj d) => default (JStr "") (dict.get "api_key" d)
       | _ => JStr ""
       end.

(** [save_api_key]: the configuration file after the call and the value
    returned; [writable] tells whether the file can be written. *)
Definition save_api_key (writable : bool) (config : file) (api_key : string)
    : file * bool :=
  if writable then (document (JObj [("api_key", JStr api_key)]), true)
  else (config, false).

(** [auto_save_profile]: the profile directory after the call and the value
    returned.  An exception of [create_profile] is caught and reported. *)
Definition auto_save_profile (open_error : string -> option exn)
    (store : gmap string json)
    (current_profile_name : option string) (profile : option UserProfile.t)
    : gmap string json * bool :=
  match current_profile_name, profile with
  | Some name, Some p =>
      if String.eqb name "" then (store, false)
      else match profile_manager.create_profile open_error store name p true with
           | Some (Ok (store', _)) => (store', true)
           | Some (Raise _) => (store, false)
           | None => (store, false)
           end
  | _, _ => (store, false)
  end.

End app.

(** ** export_handler.py *)

Module export_handler.

(** *** Text

    The text of [str(v)] for a value that is not a [str] is left symbolic.
    A value handed on as it is, where text is expected, is kept as the
    value. *)

Inductive frag : Type :=
  | Lit (s : string)
  | Str (v : json).

Definition text : Type := list frag.

(** [v] inside an f-string. *)
Definition fmt (v : json) : text :=
  match v with
  | JStr s => [Lit s]
  | _ => [Str v]
  end.

Inductive line : Type :=
  | LText (t : text)
  | LRaw (v : json).

Definition raw (v : json) : line :=
  match v with
  | JStr s => LText [Lit s]
  | _ => LRaw v
  end.

(** The bullet sign U+2022.  It lies outside the modelled code points and
    only occurs in the text that is written. *)
Definition bullet_sign : string := "•".

(** [len(v)] *)
Definition py_len (v : json) : result nat :=
  match v with
  | JArr l => Ok (length l)
  | JObj d => Ok (length d)
  | JStr s => Ok (String.length s)
  | _ => Raise TypeError
  end.

(** An element handed to [str.join]. *)
Definition join_item (v : json) : result string :=
  match v with
  | JStr s => Ok s
  | _ => Raise TypeError
  end.

(** [sep.join(v)] for a value [v]. *)
Definition py_join (sep : string) (v : json) : result string :=
  items ← py_iter v;
  strs ← mapM join_item items;
  mret (Py.join sep strs).

(** [achievement.lstrip] of the bullet sign and the space; on the modelled
    code points only the space can be met. *)
Definition lstrip_bullet (v : json) : result string :=
  s ← as_str v;
  mret (Py.lstrip_chars " " s).

(** A guard [if d.get(key):]. *)
Definition has_value (key : string) (d : json) : result bool :=
  v ← py_get key d;
  mret (truthy v).

(** A guard [if d.get(key) and len(d[key]) > 0:]. *)
Definition has_items (key : string) (d : json) : result bool :=
  v ← py_get key d;
  if truthy v then
    w ← py_index key d;
    n ← py_len w;
    mret (0 <? n)%nat
  else mret false.

(** [for x in d[key]: body], the outputs of the body in order. *)
Definition for_each {A} (key : string) (d : json) (body : json -> result (list A))
    : result (list A) :=
  v ← py_index key d;
  items ← py_iter v;
  outs ← mapM body items;
  mret (concat outs).

(** [when c body]: the output of [body] if [c], nothing otherwise. *)
Definition when {A} (c : bool) (body : result (list A)) : result (list A) :=
  if (c : bool) then body else mret [].

(** The values of [keys] in [personal] that are true, in order. *)
Fixpoint present_values (keys : list string) (personal : json) : result (list json) :=
  match keys with
  | [] => mret []
  | key :: keys' =>
      c ← has_value key personal;
      here ← (if (c : bool) then (v ← py_index key personal; mret [v]) else mret []);
      rest ← present_values keys' personal;
      mret (here ++ rest)
  end.

(** [date_location]: the dates of an experience entry and its location. *)
Definition date_location (exp : json) : result text :=
  start_date ← py_get_default "start_date" (JStr "") exp;
  end_date ← py_get_default "end_date" (JStr "") exp;
  c ← has_value "location" exp;
  loc ← (if (c : bool) then (v ← py_index "location" exp; mret ([Lit " | "] ++ fmt v))
         else mret []);
  mret (fmt start_date ++ [Lit " - "] ++ fmt end_date ++ loc).

(** [x += t] for a value [x] and a text [t]: concatenation on a [str]; a
    [list] is extended and stays a list; other values have no such
    operation. *)
Definition iadd (x : line) (t : text) : result line :=
  match x with
  | LText u => Ok (LText (u ++ t))
  | LRaw (JArr l) => Ok (LRaw (JArr l))
  | LRaw _ => Raise TypeError
  end.

(** [edu_info]: the institution of an education entry with its location
    and graduation date. *)
Definition edu_info (edu : json) : result line :=
  institution ← py_index "institution" edu;
  c ← has_value "location" edu;
  info ← (if (c : bool) then (v ← py_index "location" edu;
                    iadd (raw institution) ([Lit " | "] ++ fmt v))
          else mret (raw institution));
  c ← has_value "graduation_date" edu;
  if (c : bool) then (v ← py_index "graduation_date" edu; iadd info ([Lit " | "] ++ fmt v))
  else mret info.

(** One line of the skills section, if the category has entries. *)
Definition skills_row {A} (key : string) (skills : json)
    (row : string -> list A) : result (list A) :=
  c ← has_value key skills;
  if (c : bool) then (v ← py_index key skills; t ← py_join ", " v; mret (row t))
  else mret [].

(** *** [export_to_txt] *)

Definition rule (c : string) : line := LText [Lit (Py.join "" (replicate 80 c))].

Definition lit (s : string) : line := LText [Lit s].

Definition bullet_line (v : json) : line :=
  LText ([Lit ("  " +:+ bullet_sign +:+ " ")] ++ fmt v).

Definition txt_experience (exp : json) : result (list line) :=
  title ← py_index "title" exp;
  company ← py_index "company" exp;
  dl ← date_location exp;
  description ← py_get_default "description" (JArr []) exp;
  bullets ← py_iter description;
  mret ([LText (fmt title ++ [Lit " - "] ++ fmt company); LText dl]
        ++ (bullet_line <$> bullets) ++ [lit ""]).

Definition txt_project (project : json) : result (list line) :=
  name ← py_index "name" project;
  c ← has_value "technologies" project;
  tech ← (if (c : bool) then (v ← py_index "technologies" project; t ← py_join ", " v;
                    mret [lit ("Technologies: " +:+ t)])
          else mret []);
  description ← py_index "description" project;
  c ← has_value "achievements" project;
  ach ← when (c : bool) (for_each "achievements" project (fun a => mret [bullet_line a]));
  mret ([raw name] ++ tech ++ [raw description] ++ ach ++ [lit ""]).

Definition txt_education (edu : json) : result (list line) :=
  degree ← py_index "degree" edu;
  info ← edu_info edu;
  c ← has_value "gpa" edu;
  gpa ← (if (c : bool) then (v ← py_index "gpa" edu; mret [LText ([Lit "GPA: "] ++ fmt v)])
         else mret []);
  c ← has_items "achievements" edu;
  ach ← when (c : bool) (for_each "achievements" edu (fun a =>
                  t ← lstrip_bullet a;
                  mret [lit ("  " +:+ bullet_sign +:+ " " +:+ t)]));
  mret ([raw degree; info] ++ gpa ++ ach ++ [lit ""]).

(** The argument of the final [join]: every line must be a [str]. *)
Definition line_text (l : line) : result text :=
  match l with
  | LText t => Ok t
  | LRaw _ => Raise TypeError
  end.

Fixpoint join_lines (ts : list text) : text :=
  match ts with
  | [] => []
  | [t] => t
  | t :: ts' => t ++ [Lit (String "010"%char "")] ++ join_lines ts'
  end.

(** The lines [export_to_txt] collects. *)
Definition txt_lines (resume_data : json) : result (list line) :=
  personal ← py_get_default "personal_info" (JObj []) resume_data;
  name ← py_get_default "name" (JStr "Your Name") personal;
  name ← as_str name;
  contact_info ← present_values ["email"; "phone"; "location"] personal;
  contact ← (match contact_info with
             | [] => mret []
             | _ => t ← py_join " | " (JArr contact_info); mret [lit t]
             end);
  c ← has_value "linkedin" personal;
  linkedin ← (if (c : bool) then (v ← py_index "linkedin" personal;
                        mret [LText ([Lit "LinkedIn: "] ++ fmt v)])
              else mret []);
  c ← has_value "github" personal;
  github ← (if (c : bool) then (v ← py_index "github" personal;
                      mret [LText ([Lit "GitHub: "] ++ fmt v)])
            else mret []);
  c ← has_value "summary" resume_data;
  summary ← (if (c : bool) then (v ← py_index "summary" resume_data;
                       mret [lit "PROFESSIONAL SUMMARY"; rule "-"; raw v; lit ""])
             else mret []);
  c ← has_value "experience" resume_data;
  experience ← when (c : bool) (entries ← for_each "experience" resume_data txt_experience;
                       mret ([lit "PROFESSIONAL EXPERIENCE"; rule "-"] ++ entries));
  c ← has_items "projects" resume_data;
  projects ← when (c : bool) (entries ← for_each "projects" resume_data txt_project;
                     mret ([lit "PROJECTS"; rule "-"] ++ entries));
  c ← has_value "education" resume_data;
  education ← when (c : bool) (entries ← for_each "education" resume_data txt_education;
                      mret ([lit "EDUCATION"; rule "-"] ++ entries));
  c ← has_value "skills" resume_data;
  skills ← when (c : bool) (skills ← py_index "skills" resume_data;
                   technical ← skills_row "technical" skills
                                 (fun t => [lit ("Technical: " +:+ t)]);
                   languages ← skills_row "languages" skills
                                 (fun t => [lit ("Languages: " +:+ t)]);
                   tools ← skills_row "tools" skills
                             (fun t => [lit ("Tools: " +:+ t)]);
                   mret ([lit "SKILLS"; rule "-"] ++ technical ++ languages ++ tools
                         ++ [lit ""]));
  c ← has_items "certifications" resume_data;
  certifications ← when (c : bool) (entries ← for_each "certifications" resume_data
                                       (fun cert => mret [LText ([Lit (bullet_sign +:+ " ")] ++ fmt cert)]);
                           mret ([lit "CERTIFICATIONS"; rule "-"] ++ entries));
  mret ([lit (Py.upper name); rule "="] ++ contact ++ linkedin ++ github ++ [lit ""]
        ++ summary ++ experience ++ projects ++ education ++ skills ++ certifications).

(** [ResumeExporter.export_to_txt]: the text written to the file. *)
Definition export_to_txt (resume_data : json) : result text :=
  lines ← txt_lines resume_data;
  ts ← mapM line_text lines;
  mret (join_lines ts).

(** *** [export_to_pdf] *)

(** The calls made on the [FPDF] object, [FPDF()] itself being the first.
    [line_at_y] stands for [pdf.line(10, pdf.get_y(), 200, pdf.get_y())]. *)
Inductive pdf_op : Type :=
  | new_document
  | add_page
  | set_auto_page_break (margin : nat)
  | add_font (family style fname : string)
  | set_font (family style : string) (size : nat)
  | cell (w h : nat) (txt : line) (ln : bool) (align : string)
  | multi_cell (w h : nat) (txt : line)
  | ln (h : nat)
  | line_at_y
  | output.

(** The run of the code on the document: the calls it makes, in the order
    of the program, and how the code itself goes on after them: with a
    value, or with the exception of one of its own steps.  What the
    library does with a call is not part of the script. *)
Record script (A : Type) : Type := mk_script {
  calls : list pdf_op;
  outcome : result A
}.
Arguments mk_script {A} calls outcome.
Arguments calls {A} s.
Arguments outcome {A} s.

#[global] Instance script_ret : MRet script := fun A a => mk_script [] (Ok a).
#[global] Instance script_bind : MBind script := fun A B k m =>
  match m with
  | mk_script made (Ok a) =>
      match k a with
      | mk_script more r => mk_script (made ++ more) r
      end
  | mk_script made (Raise e) => mk_script made (Raise e)
  end.

(** A call on the document, and a step of the code that makes none. *)
Definition call (op : pdf_op) : script unit := mk_script [op] (Ok tt).

Definition eval {A} (r : result A) : script A := mk_script [] r.

(** [for x in items: body] *)
Fixpoint each {A} (items : list A) (body : A -> script unit) : script unit :=
  match items with
  | [] => mret tt
  | x :: items' => _ ← body x; each items' body
  end.

(** [for x in d[key]: body] *)
Definition for_each_call (key : string) (d : json) (body : json -> script unit)
    : script unit :=
  v ← eval (py_index key d);
  items ← eval (py_iter v);
  each items body.

(** [if c: body] *)
Definition when_call (c : bool) (body : script unit) : script unit :=
  if c then body else mret tt.

(** A section heading with its rule. *)
Definition pdf_heading (title : string) : script unit :=
  _ ← call (set_font "Times" "B" 12);
  _ ← call (cell 0 7 (lit title) true "");
  _ ← call line_at_y;
  call (ln 2).

Definition pdf_bullet (v : json) : pdf_op :=
  multi_cell 0 5 (bullet_line v).

Definition pdf_experience (exp : json) : script unit :=
  _ ← call (set_font "Times" "B" 11);
  title ← eval (py_index "title" exp);
  company ← eval (py_index "company" exp);
  _ ← call (cell 0 6 (LText (fmt title ++ [Lit " - "] ++ fmt company)) true "");
  _ ← call (set_font "Times" "I" 9);
  dl ← eval (date_location exp);
  _ ← call (cell 0 5 (LText dl) true "");
  _ ← call (set_font "Times" "" 10);
  description ← eval (py_get_default "description" (JArr []) exp);
  bullets ← eval (py_iter description);
  _ ← each bullets (fun bullet => call (pdf_bullet bullet));
  call (ln 2).

Definition pdf_project (project : json) : script unit :=
  _ ← call (set_font "Times" "B" 11);
  name ← eval (py_index "name" project);
  _ ← call (cell 0 6 (raw name) true "");
  _ ← call (set_font "Times" "I" 9);
  c ← eval (has_value "technologies" project);
  _ ← when_call c (v ← eval (py_index "technatives" project);
                   t ← eval (py_join ", " v);
                   call (cell 0 5 (lit ("Technologies: " +:+ t)) true ""));
  _ ← call (set_font "Times" "" 10);
  description ← eval (py_index "description" project);
  _ ← call (multi_cell 0 5 (raw description));
  c ← eval (has_value "achievements" project);
  _ ← when_call c (for_each_call "achievements" project
                     (fun a => call (pdf_bullet a)));
  call (ln 2).

Definition pdf_education (edu : json) : script unit :=
  _ ← call (set_font "Times" "B" 11);
  degree ← eval (py_index "degree" edu);
  _ ← call (cell 0 6 (raw degree) true "");
  _ ← call (set_font "Times" "" 10);
  info ← eval (edu_info edu);
  _ ← call (cell 0 5 info true "");
  c ← eval (has_value "gpa" edu);
  _ ← when_call c (v ← eval (py_index "gpa" edu);
                   call (cell 0 5 (LText ([Lit "GPA: "] ++ fmt v)) true ""));
  c ← eval (has_items "achievements" edu);
  _ ← when_call c (for_each_call "achievements" edu (fun a =>
                     t ← eval (lstrip_bullet a);
                     call (multi_cell 0 5 (lit ("  " +:+ bullet_sign +:+ " " +:+ t)))));
  call (ln 2).

(** One category of the skills section, if it has entries: the calls
    before the text of the category is made, the text, and the calls
    after it. *)
Definition pdf_skills_row (key : string) (skills : json)
    (before : list pdf_op) (after : list pdf_op) : script unit :=
  c ← eval (has_value key skills);
  when_call c (_ ← each before call;
               v ← eval (py_index key skills);
               t ← eval (py_join ", " v);
               _ ← call (multi_cell 0 5 (lit t));
               each after call).

(** The body of [ResumeExporter.export_to_pdf]. *)
Definition pdf_script (resume_data : json) : script unit :=
  _ ← call new_document;
  _ ← call add_page;
  _ ← call (set_auto_page_break 15);
  _ ← call (add_font "Times" "" "times.ttf");
  _ ← call (add_font "Times" "B" "timesbd.ttf");
  _ ← call (add_font "Times" "I" "timesi.ttf");
  _ ← call (add_font "Times" "BI" "timesbi.ttf");
  personal ← eval (py_get_default "personal_info" (JObj []) resume_data);
  _ ← call (set_font "Times" "B" 20);
  name ← eval (py_get_default "name" (JStr "Your Name") personal);
  _ ← call (cell 0 10 (raw name) true "C");
  _ ← call (set_font "Times" "" 10);
  contact_info ← eval (present_values ["email"; "phone"; "location"] personal);
  contact ← eval (py_join " | " (JArr contact_info));
  _ ← call (cell 0 5 (lit contact) true "C");
  c ← eval (has_value "linkedin" personal);
  linkedin ← eval (if (c : bool) then (v ← py_index "linkedin" personal;
                                      mret [[Lit "LinkedIn: "] ++ fmt v])
                   else mret []);
  c ← eval (has_value "github" personal);
  github ← eval (if (c : bool) then (v ← py_index "github" personal;
                                    mret [[Lit "GitHub: "] ++ fmt v])
                 else mret []);
  _ ← match linkedin ++ github with
      | [] => mret tt
      | [l] => call (cell 0 5 (LText l) true "C")
      | l1 :: l2 :: _ => call (cell 0 5 (LText (l1 ++ [Lit " | "] ++ l2)) true "C")
      end;
  _ ← call (ln 5);
  c ← eval (has_value "summary" resume_data);
  _ ← when_call c (_ ← pdf_heading "PROFESSIONAL SUMMARY";
                   _ ← call (set_font "Times" "" 10);
                   v ← eval (py_index "summary" resume_data);
                   _ ← call (multi_cell 0 5 (raw v));
                   call (ln 3));
  c ← eval (has_value "experience" resume_data);
  _ ← when_call c (_ ← pdf_heading "PROFESSIONAL EXPERIENCE";
                   for_each_call "experience" resume_data pdf_experience);
  c ← eval (has_items "projects" resume_data);
  _ ← when_call c (_ ← pdf_heading "PROJECTS";
                   for_each_call "projects" resume_data pdf_project);
  c ← eval (has_value "education" resume_data);
  _ ← when_call c (_ ← pdf_heading "EDUCATION";
                   for_each_call "education" resume_data pdf_education);
  c ← eval (has_value "skills" resume_data);
  _ ← when_call c (_ ← call (ln 5);
                   _ ← pdf_heading "SKILLS";
                   _ ← call (set_font "Times" "B" 10);
                   skills ← eval (py_index "skills" resume_data);
                   _ ← pdf_skills_row "technical" skills
                         [cell 40 5 (lit "Technical:") false ""; set_font "Times" "" 10]
                         [ln 1];
                   _ ← pdf_skills_row "languages" skills
                         [set_font "Times" "B" 10; cell 40 5 (lit "Languages:") false "";
                          set_font "Times" "" 10]
                         [ln 1];
                   pdf_skills_row "tools" skills
                     [set_font "Times" "B" 10; cell 40 5 (lit "Tools:") false "";
                      set_font "Times" "" 10]
                     []);
  c ← eval (has_items "certifications" resume_data);
  _ ← when_call c (_ ← call (ln 2);
                   _ ← pdf_heading "CERTIFICATIONS";
                   _ ← call (set_font "Times" "" 10);
                   for_each_call "certifications" resume_data (fun cert =>
                     call (cell 0 5 (LText ([Lit (bullet_sign +:+ " ")] ++ fmt cert))
                             true "")));
  call output.

(** The library run on the calls of a script.  [fpdf made op] is the
    exception that the call [op] raises after the calls [made], as the
    installed package and the files at hand decide (the font files that
    [add_font] reads, the characters a font can show), and [None] when
    the call returns.  The first call that raises ends the run. *)
Fixpoint perform (fpdf : list pdf_op -> pdf_op -> option exn)
    (made todo : list pdf_op) : result (list pdf_op) :=
  match todo with
  | [] => Ok made
  | op :: rest =>
      match fpdf made op with
      | Some e => Raise e
      | None => perform fpdf (made ++ [op]) rest
      end
  end.

(** [ResumeExporter.export_to_pdf]: the calls made on the document, in
    order, when the export returns. *)
Definition export_to_pdf (fpdf : list pdf_op -> pdf_op -> option exn)
    (resume_data : json) : result (list pdf_op) :=
  let s := pdf_script resume_data in
  made ← perform fpdf [] (calls s);
  _ ← outcome s;
  mret made.

(** *** [export_to_docx] *)

(** A run of a paragraph with its character formatting, and the
    paragraphs added to the document.  Sizes, spacing, indentation and tab
    stops are not kept. *)
Record text_run : Type := mk_run {
  run_text : line;
  bold : bool;
  italic : bool
}.

Inductive docx_op : Type :=
  | setup_styles
  | name_table (name : text_run)
  | paragraph (style : string) (runs : list text_run) (border centered : bool)
  | save.

Definition plain (t : line) : text_run := mk_run t false false.
Definition in_bold (t : line) : text_run := mk_run t true false.
Definition in_italic (t : line) : text_run := mk_run t false true.

Definition docx_heading (title : string) (border : bool) : docx_op :=
  paragraph "Heading 2" [in_bold (lit title)] border false.

Definition docx_bullet (t : line) : docx_op :=
  paragraph "List Bullet" [plain t] false false.

(** [s + v] for a [str] [s]: defined when [v] is a [str]. *)
Definition str_add (s : string) (v : json) : result string :=
  match v with
  | JStr t => Ok (s +:+ t)
  | _ => Raise TypeError
  end.

(** A link without its scheme and [www.] prefix. *)
Definition bare_url (v : json) : result string :=
  s ← as_str v;
  mret (Py.replace "www." "" (Py.replace "https://" "" (Py.replace "http://" "" s))).

Definition docx_link (key : string) (personal : json) : result (list json) :=
  c ← has_value key personal;
  if (c : bool) then (v ← py_index key personal; u ← bare_url v; mret [JStr u])
  else mret [].

Definition docx_education (edu : json) : result (list docx_op) :=
  institution ← py_get_default "institution" (JStr "") edu;
  c ← has_value "location" edu;
  loc ← (if (c : bool) then (v ← py_index "location" edu;
                              mret [plain (LText ([Lit " - "] ++ fmt v))])
         else mret []);
  c ← has_value "end_date" edu;
  date ← (if (c : bool) then (v ← py_index "end_date" edu;
                               t ← str_add (String "009"%char "") v;
                               mret [in_bold (lit t)])
          else mret []);
  degree ← py_get_default "degree" (JStr "") edu;
  c ← has_items "achievements" edu;
  ach ← when (c : bool) (for_each "achievements" edu (fun a =>
                  t ← lstrip_bullet a;
                  mret [docx_bullet (lit t)]));
  mret ([paragraph "No Spacing" ([in_bold (raw institution)] ++ loc ++ date) false false;
         paragraph "No Spacing" [in_italic (raw degree)] false false] ++ ach).

Definition docx_experience (exp : json) : result (list docx_op) :=
  company ← py_index "company" exp;
  c ← has_value "location" exp;
  loc ← (if (c : bool) then (v ← py_index "location" exp;
                              mret [plain (LText ([Lit " - "] ++ fmt v))])
         else mret []);
  start_date ← py_get_default "start_date" (JStr "") exp;
  end_date ← py_get_default "end_date" (JStr "") exp;
  title ← py_get_default "title" (JStr "") exp;
  description ← py_get_default "description" (JArr []) exp;
  bullets ← py_iter description;
  mret ([paragraph "Normal"
           ([in_bold (LText (fmt company))] ++ loc
            ++ [plain (lit (String "009"%char ""));
                in_bold (LText (fmt start_date ++ [Lit " - "] ++ fmt end_date))])
           false false;
         paragraph "No Spacing" [in_italic (raw title)] false false]
        ++ ((fun b => docx_bullet (raw b)) <$> bullets)).

Definition docx_project (project : json) : result (list docx_op) :=
  name ← py_get_default "name" (JStr "") project;
  c ← has_value "technologies" project;
  tech ← (if (c : bool) then (v ← py_index "technologies" project; t ← py_join ", " v;
                    mret [paragraph "No Spacing"
                            [in_italic (lit "Technologies: "); plain (lit t)]
                            false false])
          else mret []);
  c ← has_value "description" project;
  description ← (if (c : bool) then (v ← py_index "description" project;
                            mret [paragraph "No Spacing" [plain (raw v)] false false])
                 else mret []);
  c ← has_value "achievements" project;
  ach ← when (c : bool) (for_each "achievements" project
                           (fun a => mret [docx_bullet (raw a)]));
  mret ([paragraph "No Spacing" [in_bold (raw name)] false false]
        ++ tech ++ description ++ ach ++ [paragraph "Normal" [] false false]).

Definition docx_skills_row (label : string) (t : string) : list docx_op :=
  [paragraph "No Spacing" [in_bold (lit label); plain (lit t)] false false].

(** [ResumeExporter.export_to_docx]: what is added to the document, in
    order. *)
Definition export_to_docx (resume_data : json) : result (list docx_op) :=
  personal ← py_get_default "personal_info" (JObj []) resume_data;
  name ← py_get_default "name" (JStr "Your Name") personal;
  name ← as_str name;
  contact_info ← present_values ["email"; "phone"; "location"] personal;
  linkedin ← docx_link "linkedin" personal;
  github ← docx_link "github" personal;
  contact ← (match contact_info ++ linkedin ++ github with
             | [] => mret []
             | parts => t ← py_join " | " (JArr parts);
                        mret [paragraph "Normal" [plain (lit t)] false true]
             end);
  c ← has_value "summary" resume_data;
  summary ← (if (c : bool) then (v ← py_index "summary" resume_data;
                       mret [docx_heading "PROFESSIONAL SUMMARY" true;
                             paragraph "Normal" [plain (raw v)] false false])
             else mret []);
  c ← has_value "education" resume_data;
  education ← when (c : bool) (entries ← for_each "education" resume_data docx_education;
                      mret ([docx_heading "EDUCATION" true] ++ entries));
  c ← has_value "experience" resume_data;
  experience ← when (c : bool) (entries ← for_each "experience" resume_data docx_experience;
                       mret ([docx_heading "PROFESSIONAL EXPERIENCE" true] ++ entries));
  c ← has_items "projects" resume_data;
  projects ← when (c : bool) (entries ← for_each "projects" resume_data docx_project;
                     mret ([docx_heading "PROJECTS" true] ++ entries));
  c ← has_value "skills" resume_data;
  skills ← when (c : bool) (skills ← py_index "skills" resume_data;
                   technical ← skills_row "technical" skills (docx_skills_row "Technical: ");
                   languages ← skills_row "languages" skills (docx_skills_row "Languages: ");
                   tools ← skills_row "tools" skills (docx_skills_row "Tools: ");
                   mret ([docx_heading "SKILLS" true] ++ technical ++ languages ++ tools));
  c ← has_items "certifications" resume_data;
  certifications ← when (c : bool) (entries ← for_each "certifications" resume_data
                                       (fun cert => mret [docx_bullet (raw cert)]);
                           mret ([docx_heading "CERTIFICATIONS" false] ++ entries));
  mret ([setup_styles; name_table (in_bold (lit (Py.upper name)))] ++ contact
        ++ summary ++ education ++ experience ++ projects ++ skills ++ certifications
        ++ [save]).

End export_handler.

(** ** resume_generator.py: the tailoring of a resume

    The methods of [ResumeGenerator] other than [generate_story_content].
    Two things that depend on the interpreter are parameters: the text
    [str(v)] of a value that is not a [str], and the exception of [d[:n]]
    for a dictionary [d] ([TypeError] before Python 3.12, [KeyError]
    since). *)

Module ResumeGenerator.
Import resume_generator.

Section python.

Variable repr : json -> string.
Variable dict_slice_error : exn.

(** [v] inside an f-string. *)
Definition fstr (v : json) : string :=
  match v with
  | JStr s => s
  | _ => repr v
  end.

(** An [int] inside an f-string. *)
Definition format_int (n : Z) : result string :=
  match py_str_of_int n with
  | Some s => Ok s
  | None =>
      Raise (ValueError "Exceeds the limit (4300 digits) for integer string conversion; use sys.set_int_max_str_digits() to increase the limit")
  end.

(** [v[:n]] *)
Definition py_slice_to (n : nat) (v : json) : result json :=
  match v with
  | JArr l => Ok (JArr (take n l))
  | JStr s => Ok (JStr (Py.slice_to n s))
  | JObj _ => Raise dict_slice_error
  | _ => Raise TypeError
  end.

(** [', '.join(jd_analysis.get(key, []))], and the same over the first
    [n] entries. *)
Definition joined (key : string) (jd_analysis : json) : result string :=
  v ← py_get_default key (JArr []) jd_analysis;
  export_handler.py_join ", " v.

Definition joined_first (n : nat) (key : string) (jd_analysis : json)
    : result string :=
  v ← py_get_default key (JArr []) jd_analysis;
  w ← py_slice_to n v;
  export_handler.py_join ", " w.

(** The line of extra context in a prompt. *)
Definition extra_context (extra_knowledge : option string) : string :=
  match extra_knowledge with
  | Some e => if String.eqb e "" then "- No additional context provided" else "- " +:+ e
  | None => "- No additional context provided"
  end.

(** One call of [self.client.messages.create], giving the text of the
    response. *)
Definition call (tokens : nat) (temp sys prompt : string) : prog string :=
  Call {| model := "claude-sonnet-4-5"; max_tokens := tokens; temperature := temp;
          system := sys; user_content := prompt |} Ret.

(** [ResumeGenerator.__init__]: the key the client is made with. *)
Definition __init__ (api_key : json) (env_key : option string) : result json :=
  let key :=
    if truthy api_key then api_key
    else match env_key with
         | Some k => JStr k
         | None => JNull
         end in
  if truthy key then Ok key
  else Raise (ValueError "Claude API key is required. Set ANTHROPIC_API_KEY in .env file or pass it directly.").

(** *** The prompts

    The arrows in the prompt for skills and bullets lie outside the
    modelled code points and only occur in the text that is sent. *)

Definition analysis_system : string :=
  "You are an expert resume consultant who analyzes job descriptions. Always respond with valid JSON only.".

Definition summary_system : string :=
  "You are an expert resume writer with strong analytical skills. Think carefully about the candidate's ACTUAL background before creating a summary. Ground the summary in their real experience and skills. Don't over-tailor or fabricate capabilities.".

Definition experience_system : string :=
  "You are an expert resume writer with strong analytical skills. Your job is to THINK STEP-BY-STEP before creating content. CRITICAL RULES:
1. REASON about what makes sense for the actual role and company
2. Ground ALL content in reality - no fabrication
3. Each bullet MUST start with a DIFFERENT action verb (NO repetition)
4. Keep industry context authentic - don't insert inappropriate keywords
5. Highlight real transferable skills without misrepresenting work
6. If something doesn't make sense for the role/company, DON'T include it
Always respond with valid JSON only.".

Definition project_system : string :=
  "You are an expert resume writer with strong analytical skills. Your job is to THINK STEP-BY-STEP before creating project content. CRITICAL RULES:
1. REASON about what the project ACTUALLY is based on its name
2. Don't fabricate completely different projects just to match keywords
3. Keep technologies and achievements REALISTIC for the project scope
4. Stay grounded in reality - no over-tailoring
5. If details don't make sense for the project, don't force them
Always respond with valid JSON only.".

Definition skills_system : string :=
  "You are an expert career counselor who creates compelling skills sections for resumes. Always respond with valid JSON only.".

Definition analysis_prompt (job_description : string)
    : string :=
  "Analyze this job description and extract:
1. Key technical skills required
2. Soft skills required
3. Years of experience needed
4. Main responsibilities
5. Nice-to-have skills
6. Company culture keywords

Job Description:
" +:+ job_description
  +:+ "

Provide the analysis in JSON format with these keys:
{
    " +:+ dq +:+ "required_skills" +:+ dq
  +:+ ": [],
    " +:+ dq +:+ "soft_skills" +:+ dq
  +:+ ": [],
    " +:+ dq +:+ "experience_years" +:+ dq +:+ ": " +:+ dq +:+ dq
  +:+ ",
    " +:+ dq +:+ "responsibilities" +:+ dq
  +:+ ": [],
    " +:+ dq +:+ "nice_to_have" +:+ dq
  +:+ ": [],
    " +:+ dq +:+ "culture_keywords" +:+ dq
  +:+ ": []
}

Return ONLY the JSON object, no additional text.".

Definition summary_prompt (current_experience skills education required_skills responsibilities
    culture_keywords : string)
    : string :=
  "Create a compelling professional summary (2-3 sentences) for a resume.

User's Background:
- Current Experience: " +:+ current_experience
  +:+ "
- Skills: " +:+ skills
  +:+ "
- Education: " +:+ education
  +:+ "

Job Requirements:
- Required Skills: " +:+ required_skills
  +:+ "
- Responsibilities: " +:+ responsibilities
  +:+ "
- Culture Keywords: " +:+ culture_keywords
  +:+ "

Create a summary that:
1. Highlights relevant experience and skills matching the job
2. Uses keywords from the job description naturally
3. Demonstrates value proposition
4. Is concise and impactful

Return ONLY the summary text, nothing else.
".

Definition bullets_prompt (title company start_date end_date skills_used existing_bullets_text
    existing_verbs_text experience_years required_skills responsibilities soft_skills
    extra_context desired_bullets : string)
    : string :=
  "You are generating resume bullets. Think step-by-step and reason carefully.

STEP 1: ANALYZE THE CONTEXT
Current Role: " +:+ title +:+ " at " +:+ company
  +:+ "
Work Period: " +:+ start_date +:+ " - " +:+ end_date
  +:+ "
Skills Used: " +:+ skills_used
  +:+ "

Existing Responsibilities (your SOURCE OF TRUTH - these are REAL activities):
" +:+ existing_bullets_text
  +:+ "

Action verbs already used: " +:+ existing_verbs_text
  +:+ "

Target Role: " +:+ experience_years
  +:+ " position
Target Requirements:
- Core Skills: " +:+ required_skills
  +:+ "
- Responsibilities: " +:+ responsibilities
  +:+ "
- Soft Skills: " +:+ soft_skills
  +:+ "

Extra Context:
" +:+ extra_context
  +:+ "

STEP 2: REASON ABOUT WHAT MAKES SENSE
Before writing bullets, think through:
1. What industry is " +:+ company
  +:+ " in? (insurance, SaaS, healthcare, pharmacy, etc.)
2. What would a " +:+ title
  +:+ " ACTUALLY do in that industry?
3. What are the REAL transferable skills from this role?
4. Which existing bullets show relevant capabilities?
5. How can I reframe WITHOUT fabricating or misrepresenting?

STEP 3: GROUNDING CHECK
- Only use facts from the existing bullets
- Keep industry context authentic
- Don't insert keywords from target role that don't fit the actual work
- Don't claim work on projects/systems that don't match the company

STEP 4: CREATE BULLETS
Now create " +:+ desired_bullets
  +:+ " bullet points that:
- **NO VERB REPETITION** - Each bullet starts with a DIFFERENT action verb
- Are factually grounded in the existing responsibilities
- Highlight transferable skills authentically
- Use industry-appropriate terminology for " +:+ company
  +:+ "
- Maximum 25 words each
- Show operational capabilities without misrepresenting

Return as JSON:
{" +:+ dq +:+ "bullets" +:+ dq +:+ ": [" +:+ dq +:+ "bullet 1" +:+ dq +:+ ", "
  +:+ dq +:+ "bullet 2" +:+ dq
  +:+ ", ...]}

Return ONLY the JSON object, no additional text.".

Definition skills_and_bullets_prompt (title company start_date end_date existing_bullets_text
    existing_verbs_text experience_years required_skills responsibilities soft_skills
    extra_context desired_bullets : string)
    : string :=
  "You are generating resume content. Think step-by-step and reason carefully.

STEP 1: ANALYZE THE CONTEXT
Current Role: " +:+ title +:+ " at " +:+ company
  +:+ "
Work Period: " +:+ start_date +:+ " - " +:+ end_date
  +:+ "

Existing Responsibilities (your SOURCE OF TRUTH):
" +:+ existing_bullets_text
  +:+ "

Action verbs already used: " +:+ existing_verbs_text
  +:+ "

Target Role: " +:+ experience_years
  +:+ " position
Target Requirements:
- Core Skills: " +:+ required_skills
  +:+ "
- Responsibilities: " +:+ responsibilities
  +:+ "
- Soft Skills: " +:+ soft_skills
  +:+ "

Extra Context:
" +:+ extra_context
  +:+ "

STEP 2: REASON ABOUT WHAT MAKES SENSE
Before creating content, think through:
1. What industry is " +:+ company
  +:+ " actually in?
2. What would a " +:+ title
  +:+ " REALISTICALLY do at this company?
3. What skills would this person ACTUALLY have?
4. What are authentic transferable capabilities from this role?
5. What tools/processes are REALISTIC for this industry?

STEP 3: INDUSTRY AUTHENTICITY CHECK
- Insurance company → policies, regulations, underwriting, claims, risk assessment
- SaaS company → product development, user engagement, feature launches, subscriptions
- Healthcare → patient systems, clinical workflows, compliance, medical records
- Pharmacy → medication management, clinical processes, regulatory compliance
- DO NOT mix industries or insert inappropriate terminology

STEP 4: CREATE CONTENT
Now create:
1. 5-8 skills authentic to " +:+ title +:+ " at " +:+ company
  +:+ " AND transferable to target role
2. " +:+ desired_bullets
  +:+ " bullet points that:
   - **NO VERB REPETITION** - Each bullet starts with a DIFFERENT action verb
   - Are factually grounded and realistic
   - Show transferable capabilities authentically
   - Use appropriate terminology for the actual industry
   - Maximum 25 words each

Return as JSON:
{" +:+ dq +:+ "skills" +:+ dq +:+ ": [" +:+ dq +:+ "skill1" +:+ dq +:+ ", "
  +:+ dq +:+ "skill2" +:+ dq +:+ ", ...], " +:+ dq +:+ "bullets" +:+ dq
  +:+ ": [" +:+ dq +:+ "bullet 1" +:+ dq +:+ ", " +:+ dq +:+ "bullet 2" +:+ dq
  +:+ ", ...]}

Return ONLY the JSON object, no additional text.".

Definition project_prompt (name existing_description required_skills responsibilities
    extra_context : string)
    : string :=
  "You are generating project details. Think step-by-step and reason carefully.

STEP 1: UNDERSTAND THE PROJECT
Project Name: " +:+ name
  +:+ "
Existing Description: " +:+ existing_description
  +:+ "

Target Job Requirements:
- Required Skills: " +:+ required_skills
  +:+ "
- Key Responsibilities: " +:+ responsibilities
  +:+ "

Extra Context:
" +:+ extra_context
  +:+ "

STEP 2: REASON ABOUT WHAT MAKES SENSE
Before creating details, think through:
1. Based on the project NAME, what would this project ACTUALLY be about?
2. What technologies would REALISTICALLY be used for this type of project?
3. What achievements would be AUTHENTIC for this project scope?
4. Does the project align with the user's background?
5. Am I being realistic or over-tailoring?

STEP 3: GROUNDING CHECK
- Don't fabricate a completely different project just to match keywords
- Keep technologies realistic for the project type
- Don't claim involvement in systems/platforms that don't match the project name
- Achievements should be proportional to project scope

STEP 4: CREATE PROJECT CONTENT
Now create:
1. A brief, compelling description (2-3 sentences) that fits the project name
2. 4-6 technologies that are REALISTIC for this project type
3. 2-3 achievements that are AUTHENTIC and proportional
- Maximum 25 words per achievement

Return as JSON:
{" +:+ dq +:+ "description" +:+ dq +:+ ": " +:+ dq +:+ "description text"
  +:+ dq +:+ ", " +:+ dq +:+ "technologies" +:+ dq +:+ ": [" +:+ dq
  +:+ "tech1" +:+ dq +:+ ", " +:+ dq +:+ "tech2" +:+ dq +:+ ", ...], " +:+ dq
  +:+ "achievements" +:+ dq +:+ ": [" +:+ dq +:+ "achievement 1" +:+ dq
  +:+ ", " +:+ dq +:+ "achievement 2" +:+ dq
  +:+ ", ...]}

Return ONLY the JSON object, no additional text.".

Definition skills_prompt (required_skills responsibilities culture_keywords technical languages tools
    soft_skills : string)
    : string :=
  "Generate a comprehensive skills section for a resume based on the target job description.

Job Description Analysis:
- Required Technical Skills: " +:+ required_skills
  +:+ "
- Key Responsibilities: " +:+ responsibilities
  +:+ "
- Industry Keywords: " +:+ culture_keywords
  +:+ "

User's Existing Skills (if any):
- Technical: " +:+ technical
  +:+ "
- Languages: " +:+ languages
  +:+ "
- Tools: " +:+ tools
  +:+ "
- Soft Skills: " +:+ soft_skills
  +:+ "

Create 3 categories of skills that would be most relevant for this job:

1. **Technical Skills**: 9 specific technical skills that match the job requirements. Include both required skills from the JD and complementary skills that demonstrate expertise.

2. **Languages & Frameworks**: 9 programming languages, frameworks, and technologies relevant to the role.

3. **Tools & Platforms**: 9 tools, platforms, and software that would be valuable for this position.

IMPORTANT:
- Focus on skills that directly match the job description
- Include both hard requirements and nice-to-have skills
- Use industry-standard terminology
- Prioritize skills mentioned or implied in the job description
- Include complementary skills that show breadth of knowledge
- Each category should have exactly 9 skills

Return as JSON:
{
    " +:+ dq +:+ "technical" +:+ dq +:+ ": [" +:+ dq +:+ "skill1" +:+ dq
  +:+ ", " +:+ dq +:+ "skill2" +:+ dq +:+ ", " +:+ dq +:+ "skill3" +:+ dq
  +:+ ", ...],
    " +:+ dq +:+ "languages" +:+ dq +:+ ": [" +:+ dq +:+ "language1" +:+ dq
  +:+ ", " +:+ dq +:+ "language2" +:+ dq +:+ ", " +:+ dq +:+ "language3"
  +:+ dq
  +:+ ", ...],
    " +:+ dq +:+ "tools" +:+ dq +:+ ": [" +:+ dq +:+ "tool1" +:+ dq +:+ ", "
  +:+ dq +:+ "tool2" +:+ dq +:+ ", " +:+ dq +:+ "tool3" +:+ dq
  +:+ ", ...]
}

Return ONLY the JSON object, no additional text.".


(** *** [_analyze_job_description] *)

Definition _analyze_job_description (job_description : string) : prog json :=
  text ← call 2000 "0.3" analysis_system (analysis_prompt job_description);
  lift (extract_json_from_text text).

(** *** [_generate_summary] *)

Definition _generate_summary (profile : UserProfile.t) (jd_analysis : json)
    : prog string :=
  let current_experience :=
    match UserProfile.experience profile with
    | exp :: _ => Experience.title exp
    | [] => "Entry Level"
    end in
  let skills :=
    Py.join ", " (take 10 (default [] (dict.get "technical" (UserProfile.skills profile)))) in
  let education :=
    match UserProfile.education profile with
    | edu :: _ => Education.degree edu
    | [] => ""
    end in
  prompt ← lift (required_skills ← joined_first 10 "required_skills" jd_analysis;
                 responsibilities ← joined_first 5 "responsibilities" jd_analysis;
                 culture_keywords ← joined "culture_keywords" jd_analysis;
                 mret (summary_prompt current_experience skills education
                         required_skills responsibilities culture_keywords));
  text ← call 800 "0.6" summary_system prompt;
  mret (Py.strip text).

(** *** [_tailor_experiences] *)

(** The number of bullets asked for the experience at index [i]. *)
Definition desired_bullets (experience_bullet_counts : option (gmap Z Z)) (i : nat) : Z :=
  match experience_bullet_counts with
  | Some counts => default 4%Z (counts !! Z.of_nat i)
  | None => 4%Z
  end.

Definition has_skills (exp : Experience.t) : bool :=
  match Experience.skills_used exp with
  | [] => false
  | _ => true
  end.

Definition existing_bullets_text (existing_bullets : list string) : string :=
  match existing_bullets with
  | [] => "- No existing responsibilities provided"
  | _ => Py.join nl ((fun bullet => "- " +:+ bullet) <$> existing_bullets)
  end.

(** The first word of a bullet, as the loop over the bullets computes it.
    The bullet sign that [lstrip] also drops lies outside the modelled
    code points. *)
Definition first_word (bullet : string) : string :=
  let cleaned := Py.strip (Py.lstrip_chars "- " bullet) in
  let first_word := if String.eqb cleaned "" then "" else Py.before " " cleaned in
  Py.capitalize (Py.strip_chars ",.;:" first_word).

Definition add_verb (existing_verbs : list string) (bullet : string) : list string :=
  let w := first_word bullet in
  if negb (String.eqb w "") && negb (bool_decide (w ∈ existing_verbs))
  then existing_verbs ++ [w]
  else existing_verbs.

Definition existing_verbs (existing_bullets : list string) : list string :=
  foldl add_verb [] existing_bullets.

Definition existing_verbs_text (existing_bullets : list string) : string :=
  match existing_verbs existing_bullets with
  | [] => "None provided"
  | verbs => Py.join ", " verbs
  end.

(** The prompt for one experience. *)
Definition experience_prompt (exp : Experience.t) (jd_analysis : json)
    (extra_knowledge : option string) (desired : Z) : result string :=
  let bullets_text := existing_bullets_text (Experience.description exp) in
  let verbs_text := existing_verbs_text (Experience.description exp) in
  experience_years ← py_get_default "experience_years" (JStr "Entry-level") jd_analysis;
  required_skills ← joined "required_skills" jd_analysis;
  responsibilities ← joined "responsibilities" jd_analysis;
  soft_skills ← joined "soft_skills" jd_analysis;
  desired_bullets ← format_int desired;
  mret (if has_skills exp
        then bullets_prompt (Experience.title exp) (Experience.company exp)
               (Experience.start_date exp) (Experience.end_date exp)
               (Py.join ", " (Experience.skills_used exp)) bullets_text verbs_text
               (fstr experience_years) required_skills responsibilities soft_skills
               (extra_context extra_knowledge) desired_bullets
        else skills_and_bullets_prompt (Experience.title exp) (Experience.company exp)
               (Experience.start_date exp) (Experience.end_date exp)
               bullets_text verbs_text
               (fstr experience_years) required_skills responsibilities soft_skills
               (extra_context extra_knowledge) desired_bullets).

(** [truncate_bullets_to_25_words] on a value of the response. *)
Definition truncate_value (v : json) : result json :=
  items ← py_iter v;
  bullets ← mapM as_str items;
  mret (profile_manager.dump_str_list (truncate_bullets_to_25_words bullets)).

(** [if key in result: result[key] = truncate_bullets_to_25_words(result[key])] *)
Definition truncate_key (key : string) (res : json) : result json :=
  present ← py_in key res;
  if (present : bool) then
    (v ← py_index key res;
     truncated ← truncate_value v;
     match res with
     | JObj d => mret (JObj (dict.set key truncated d))
     | _ => Raise TypeError
     end)
  else mret res.

(** The entry made of one experience and the response for it. *)
Definition tailored_experience (exp : Experience.t) (res : json) : result json :=
  res ← truncate_key "bullets" res;
  description ← py_get_default "bullets"
                  (profile_manager.dump_str_list (Experience.description exp)) res;
  skills_used ← (if has_skills exp
                 then mret (profile_manager.dump_str_list (Experience.skills_used exp))
                 else py_get_default "skills"
                        (profile_manager.dump_str_list (Experience.skills_used exp)) res);
  mret (JObj [("title", JStr (Experience.title exp));
              ("company", JStr (Experience.company exp));
              ("location", JStr (Experience.location exp));
              ("start_date", JStr (Experience.start_date exp));
              ("end_date", JStr (Experience.end_date exp));
              ("description", description);
              ("skills_used", skills_used)]).

(** The loop over the experiences, from index [i] on. *)
Fixpoint tailor_experiences_from (i : nat) (experience : list Experience.t)
    (jd_analysis : json) (extra_knowledge : option string)
    (experience_bullet_counts : option (gmap Z Z)) : prog (list json) :=
  match experience with
  | [] => mret []
  | exp :: rest =>
      prompt ← lift (experience_prompt exp jd_analysis extra_knowledge
                       (desired_bullets experience_bullet_counts i));
      text ← call 2500 "0.6" experience_system prompt;
      entry ← lift (res ← extract_json_from_text text; tailored_experience exp res);
      tailored ← tailor_experiences_from (S i) rest jd_analysis extra_knowledge
                   experience_bullet_counts;
      mret (entry :: tailored)
  end.

Definition _tailor_experiences (profile : UserProfile.t) (jd_analysis : json)
    (extra_knowledge : option string) (experience_bullet_counts : option (gmap Z Z))
    : prog (list json) :=
  tailor_experiences_from 0 (UserProfile.experience profile) jd_analysis
    extra_knowledge experience_bullet_counts.

(** *** [_tailor_projects] *)

Definition needs_generation (project : Project.t) : bool :=
  match Project.technologies project with
  | [] => true
  | _ => String.eqb (Project.description project) "Project details to be generated"
         || String.eqb (Project.description project) ""
  end.

Definition generation_prompt (project : Project.t) (jd_analysis : json)
    (extra_knowledge : option string) : result string :=
  required_skills ← joined "required_skills" jd_analysis;
  responsibilities ← joined "responsibilities" jd_analysis;
  mret (project_prompt (Project.name project)
          (if String.eqb (Project.description project) "" then "None provided"
           else Project.description project)
          required_skills responsibilities (extra_context extra_knowledge)).

(** The entry made of a project and the response for it. *)
Definition generated_project (project : Project.t) (res : json) : result json :=
  res ← truncate_key "achievements" res;
  description ← py_get_default "description" (JStr (Project.description project)) res;
  technologies ← py_get_default "technologies"
                   (profile_manager.dump_str_list (Project.technologies project)) res;
  achievements ← py_get_default "achievements"
                   (profile_manager.dump_str_list (Project.achievements project)) res;
  mret (JObj [("name", JStr (Project.name project));
              ("description", description);
              ("technologies", technologies);
              ("achievements", achievements);
              ("url", profile_manager.dump_optional_str (Project.url project))]).

(** The entry of a project that needs no generation: its own data, the
    achievements cut to 25 words. *)
Definition existing_project (project : Project.t) : json :=
  match Project.achievements project with
  | [] => profile_manager.dump_project project
  | achievements =>
      JObj [("name", JStr (Project.name project));
            ("description", JStr (Project.description project));
            ("technologies", profile_manager.dump_str_list (Project.technologies project));
            ("achievements",
             profile_manager.dump_str_list (truncate_bullets_to_25_words achievements));
            ("url", profile_manager.dump_optional_str (Project.url project))]
  end.

Fixpoint tailor_projects_loop (projects : list Project.t) (jd_analysis : json)
    (extra_knowledge : option string) : prog (list json) :=
  match projects with
  | [] => mret []
  | project :: rest =>
      entry ← (if needs_generation project then
                 (prompt ← lift (generation_prompt project jd_analysis extra_knowledge);
                  text ← call 2000 "0.6" project_system prompt;
                  lift (res ← extract_json_from_text text; generated_project project res))
               else mret (existing_project project));
      tailored_projects ← tailor_projects_loop rest jd_analysis extra_knowledge;
      mret (entry :: tailored_projects)
  end.

Definition _tailor_projects (profile : UserProfile.t) (jd_analysis : json)
    (extra_knowledge : option string) : prog (list json) :=
  tailor_projects_loop (take 3 (UserProfile.projects profile)) jd_analysis
    extra_knowledge.

(** *** [_generate_skills] *)

Definition own_skills (key : string) (profile : UserProfile.t) : string :=
  Py.join ", " (default [] (dict.get key (UserProfile.skills profile))).

Definition _generate_skills (profile : UserProfile.t) (jd_analysis : json)
    : prog json :=
  prompt ← lift (required_skills ← joined "required_skills" jd_analysis;
                 responsibilities ← joined "responsibilities" jd_analysis;
                 culture_keywords ← joined "culture_keywords" jd_analysis;
                 mret (skills_prompt required_skills responsibilities culture_keywords
                         (own_skills "technical" profile) (own_skills "languages" profile)
                         (own_skills "tools" profile) (own_skills "soft_skills" profile)));
  text ← call 1000 "0.7" skills_system prompt;
  lift (res ← extract_json_from_text text;
        technical ← py_get_default "technical" (JArr []) res;
        languages ← py_get_default "languages" (JArr []) res;
        tools ← py_get_default "tools" (JArr []) res;
        mret (JObj [("technical", technical); ("languages", languages); ("tools", tools)])).

(** *** [generate_tailored_resume] *)

Definition generate_tailored_resume (profile : UserProfile.t) (job_description : string)
    (extra_knowledge : option string) (experience_bullet_counts : option (gmap Z Z))
    : prog json :=
  jd_analysis ← _analyze_job_description job_description;
  tailored_summary ← _generate_summary profile jd_analysis;
  tailored_experiences ← _tailor_experiences profile jd_analysis extra_knowledge
                           experience_bullet_counts;
  tailored_projects ← _tailor_projects profile jd_analysis extra_knowledge;
  tailored_skills ← _generate_skills profile jd_analysis;
  mret (JObj [("personal_info",
               JObj (prod_map id JStr <$> UserProfile.personal_info profile));
              ("summary", JStr tailored_summary);
              ("experience", JArr tailored_experiences);
              ("projects", JArr tailored_projects);
              ("education",
               JArr (profile_manager.dump_education <$> UserProfile.education profile));
              ("skills", tailored_skills);
              ("certifications",
               profile_manager.dump_str_list (UserProfile.certifications profile));
              ("awards", profile_manager.dump_str_list (UserProfile.awards profile));
              ("jd_analysis", jd_analysis)]).

End python.

End ResumeGenerator.

(** ** backend/main.py: the routes of the API *)

Module backend_main.

(** The detail of an [HTTPException]: a text, or [str(e)] of the exception
    that was caught, which may be an [HTTPException] itself. *)
Inductive detail : Type :=
  | Text (s : string)
  | str_of (e : exn)
  | str_of_http (status_code : nat) (d : detail).

(** What a route comes to: the value it returns, an [HTTPException], or an
    exception that no handler of the route catches. *)
Inductive response (A : Type) : Type :=
  | Reply (a : A)
  | HTTPException (status_code : nat) (d : detail)
  | Unhandled.
Arguments Reply {A} a.
Arguments HTTPException {A} status_code d.
Arguments Unhandled {A}.

(** [load_api_key]: the key in the configuration file, [None] without
    one. *)
Definition load_api_key (config : file) : json :=
  match config with
  | document (JObj d) => default JNull (dict.get "api_key" d)
  | _ => JNull
  end.

(** [save_api_key]: the configuration file after the call and the value
    returned; [writable] tells whether the file can be written. *)
Definition save_api_key (writable : bool) (config : file) (api_key : string)
    : file * bool :=
  if writable then (document (JObj [("api_key", JStr api_key)]), true)
  else (config, false).

Definition profile_not_found (profile_name : string) : detail :=
  Text ("Profile '" +:+ profile_name +:+ "' not found").

(** [GET /] *)
Definition read_root : json :=
  JObj [("status", JStr "ok"); ("message", JStr "AI Resume Generator API is running")].

(** [GET /api/profiles] *)
Definition list_profiles (store : gmap string json)
    (backup_dirs : list (gmap string json)) : response json :=
  Reply (JObj [("profiles",
                profile_manager.dump_str_list
                  (backend_profile_manager.list_profiles store backup_dirs))]).

(** [GET /api/profiles/{profile_name}] *)
Definition get_profile (store : gmap string json)
    (backup_dirs : list (gmap string json)) (profile_name : string) : response json :=
  match backend_profile_manager.load_profile store backup_dirs profile_name with
  | Ok profile => Reply (JObj [("profile", profile_manager.model_dump profile)])
  | Raise (FileNotFoundError _) => HTTPException 404 (profile_not_found profile_name)
  | Raise e => HTTPException 500 (str_of e)
  end.

(** [POST /api/profiles]: the directory after the request and the
    response.  [None] would mean that [create_profile] has not returned. *)
Definition create_profile (open_error : string -> option exn)
    (store : gmap string json) (profile_name : string)
    (profile : list (string * json)) : option (gmap string json * response json) :=
  match profile_manager.validate (JObj profile) with
  | Ok p =>
      saved ← backend_profile_manager.create_profile open_error store profile_name p true;
      Some (match saved with
            | Ok (store', (_, clean_name)) =>
                (store', Reply (JObj [("message", JStr "Profile saved successfully");
                                      ("profile_name", JStr clean_name)]))
            | Raise e => (store, HTTPException 500 (str_of e))
            end)
  | Raise e => Some (store, HTTPException 500 (str_of e))
  end.

(** [DELETE /api/profiles/{profile_name}]: the [HTTPException] raised for
    a profile that is not there is raised inside the [try] and caught by
    its handler. *)
Definition delete_profile (store : gmap string json) (profile_name : string)
    : gmap string json * response json :=
  let '(store', success) := backend_profile_manager.delete_profile store profile_name in
  if (success : bool)
  then (store', Reply (JObj [("message",
                              JStr ("Profile '" +:+ profile_name +:+ "' deleted successfully"))]))
  else (store', HTTPException 500 (str_of_http 404 (profile_not_found profile_name))).

(** [POST /api/api-key] *)
Definition set_api_key (writable : bool) (config : file) (api_key : string)
    : file * response json :=
  let '(config', success) := save_api_key writable config api_key in
  if (success : bool)
  then (config', Reply (JObj [("message", JStr "API key saved successfully")]))
  else (config', HTTPException 500 (str_of_http 500 (Text "Failed to save API key"))).

(** [GET /api/api-key/status]: the route has no handler, and a key that is
    not a text cannot be masked. *)
Definition check_api_key (config : file) : response json :=
  let api_key := load_api_key config in
  if truthy api_key then
    match api_key with
    | JStr s =>
        Reply (JObj [("configured", JBool true);
                     ("masked_key", JStr ("sk-ant-..." +:+ Py.slice_last 4 s))])
    | _ => Unhandled
    end
  else Reply (JObj [("configured", JBool false); ("masked_key", JNull)]).

(** [POST /api/export/docx] and [POST /api/export/pdf]: the document that
    is sent. *)
Definition export_docx (resume_data : list (string * json))
    : response (list export_handler.docx_op) :=
  match export_handler.export_to_docx (JObj resume_data) with
  | Ok doc => Reply doc
  | Raise e => HTTPException 500 (str_of e)
  end.

Definition export_pdf
    (fpdf : list export_handler.pdf_op -> export_handler.pdf_op -> option exn)
    (resume_data : list (string * json))
    : response (list export_handler.pdf_op) :=
  match export_handler.export_to_pdf fpdf (JObj resume_data) with
  | Ok doc => Reply doc
  | Raise e => HTTPException 500 (str_of e)
  end.

Section python.

Variable repr : json -> string.
Variable dict_slice_error : exn.

(** The handlers of [generate_resume]. *)
Definition on_error (profile_name : string) (e : exn) : response json :=
  match e with
  | FileNotFoundError _ => HTTPException 404 (profile_not_found profile_name)
  | _ => HTTPException 500 (str_of e)
  end.

(** [POST /api/generate-resume]: the requests made to the service and the
    response.  The [HTTPException] for a key that is not configured is
    raised inside the [try]. *)
Definition generate_resume (service : request -> result string)
    (env_key : option string) (config : file) (store : gmap string json)
    (backup_dirs : list (gmap string json)) (profile_name job_description : string)
    (extra_knowledge : option string) (experience_bullet_counts : option (gmap Z Z))
    : list request * response json :=
  let api_key := load_api_key config in
  if negb (truthy api_key)
  then ([], HTTPException 500 (str_of_http 400 (Text "API key not configured")))
  else
    match backend_profile_manager.load_profile store backup_dirs profile_name with
    | Raise e => ([], on_error profile_name e)
    | Ok profile =>
        match ResumeGenerator.__init__ api_key env_key with
        | Raise e => ([], on_error profile_name e)
        | Ok _ =>
            let '(log, tailored_resume) :=
              run service
                (ResumeGenerator.generate_tailored_resume repr dict_slice_error
                   profile job_description extra_knowledge experience_bullet_counts) [] in
            (log, match tailored_resume with
                  | Ok resume => Reply (JObj [("resume", resume)])
                  | Raise e => on_error profile_name e
                  end)
        end
    end.

End python.

End backend_main.

(** ** Vocabulary of the statements *)

(** No character of [s] is whitespace. *)
Fixpoint no_space (s : string) : bool :=
  match s with
  | "" => true
  | String c s' => negb (Py.isspace c) && no_space s'
  end.

(** Every character of [s] is whitespace. *)
Fixpoint all_space (s : string) : bool :=
  match s with
  | "" => true
  | String c s' => Py.isspace c && all_space s'
  end.

(** Every character of [s] satisfies [P]. *)
Fixpoint all_chars (P : ascii → bool) (s : string) : bool :=
  match s with
  | "" => true
  | String c s' => P c && all_chars P s'
  end.

(** A character that is not whitespace, or the plain space. *)
Definition plain_char (c : ascii) : bool :=
  negb (Py.isspace c) || Ascii.eqb c " ".

(** A character other than [c]. *)
Definition other_than (c : ascii) (a : ascii) : bool := negb (Ascii.eqb a c).

(** A word: not empty and free of whitespace. *)
Definition word (w : string) : Prop := w ≠ "" ∧ no_space w = true.

(** ** Sample data and further vocabulary *)

Section samples.
Import resume_generator profile_manager app export_handler.

(** A bullet of 26 words and one of two words. *)
Definition sample_bullets : list string :=
  ["w1 w2 w3 w4 w5 w6 w7 w8 w9 w10 w11 w12 w13 w14 w15 w16 w17 w18 w19 w20 w21 w22 w23 w24 w25 w26";
   "Did  X"].

(** The message of the terminal error. *)
Definition parse_error (text : string) : exn :=
  ValueError ("Could not extract valid JSON from response: "
              +:+ Py.slice_to 200 text +:+ "...").

(** An object, the same object in a code block tagged as JavaScript, and
    the same object between two sentences. *)
Definition sample_inner : string := dq +:+ "a" +:+ dq +:+ ": [1, true]".
Definition sample_object : string := "{" +:+ sample_inner +:+ "}".
Definition sample_value : json := JObj [("a", JArr [JInt 1; JBool true])].
Definition sample_fenced : string :=
  "```javascript
" +:+ sample_object +:+ "
```".
Definition sample_prose : string :=
  "Here is the result: " +:+ sample_object +:+ " I hope it helps.".

(** The object in a code block tagged [json], inside prose that has
    braces of its own. *)
Definition sample_fenced_in_prose : string :=
  "Fill {name} in: ```json
" +:+ sample_object +:+ "
``` and {more}.".

(** The error raised by the check: the story is looked at first. *)
Definition precondition_error (profile : UserProfile.t) : exn :=
  if String.eqb (Py.strip (UserProfile.my_story profile)) ""
  then no_story_error else no_job_description_error.

(** One call of [add_to_history] with what the environment supplied. *)
Record append : Type := mk_append {
  a_env : env;
  a_resume : json;
  a_job_description : string;
  a_company : string;
  a_title : string
}.

Definition apply_append (st : state) (a : append) : state :=
  add_to_history (a_env a) st (a_resume a) (a_job_description a) (a_company a)
    (a_title a).

Definition entry_of (a : append) : json :=
  new_entry (a_env a) (a_resume a) (a_job_description a) (a_company a) (a_title a).

(** A history of 20 entries and one append. *)
Definition sample_env : env := mk_env (λ _, "id-21") "2026-01-01 12:00:00" true true.
Definition sample_append : append := mk_append sample_env (JObj []) "Rust engineer" "Acme" "".
Definition full_history : list json := (λ n : nat, JObj [("id", JInt (Z.of_nat n))]) <$> seq 1 20.
Definition full_state : state := mk_state (Some full_history) 3 (Some full_history).

(** No exception of [r] is a [FileNotFoundError]. *)
Definition found {A} (r : result A) : Prop :=
  ∀ msg, r ≠ Raise (FileNotFoundError msg).

(** A directory that holds [cv.json] and [cv_v2.json], and a save under a
    name that cleans to [cv]. *)
Definition two_files : gmap string json :=
  <["cv_v2.json" := JObj []]> (<["cv.json" := JObj []]> ∅).

(** A profile with one entry in every list. *)
Definition sample_profile : UserProfile.t := {|
  UserProfile.personal_info := [("name", "Ada"); ("email", "ada@example.org")];
  UserProfile.summary := "Engineer";
  UserProfile.my_story := "I like proofs.";
  UserProfile.education :=
    [Education.mk "BSc" "MIT" "" "Sep 2016" "May 2020" None [] ["Honours"]];
  UserProfile.experience :=
    [Experience.mk "Engineer" "Acme" "Paris" "2020" "2024" ["Built it"] []];
  UserProfile.projects := [Project.mk "Prover" "A prover" ["Rocq"] [] None];
  UserProfile.skills := [("technical", ["Rocq"; "OCaml"])];
  UserProfile.certifications := ["C1"];
  UserProfile.awards := []
|}.

(** Stored profiles in the old format: a graduation date of two tokens, one
    whose year is not a number, and one of a single token. *)
Definition legacy_profile (graduation_date : string) : json :=
  JObj [("summary", JStr "Engineer");
        ("education",
         JArr [JObj [("degree", JStr "BSc"); ("institution", JStr "MIT");
                     ("graduation_date", JStr graduation_date)]])].

Definition legacy_store : gmap string json :=
  <["single.json" := legacy_profile "2024"]>
    (<["words.json" := legacy_profile "May twenty"]>
       (<["old.json" := legacy_profile "May 2024"]> ∅)).

Definition migrated (start_date end_date : string) : UserProfile.t := {|
  UserProfile.personal_info := UserProfile.personal_info UserProfile.default;
  UserProfile.summary := "Engineer";
  UserProfile.my_story := "";
  UserProfile.education :=
    [Education.mk "BSc" "MIT" "" start_date end_date None [] []];
  UserProfile.experience := [];
  UserProfile.projects := [];
  UserProfile.skills := UserProfile.skills UserProfile.default;
  UserProfile.certifications := [];
  UserProfile.awards := []
|}.

(** A resume whose only project names its technologies; the summary,
    the experience, the education, the skills and the certifications are
    absent. *)
Definition project_with_technologies : json :=
  JObj [("name", JStr "Prover"); ("description", JStr "A proof checker");
        ("technologies", JArr [JStr "Rocq"; JStr "OCaml"]);
        ("achievements", JArr [])].

Definition resume_with_technologies : json :=
  JObj [("personal_info", JObj [("name", JStr "Ada"); ("email", JStr "ada@example.org")]);
        ("projects", JArr [project_with_technologies])].

(** The same resume with the technologies of the project absent, and a
    resume with nothing in it. *)
Definition resume_without_technologies : json :=
  JObj [("personal_info", JObj [("name", JStr "Ada"); ("email", JStr "ada@example.org")]);
        ("projects",
         JArr [JObj [("name", JStr "Prover"); ("description", JStr "A proof checker")]])].

Definition is_ok {A} (r : result A) : bool :=
  match r with
  | Ok _ => true
  | Raise _ => false
  end.

End samples.

(** ** The file system and the PDF library in the statements *)

(** What writing the profile to [path] comes to: the exception of [open],
    or the directory with the file written and the pair that
    [create_profile] returns. *)
Definition written (open_error : string → option exn) (store : gmap string json)
    (path stored : string) (profile : UserProfile.t)
    : result (gmap string json * (string * string)) :=
  match open_error path with
  | Some e => Raise e
  | None => Ok (<[path := profile_manager.model_dump profile]> store, (path, stored))
  end.

(** A file system on which every file opens for writing, and one that has
    no directory below the profile directory. *)
Definition opens (path : string) : option exn := None.

Definition no_subdirectory (path : string) : option exn :=
  if Py.has_char "/" path
  then Some (FileNotFoundError ("[Errno 2] No such file or directory: 'profiles/"
                                +:+ path +:+ "'"))
  else None.

(** A PDF library that lets every call through, and one that has not
    found the font files. *)
Definition accepting (made : list export_handler.pdf_op) (op : export_handler.pdf_op)
    : option exn := None.

Definition without_fonts (made : list export_handler.pdf_op)
    (op : export_handler.pdf_op) : option exn :=
  match op with
  | export_handler.add_font _ _ fname =>
      Some (FileNotFoundError ("TTF Font file not found: " +:+ fname))
  | _ => None
  end.

(** [s] with every occurrence of the character [c] taken out. *)
Fixpoint remove_char (c : ascii) (s : string) : string :=
  match s with
  | "" => ""
  | String x s' => if Ascii.eqb x c then remove_char c s' else String x (remove_char c s')
  end.

(** ** Vocabulary for the further properties *)

(** The keys of a resume that the renderers read. *)
Definition rendered_keys : list string :=
  ["personal_info"; "summary"; "experience"; "projects"; "education"; "skills";
   "certifications"].

(** Two dictionaries hold the same under each of [keys]. *)
Definition agree_on (keys : list string) (d d' : list (string * json)) : Prop :=
  ∀ k, k ∈ keys → dict.get k d = dict.get k d'.

(** The fields of a resume, and the same with awards and the analysis of
    a job description put before them. *)
Definition plain_fields : list (string * json) :=
  [("personal_info", JObj [("name", JStr "Ada"); ("email", JStr "ada@example.org")]);
   ("summary", JStr "Engineer");
   ("certifications", JArr [JStr "C1"])].

Definition with_awards (d : list (string * json)) : list (string * json) :=
  ("awards", JArr [JStr "Prize"])
  :: ("jd_analysis", JObj [("required_skills", JArr [JStr "Rocq"])]) :: d.

(** A line that is text. *)
Definition is_text (l : export_handler.line) : bool :=
  match l with
  | export_handler.LText _ => true
  | export_handler.LRaw _ => false
  end.

(** The trivial property. *)
Definition anything {A} (_ : A) : Prop := True.

(** A project that names no technologies. *)
Definition no_technologies (project : Project.t) : bool :=
  match Project.technologies project with
  | [] => true
  | _ => false
  end.

(** An education entry with other dates. *)
Definition with_dates (e : Education.t) (start_date end_date : string) : Education.t :=
  Education.mk (Education.degree e) (Education.institution e) (Education.location e)
    start_date end_date (Education.gpa e) (Education.relevant_coursework e)
    (Education.achievements e).

(** The fields that an entry of the history is to have. *)
Definition history_fields : list string :=
  ["id"; "timestamp"; "job_title"; "company"; "job_description"; "resume"].

(** An entry that is a dictionary with all of them. *)
Definition complete (item : json) : bool :=
  match item with
  | JObj d => forallb (fun key => dict.has key d) history_fields
  | _ => false
  end.

(** The history file as [load_resume_history] meets it. *)
Definition as_file (history_file : option (list json)) : file :=
  match history_file with
  | Some history => document (JArr history)
  | None => no_file
  end.

(** The entry of a tailored resume for an experience. *)
Definition experience_entry (exp : Experience.t) (description skills_used : json) : json :=
  JObj [("title", JStr (Experience.title exp));
        ("company", JStr (Experience.company exp));
        ("location", JStr (Experience.location exp));
        ("start_date", JStr (Experience.start_date exp));
        ("end_date", JStr (Experience.end_date exp));
        ("description", description);
        ("skills_used", skills_used)].

(** A list of bullets of at most 25 words each. *)
Definition short_bullets (v : json) : Prop :=
  ∃ bullets, v = profile_manager.dump_str_list bullets ∧
             Forall (λ bullet, length (Py.split bullet) ≤ 25) bullets.

(** What holds of the entry made for an experience: it is the entry of
    that experience, its bullets are those of the profile or bullets of at
    most 25 words, and skills that the profile names are kept. *)
Definition tailored_from (exp : Experience.t) (entry : json) : Prop :=
  ∃ description skills_used,
    entry = experience_entry exp description skills_used ∧
    (description = profile_manager.dump_str_list (Experience.description exp)
     ∨ short_bullets description) ∧
    (Experience.skills_used exp ≠ [] →
     skills_used = profile_manager.dump_str_list (Experience.skills_used exp)).

(** A request made for an experience. *)
Definition for_experience (req : request) : Prop :=
  model req = "claude-sonnet-4-5" ∧ max_tokens req = 2500 ∧
  system req = ResumeGenerator.experience_system.

(** The entry of a tailored resume for a project. *)
Definition project_entry (project : Project.t) (description technologies achievements : json)
    : json :=
  JObj [("name", JStr (Project.name project));
        ("description", description);
        ("technologies", technologies);
        ("achievements", achievements);
        ("url", profile_manager.dump_optional_str (Project.url project))].

(** What holds of the entry made for a project.  A project with its
    technologies and a description is entered with its own data, the
    achievements cut to 25 words each; for the others the entry has the
    name and the link of the project, and its achievements are those of
    the profile or bullets of at most 25 words. *)
Definition tailored_project (project : Project.t) (entry : json) : Prop :=
  if ResumeGenerator.needs_generation project then
    ∃ description technologies achievements,
      entry = project_entry project description technologies achievements ∧
      (achievements = profile_manager.dump_str_list (Project.achievements project)
       ∨ short_bullets achievements)
  else
    entry = project_entry project (JStr (Project.description project))
              (profile_manager.dump_str_list (Project.technologies project))
              (profile_manager.dump_str_list
                 (resume_generator.truncate_bullets_to_25_words
                    (Project.achievements project))).

(** A request made for a project. *)
Definition for_project (req : request) : Prop :=
  model req = "claude-sonnet-4-5" ∧ max_tokens req = 2000 ∧
  system req = ResumeGenerator.project_system.

(** The request that [_tailor_projects] makes with a prompt. *)
Definition project_request (prompt : string) : request :=
  mk_request "claude-sonnet-4-5" 2000 "0.6" ResumeGenerator.project_system prompt.

(** The projects that [_tailor_projects] asks the service about. *)
Definition to_generate (profile : UserProfile.t) : list Project.t :=
  filter (λ project, ResumeGenerator.needs_generation project = true)
    (take 3 (UserProfile.projects profile)).

(** The request that [_analyze_job_description] makes. *)
Definition analysis_request (job_description : string) : request :=
  mk_request "claude-sonnet-4-5" 2000 "0.3" ResumeGenerator.analysis_system
    (ResumeGenerator.analysis_prompt job_description).

(** The record that [generate_tailored_resume] returns. *)
Definition tailored_resume (profile : UserProfile.t) (jd_analysis : json)
    (summary : string) (experiences projects : list json)
    (technical languages tools : json) : json :=
  JObj [("personal_info",
         JObj (prod_map id JStr <$> UserProfile.personal_info profile));
        ("summary", JStr summary);
        ("experience", JArr experiences);
        ("projects", JArr projects);
        ("education",
         JArr (profile_manager.dump_education <$> UserProfile.education profile));
        ("skills",
         JObj [("technical", technical); ("languages", languages); ("tools", tools)]);
        ("certifications",
         profile_manager.dump_str_list (UserProfile.certifications profile));
        ("awards", profile_manager.dump_str_list (UserProfile.awards profile));
        ("jd_analysis", jd_analysis)].

(** An answer of the service that holds one bullet, and a service that
    gives it to every request. *)
Definition bullets_reply : string :=
  "{" +:+ resume_generator.dq +:+ "bullets" +:+ resume_generator.dq +:+ ": ["
  +:+ resume_generator.dq +:+ "Led the team" +:+ resume_generator.dq +:+ "]}".

(** The resume that [generate_tailored_resume] makes of the sample profile
    with that service. *)
Definition sample_tailored : json :=
  tailored_resume sample_profile (JObj [("bullets", JArr [JStr "Led the team"])])
    bullets_reply
    [experience_entry
       (Experience.mk "Engineer" "Acme" "Paris" "2020" "2024" ["Built it"] [])
       (JArr [JStr "Led the team"]) (JArr [])]
    [profile_manager.dump_project (Project.mk "Prover" "A prover" ["Rocq"] [] None)]
    (JArr []) (JArr []) (JArr []).

Definition bullets_service (req : request) : result string := Ok bullets_reply.

(** A [repr] for the sample runs. *)
Definition sample_repr (v : json) : string := "{}".

(** The request that [_tailor_experiences] makes with a prompt. *)
Definition experience_request (prompt : string) : request :=
  mk_request "claude-sonnet-4-5" 2500 "0.6" ResumeGenerator.experience_system prompt.

(** An answer of the service that holds both outputs of
    [generate_story_content], and a service that gives it to every
    request. *)
Definition story_reply : string :=
  "{" +:+ resume_generator.dq +:+ "cover_letter" +:+ resume_generator.dq +:+ ": "
  +:+ resume_generator.dq +:+ " Dear team " +:+ resume_generator.dq +:+ ", "
  +:+ resume_generator.dq +:+ "why_you_want_to_work_here" +:+ resume_generator.dq +:+ ": "
  +:+ resume_generator.dq +:+ "Because" +:+ resume_generator.dq +:+ "}".

Definition story_service (req : request) : result string := Ok story_reply.

(** The start date that the migration estimates for a graduation in the
    year [n]: the check of the years below 10000. *)
Definition start_year_ok (n : nat) : bool :=
  bool_decide (py_int (pretty n) ≫= (λ year_int, py_str_of_int (year_int - 4))
               = Some (pretty (Z.of_nat n - 4)%Z)).

(** * Properties *)

(** ** Strings and words *)

Section strings.

Lemma str_app_cons (x : ascii) (a b : string) : String x a +:+ b = String x (a +:+ b).
Proof. done. Qed.

Lemma str_app_nil_l (a : string) : "" +:+ a = a.
Proof. done. Qed.

Lemma str_app_assoc (a b c : string) : (a +:+ b) +:+ c = a +:+ (b +:+ c).
Proof. induction a as [|x a IH]; [done|]. by rewrite !str_app_cons, IH. Qed.

Lemma str_app_nil_r (a : string) : a +:+ "" = a.
Proof. induction a as [|x a IH]; [done|]. by rewrite str_app_cons, IH. Qed.

Lemma str_length_app (a b : string) :
  String.length (a +:+ b) = String.length a + String.length b.
Proof. induction a as [|x a IH]; [done|]. rewrite str_app_cons. simpl. by rewrite IH. Qed.

Lemma str_app_inv_tail (a b s : string) : a +:+ s = b +:+ s → a = b.
Proof.
  revert b. induction a as [|x a IH]; intros [|y b] H.
  - done.
  - apply (f_equal String.length) in H. rewrite str_app_nil_l, str_length_app in H.
    simpl in H. lia.
  - apply (f_equal String.length) in H. rewrite str_app_nil_l, str_length_app in H.
    simpl in H. lia.
  - rewrite !str_app_cons in H. inversion H; subst. f_equal. by apply IH.
Qed.

Lemma no_space_app (a b : string) :
  no_space (a +:+ b) = no_space a && no_space b.
Proof.
  induction a as [|x a IH]; [done|].
  rewrite str_app_cons. simpl. rewrite IH. by rewrite andb_assoc.
Qed.

Lemma word_app (w t : string) : word w → no_space t = true → word (w +:+ t).
Proof.
  intros [Hne Hw] Ht. split.
  - destruct w; [done | discriminate].
  - rewrite no_space_app, Hw, Ht. done.
Qed.

Lemma word_cons (c : ascii) (w : string) :
  Py.isspace c = false → no_space w = true → word (String c w).
Proof. intros Hc Hw. split; [discriminate|]. simpl. by rewrite Hc, Hw. Qed.

Lemma split_words (s : string) : Forall word (Py.split s).
Proof.
  induction s as [|c s IH]; simpl; [constructor|].
  destruct (Py.isspace c) eqn:Hc; [done|].
  destruct (Py.at_break s).
  - constructor; [|done]. by apply word_cons.
  - destruct (Py.split s) as [|w ws].
    + constructor; [|done]. by apply word_cons.
    + inversion IH as [|? ? [_ Hw] Hws]; subst. constructor; [|done].
      by apply word_cons.
Qed.

Lemma split_word_app (w s : string) :
  word w → Py.at_break s = true → Py.split (w +:+ s) = w :: Py.split s.
Proof.
  intros [Hne Hw] Hs. induction w as [|c w IH]; [done|].
  simpl in Hw. apply andb_prop in Hw as [Hc Hw].
  apply negb_true_iff in Hc. rewrite str_app_cons. simpl. rewrite Hc.
  destruct w as [|c' w].
  - rewrite str_app_nil_l. by rewrite Hs.
  - assert (Py.at_break (String c' w +:+ s) = false) as ->.
    { simpl in Hw. apply andb_prop in Hw as [Hc' _].
      by apply negb_true_iff in Hc'. }
    rewrite IH; [done | discriminate | done].
Qed.

Lemma split_word (w : string) : word w → Py.split w = [w].
Proof.
  intros Hw. rewrite <- (str_app_nil_r w) at 1. by rewrite split_word_app.
Qed.

Lemma split_space (s : string) : Py.split (" " +:+ s) = Py.split s.
Proof. done. Qed.

(** The words of a text that ends in a suffix glued to its last word. *)
Lemma split_join_suffix (ws : list string) (t : string) :
  Forall word ws → ws ≠ [] → no_space t = true →
  length (Py.split (Py.join " " ws +:+ t)) = length ws.
Proof.
  intros Hws Hne Ht. induction Hws as [|w ws Hw Hws IH]; [done|].
  destruct ws as [|w' ws].
  - simpl. rewrite split_word; [done|]. by apply word_app.
  - change (Py.join " " (w :: w' :: ws))
      with (w +:+ " " +:+ Py.join " " (w' :: ws)).
    rewrite !str_app_assoc, split_word_app; [|done..].
    rewrite split_space. simpl. f_equal. by apply IH.
Qed.

End strings.

(** ** The 25-word ceiling on bullets *)

Section truncation.
Import resume_generator.

Lemma truncate_bullet_short (bullet : string) :
  length (Py.split bullet) ≤ 25 → truncate_bullet bullet = bullet.
Proof.
  intros H. unfold truncate_bullet.
  destruct (Nat.ltb_spec 25 (length (Py.split bullet))); [lia | done].
Qed.

Lemma truncate_bullet_long (bullet : string) :
  25 < length (Py.split bullet) →
  truncate_bullet bullet = Py.join " " (take 25 (Py.split bullet)) +:+ "...".
Proof.
  intros H. unfold truncate_bullet.
  destruct (Nat.ltb_spec 25 (length (Py.split bullet))); [done | lia].
Qed.

Lemma truncate_bullet_ceiling (bullet : string) :
  length (Py.split (truncate_bullet bullet)) ≤ 25.
Proof.
  destruct (decide (length (Py.split bullet) ≤ 25)) as [H|H].
  - by rewrite truncate_bullet_short.
  - rewrite truncate_bullet_long by lia.
    rewrite split_join_suffix.
    + rewrite length_take. lia.
    + apply Forall_take, split_words.
    + destruct (Py.split bullet); simpl in *; [lia | done].
    + done.
Qed.

(** C2.  For every list of bullets, the empty one too, the output of
    [truncate_bullets_to_25_words] has the length of its input, and its
    [i]-th bullet comes from the [i]-th input bullet: the bullet itself
    when it has at most 25 words, its first 25 words joined by single
    spaces and followed by three dots when it has more.  Either way the
    output bullet has at most 25 words. *)
Theorem truncate_bullets_to_25_words_spec (bullets : list string) :
  length (truncate_bullets_to_25_words bullets) = length bullets ∧
  (bullets = [] → truncate_bullets_to_25_words bullets = []) ∧
  ∀ i bullet, bullets !! i = Some bullet →
    ∃ out, truncate_bullets_to_25_words bullets !! i = Some out ∧
      (length (Py.split bullet) ≤ 25 → out = bullet) ∧
      (25 < length (Py.split bullet) →
         out = Py.join " " (take 25 (Py.split bullet)) +:+ "...") ∧
      length (Py.split out) ≤ 25.
Proof.
  unfold truncate_bullets_to_25_words. split; [by rewrite length_fmap|].
  split; [by intros ->|].
  intros i bullet Hi.
  exists (truncate_bullet bullet). rewrite list_lookup_fmap, Hi.
  split; [done|]. split; [apply truncate_bullet_short|].
  split; [apply truncate_bullet_long | apply truncate_bullet_ceiling].
Qed.

Lemma truncate_bullets_to_25_words_witness :
  truncate_bullets_to_25_words sample_bullets =
    ["w1 w2 w3 w4 w5 w6 w7 w8 w9 w10 w11 w12 w13 w14 w15 w16 w17 w18 w19 w20 w21 w22 w23 w24 w25...";
     "Did  X"] ∧
  length (truncate_bullets_to_25_words sample_bullets) = length sample_bullets ∧
  truncate_bullets_to_25_words [] = [] ∧
  ∃ out, truncate_bullets_to_25_words sample_bullets !! 1 = Some out ∧ out = "Did  X".
Proof.
  split; [reflexivity|].
  destruct (truncate_bullets_to_25_words_spec sample_bullets) as (Hlen & _ & Hith).
  destruct (truncate_bullets_to_25_words_spec []) as (_ & Hnil & _).
  split; [exact Hlen|]. split; [exact (Hnil eq_refl)|].
  destruct (Hith 1 "Did  X" eq_refl) as (out & Hout & Hshort & _).
  exists out. split; [exact Hout|]. apply Hshort. vm_compute. lia.
Defined.

End truncation.

(** ** Extraction of JSON from a response *)

Section extraction.
Import resume_generator.

Lemma has_char_app (c : ascii) (a b : string) :
  Py.has_char c (a +:+ b) = Py.has_char c a || Py.has_char c b.
Proof.
  induction a as [|x a IH]; [done|].
  rewrite str_app_cons. simpl. rewrite IH. by rewrite orb_assoc.
Qed.

Lemma strip_prefix_Some (p s r : string) :
  Py.strip_prefix p s = Some r → s = p +:+ r.
Proof.
  revert s. induction p as [|a p IH]; intros s H; simpl in H.
  - by inversion H.
  - destruct s as [|b s]; [done|].
    destruct (Ascii.eqb a b) eqn:Hab; [|done].
    apply Ascii.eqb_eq in Hab as ->. rewrite str_app_cons. f_equal. by apply IH.
Qed.

Lemma strip_prefix_app (p r : string) : Py.strip_prefix p (p +:+ r) = Some r.
Proof.
  induction p as [|a p IH]; [done|].
  rewrite str_app_cons. simpl. by rewrite Ascii.eqb_refl.
Qed.

Lemma strip_prefix_cons (a b : ascii) (p s : string) :
  Py.strip_prefix (String a p) (String b s)
  = if Ascii.eqb a b then Py.strip_prefix p s else None.
Proof. done. Qed.

Lemma startswith_cons_ne (a b : ascii) (p s : string) :
  Ascii.eqb b a = false → Py.startswith (String a p) (String b s) = false.
Proof.
  intros H. unfold Py.startswith. rewrite strip_prefix_cons.
  rewrite Ascii.eqb_sym. by rewrite H.
Qed.

(** [lstrip] drops a prefix of whitespace. *)
Lemma lstrip_decomp (s : string) :
  ∃ ws, s = ws +:+ Py.lstrip s ∧ ∀ c, Py.isspace c = false → Py.has_char c ws = false.
Proof.
  induction s as [|a s (ws & Hs & Hws)].
  - by exists "".
  - simpl. destruct (Py.isspace a) eqn:Ha.
    + exists (String a ws). split; [by rewrite str_app_cons, <- Hs|].
      intros c Hc. simpl. rewrite Hws by done.
      destruct (Ascii.eqb_spec a c); [congruence | done].
    + by exists "".
Qed.

Lemma lstrip_word_start (c : ascii) (s : string) :
  Py.isspace c = false → Py.lstrip (String c s) = String c s.
Proof. intros H. simpl. by rewrite H. Qed.

(** The first occurrence of a character is unique. *)
Lemma first_occurrence (c : ascii) (a b x y : string) :
  Py.has_char c a = false → Py.has_char c b = false →
  a +:+ String c x = b +:+ String c y → a = b ∧ x = y.
Proof.
  revert b. induction a as [|u a IH]; intros [|v b] Ha Hb H.
  - rewrite !str_app_nil_l in H. by inversion H.
  - rewrite str_app_nil_l, str_app_cons in H. inversion H; subst.
    simpl in Hb. by rewrite Ascii.eqb_refl in Hb.
  - rewrite str_app_nil_l, str_app_cons in H. inversion H; subst.
    simpl in Ha. by rewrite Ascii.eqb_refl in Ha.
  - rewrite !str_app_cons in H. inversion H; subst.
    simpl in Ha, Hb. apply orb_false_elim in Ha as [_ Ha].
    apply orb_false_elim in Hb as [_ Hb].
    destruct (IH b Ha Hb) as [-> ->]; done.
Qed.

Lemma upto_last_brace_None (s : string) :
  Py.has_char "}" s = false → upto_last_brace s = None.
Proof.
  induction s as [|c s IH]; [done|]. simpl. intros H.
  apply orb_false_elim in H as [Hc H]. by rewrite IH, Hc.
Qed.

Lemma upto_last_brace_Some (s : string) :
  Py.has_char "}" s = true → is_Some (upto_last_brace s).
Proof.
  induction s as [|c s IH]; [done|]. simpl. intros H.
  destruct (upto_last_brace s); [by eexists|].
  destruct (Ascii.eqb c "}") eqn:Hc; [by eexists|].
  simpl in H. destruct (IH H) as [? ?]; done.
Qed.

Lemma upto_last_brace_app (b post : string) :
  Py.has_char "}" post = false →
  upto_last_brace (b +:+ "}" +:+ post) = Some (b +:+ "}").
Proof.
  intros H. induction b as [|c b IH].
  - rewrite !str_app_nil_l. change ("}" +:+ post) with (String "}" post).
    simpl. by rewrite upto_last_brace_None.
  - rewrite !(str_app_cons c b). simpl. by rewrite IH.
Qed.

Lemma search_braces_skip (pre s : string) :
  Py.has_char "{" pre = false → search_braces (pre +:+ s) = search_braces s.
Proof.
  induction pre as [|c pre IH]; [done|]. intros H. simpl in H.
  apply orb_false_elim in H as [Hc H]. rewrite str_app_cons. simpl.
  by rewrite Hc, IH.
Qed.

(** The brace pattern finds the object between prose without braces of
    the wrong kind. *)
Lemma search_braces_context (pre inner post : string) :
  Py.has_char "{" pre = false → Py.has_char "}" post = false →
  search_braces (pre +:+ ("{" +:+ inner +:+ "}") +:+ post)
  = Some ("{" +:+ inner +:+ "}").
Proof.
  intros Hpre Hpost. rewrite search_braces_skip by done.
  rewrite !str_app_assoc. change ("{" +:+ ?x) with (String "{" x).
  simpl. by rewrite upto_last_brace_app.
Qed.

Lemma lazy_body_None (s : string) :
  Py.has_char "}" s = false → lazy_body s = None.
Proof.
  induction s as [|c s IH]; [done|]. intros H. simpl in H.
  apply orb_false_elim in H as [Hc H]. simpl. by rewrite Hc, IH.
Qed.

Lemma lazy_body_has_brace (s b : string) :
  lazy_body s = Some b → Py.has_char "}" s = true.
Proof.
  revert b. induction s as [|c s IH]; intros b H; [done|]. simpl in H. simpl.
  destruct (Ascii.eqb c "}"); [done|]. simpl in H.
  destruct (lazy_body s) eqn:Hs; [|done]. by rewrite (IH _ eq_refl).
Qed.

(** The fence does not close before text that has a character other than
    whitespace and no backquote. *)
Lemma closes_fence_false (x post : string) :
  Py.has_char "`" x = false → all_space x = false →
  closes_fence (x +:+ post) = false.
Proof.
  unfold closes_fence. induction x as [|c x IH]; [done|]. intros Hq Hs.
  simpl in Hq, Hs. apply orb_false_elim in Hq as [Hc Hq].
  rewrite str_app_cons. simpl. destruct (Py.isspace c) eqn:Hsp.
  - by apply IH.
  - by apply startswith_cons_ne.
Qed.

Lemma lazy_body_context (inner post : string) :
  Py.has_char "`" inner = false → Py.has_char "}" post = false →
  lazy_body (inner +:+ "}" +:+ post)
  = if closes_fence post then Some (inner +:+ "}") else None.
Proof.
  intros Hq Hpost. induction inner as [|c inner IH].
  - rewrite !str_app_nil_l. change ("}" +:+ post) with (String "}" post).
    simpl. destruct (closes_fence post); [done|]. by rewrite lazy_body_None.
  - simpl in Hq. apply orb_false_elim in Hq as [Hc Hq].
    assert (closes_fence (inner +:+ "}" +:+ post) = false) as Hcf.
    { rewrite <- str_app_assoc. apply closes_fence_false.
      - rewrite has_char_app, Hq. done.
      - clear. induction inner as [|d inner IH]; [done|].
        rewrite str_app_cons. simpl. by rewrite IH, andb_false_r. }
    rewrite !(str_app_cons c inner). simpl.
    rewrite Hcf, andb_false_r, (IH Hq).
    by destruct (closes_fence post).
Qed.

(** What the code-block pattern has passed when it reaches the group. *)
Lemma match_fence_decomp (s g : string) :
  match_fence s = Some g →
  ∃ x r b, s = x +:+ String "{" r ∧ Py.has_char "{" x = false
           ∧ lazy_body r = Some b ∧ g = String "{" b.
Proof.
  unfold match_fence. intros H.
  destruct (Py.strip_prefix "```" s) as [r|] eqn:Hr; [|done].
  apply strip_prefix_Some in Hr as ->.
  assert (∃ j, r = j +:+ default r (Py.strip_prefix "json" r)
               ∧ Py.has_char "{" j = false) as (j & Hj & Hjb).
  { destruct (Py.strip_prefix "json" r) as [r1|] eqn:Hr1.
    - apply strip_prefix_Some in Hr1. by exists "json".
    - by exists "". }
  destruct (lstrip_decomp (default r (Py.strip_prefix "json" r)))
    as (ws & Hws & Hsp).
  destruct (Py.lstrip (default r (Py.strip_prefix "json" r)))
    as [|c r2] eqn:Hl; [done|].
  destruct (Ascii.eqb_spec c "{") as [->|Hne].
  2: { destruct c as [[] [] [] [] [] [] [] []]; try done. }
  destruct (lazy_body r2) as [b|] eqn:Hb.
  2: { by destruct r2. }
  exists ("```" +:+ j +:+ ws), r2, b. repeat split.
  - rewrite Hj at 1. rewrite Hws at 1. by rewrite !str_app_assoc.
  - rewrite !has_char_app, Hjb, Hsp; done.
  - done.
  - simpl in H. by inversion H.
Qed.

Lemma match_fence_context (pre inner post : string) :
  Py.has_char "{" pre = false → Py.has_char "`" inner = false →
  Py.has_char "}" post = false →
  match_fence (pre +:+ ("{" +:+ inner +:+ "}") +:+ post) = None
  ∨ match_fence (pre +:+ ("{" +:+ inner +:+ "}") +:+ post)
    = Some ("{" +:+ inner +:+ "}").
Proof.
  intros Hpre Hq Hpost.
  destruct (match_fence _) as [g|] eqn:Hg; [right | by left].
  apply match_fence_decomp in Hg as (x & r & b & Hs & Hx & Hb & ->).
  rewrite !str_app_assoc in Hs. change ("{" +:+ ?y) with (String "{" y) in Hs.
  apply first_occurrence in Hs as [_ <-]; [|done..].
  rewrite lazy_body_context in Hb by done.
  destruct (closes_fence post); by inversion Hb.
Qed.

Lemma search_fence_cons (c : ascii) (s : string) :
  search_fence (String c s)
  = match match_fence (String c s) with
    | Some g => Some g
    | None => search_fence s
    end.
Proof. done. Qed.

Lemma search_fence_no_brace (s : string) :
  Py.has_char "}" s = false → search_fence s = None.
Proof.
  assert (∀ t, Py.has_char "}" t = false → match_fence t = None) as Hm.
  { intros t Ht. destruct (match_fence t) as [g|] eqn:Hg; [|done].
    apply match_fence_decomp in Hg as (x & r & b & -> & _ & Hb & _).
    apply lazy_body_has_brace in Hb. rewrite has_char_app in Ht. simpl in Ht.
    rewrite Hb in Ht. by rewrite !orb_true_r in Ht. }
  induction s as [|c s IH]; intros H.
  - done.
  - rewrite search_fence_cons, (Hm _ H). simpl in H.
    apply orb_false_elim in H as [_ H]. by apply IH.
Qed.

Lemma search_fence_tail (x post : string) :
  Py.has_char "`" x = false → Py.has_char "}" post = false →
  search_fence (x +:+ post) = None.
Proof.
  intros Hq Hpost. induction x as [|c x IH].
  - by apply search_fence_no_brace.
  - simpl in Hq. apply orb_false_elim in Hq as [Hc Hq].
    rewrite str_app_cons, search_fence_cons. unfold match_fence at 1.
    change "```" with (String "`" "``").
    rewrite strip_prefix_cons, Ascii.eqb_sym, Hc. by apply IH.
Qed.

(** The code-block pattern finds nothing, or the object itself, in an
    object without backquotes between texts without braces of the wrong
    kind. *)
Lemma search_fence_context (pre inner post : string) :
  Py.has_char "{" pre = false → Py.has_char "`" inner = false →
  Py.has_char "}" post = false →
  search_fence (pre +:+ ("{" +:+ inner +:+ "}") +:+ post) = None
  ∨ search_fence (pre +:+ ("{" +:+ inner +:+ "}") +:+ post)
    = Some ("{" +:+ inner +:+ "}").
Proof.
  intros Hpre Hq Hpost. induction pre as [|c pre IH].
  - rewrite str_app_nil_l.
    destruct (match_fence_context "" inner post) as [Hm|Hm]; [done..| |].
    + left. rewrite str_app_nil_l in Hm. rewrite !str_app_assoc in *.
      change ("{" +:+ ?y) with (String "{" y) in *.
      rewrite search_fence_cons, Hm, <- str_app_assoc.
      apply search_fence_tail; [|done]. rewrite has_char_app, Hq. done.
    + right. rewrite str_app_nil_l in Hm. rewrite !str_app_assoc in *.
      change ("{" +:+ ?y) with (String "{" y) in *.
      by rewrite search_fence_cons, Hm.
  - simpl in Hpre. apply orb_false_elim in Hpre as [Hc Hpre].
    destruct (match_fence_context (String c pre) inner post) as [Hm|Hm];
      [by simpl; rewrite Hc, Hpre | done..| |].
    + rewrite str_app_cons in *. rewrite search_fence_cons, Hm. by apply IH.
    + right. rewrite str_app_cons in *. by rewrite search_fence_cons, Hm.
Qed.

Lemma search_braces_Some (x r : string) :
  Py.has_char "}" r = true → is_Some (search_braces (x +:+ String "{" r)).
Proof.
  intros Hr. induction x as [|c x IH].
  - rewrite str_app_nil_l. simpl.
    destruct (upto_last_brace_Some r Hr) as [t ->]. by eexists.
  - rewrite str_app_cons. simpl. destruct (Ascii.eqb c "{"); [|done].
    destruct (upto_last_brace_Some (x +:+ String "{" r)) as [t ->]; [|by eexists].
    rewrite has_char_app. simpl. rewrite Hr. by rewrite !orb_true_r.
Qed.

Lemma upto_last_brace_has (s t : string) :
  upto_last_brace s = Some t → Py.has_char "}" s = true.
Proof.
  revert t. induction s as [|c s IH]; intros t H; [done|]. simpl in H. simpl.
  destruct (upto_last_brace s) eqn:Hu.
  - rewrite (IH _ eq_refl). by rewrite orb_true_r.
  - destruct (Ascii.eqb c "}"); done.
Qed.

Lemma search_braces_inv (s t : string) :
  search_braces s = Some t →
  ∃ x r, s = x +:+ String "{" r ∧ Py.has_char "}" r = true.
Proof.
  revert t. induction s as [|c s IH]; intros t H; [done|]. simpl in H.
  destruct (Ascii.eqb_spec c "{") as [->|Hne].
  - destruct (upto_last_brace s) eqn:Hu; [|done].
    exists "", s. split; [done|]. by eapply upto_last_brace_has.
  - destruct (IH _ H) as (x & r & -> & Hr). by exists (String c x), r.
Qed.

(** Where the code-block pattern matches, the brace pattern matches too. *)
Lemma search_fence_braces (s g : string) :
  search_fence s = Some g → is_Some (search_braces s).
Proof.
  assert (∀ t g, match_fence t = Some g → is_Some (search_braces t)) as Hm.
  { intros t g' Hg.
    apply match_fence_decomp in Hg as (x & r & b & -> & _ & Hb & _).
    apply search_braces_Some. by eapply lazy_body_has_brace. }
  induction s as [|c s IH]; intros H.
  - done.
  - rewrite search_fence_cons in H.
    destruct (match_fence (String c s)) as [g'|] eqn:Hg.
    + by eapply Hm.
    + destruct (IH H) as [t Ht].
      apply search_braces_inv in Ht as (x & r & -> & Hr).
      by apply (search_braces_Some (String c x)).
Qed.

(** The lazy body ends at the first closing brace after which the fence
    closes. *)
Lemma lazy_body_closes (inner rest : string) :
  Py.has_char "`" inner = false → closes_fence rest = true →
  lazy_body (inner +:+ "}" +:+ rest) = Some (inner +:+ "}").
Proof.
  intros Hq Hrest. induction inner as [|c inner IH].
  - rewrite !str_app_nil_l. change ("}" +:+ rest) with (String "}" rest).
    simpl. by rewrite Hrest.
  - simpl in Hq. apply orb_false_elim in Hq as [Hc Hq].
    assert (closes_fence (inner +:+ "}" +:+ rest) = false) as Hcf.
    { rewrite <- str_app_assoc. apply closes_fence_false.
      - rewrite has_char_app, Hq. done.
      - clear. induction inner as [|d inner IH]; [done|].
        rewrite str_app_cons. simpl. by rewrite IH, andb_false_r. }
    rewrite !(str_app_cons c inner). simpl.
    by rewrite Hcf, andb_false_r, (IH Hq).
Qed.

Lemma lstrip_all_space (ws s : string) :
  all_space ws = true → Py.lstrip (ws +:+ s) = Py.lstrip s.
Proof.
  induction ws as [|c ws IH]; [done|]. simpl. intros [Hc Hws]%andb_prop.
  rewrite Hc. by apply IH.
Qed.

Lemma closes_fence_after_space (ws post : string) :
  all_space ws = true → closes_fence (ws +:+ "```" +:+ post) = true.
Proof. intros Hws. unfold closes_fence. by rewrite lstrip_all_space. Qed.

Lemma strip_prefix_json_space (ws s : string) :
  all_space ws = true → Py.strip_prefix "json" (ws +:+ String "{" s) = None.
Proof.
  destruct ws as [|c ws]; [done|]. intros H. simpl in H.
  apply andb_prop in H as [Hc _]. rewrite str_app_cons, strip_prefix_cons.
  destruct (Ascii.eqb_spec "j" c) as [<-|]; done.
Qed.

(** The code-block pattern matches a block that has no tag or the tag
    [json], and its group is the object. *)
Lemma match_fence_block (tag ws inner ws' post : string) :
  tag = "" ∨ tag = "json" → all_space ws = true → all_space ws' = true →
  Py.has_char "`" inner = false →
  match_fence ("```" +:+ tag +:+ ws +:+ ("{" +:+ inner +:+ "}") +:+ ws' +:+ "```"
               +:+ post)
  = Some ("{" +:+ inner +:+ "}").
Proof.
  intros Htag Hws Hws' Hq. unfold match_fence. rewrite strip_prefix_app.
  assert (default (tag +:+ ws +:+ ("{" +:+ inner +:+ "}") +:+ ws' +:+ "```" +:+ post)
            (Py.strip_prefix "json"
               (tag +:+ ws +:+ ("{" +:+ inner +:+ "}") +:+ ws' +:+ "```" +:+ post))
          = ws +:+ ("{" +:+ inner +:+ "}") +:+ ws' +:+ "```" +:+ post) as ->.
  { destruct Htag as [->| ->].
    - rewrite str_app_nil_l, !str_app_assoc.
      change ("{" +:+ ?y) with (String "{" y).
      by rewrite strip_prefix_json_space.
    - by rewrite strip_prefix_app. }
  rewrite lstrip_all_space by done. rewrite !str_app_assoc.
  change ("{" +:+ ?y) with (String "{" y). simpl.
  rewrite lazy_body_closes; [done | done |]. by apply closes_fence_after_space.
Qed.

(** The search passes over text without backquotes. *)
Lemma search_fence_skip (pre s : string) :
  Py.has_char "`" pre = false → search_fence (pre +:+ s) = search_fence s.
Proof.
  induction pre as [|c pre IH]; [done|]. intros H. simpl in H.
  apply orb_false_elim in H as [Hc H].
  rewrite str_app_cons, search_fence_cons. unfold match_fence at 1.
  change "```" with (String "`" "``").
  rewrite strip_prefix_cons, Ascii.eqb_sym, Hc. by apply IH.
Qed.

(** The code-block pattern finds the object of the first block, whatever
    braces the text around the block has. *)
Lemma search_fence_block (pre tag ws inner ws' post : string) :
  Py.has_char "`" pre = false →
  tag = "" ∨ tag = "json" → all_space ws = true → all_space ws' = true →
  Py.has_char "`" inner = false →
  search_fence (pre +:+ "```" +:+ tag +:+ ws +:+ ("{" +:+ inner +:+ "}") +:+ ws'
                +:+ "```" +:+ post)
  = Some ("{" +:+ inner +:+ "}").
Proof.
  intros Hpre Htag Hws Hws' Hq. rewrite search_fence_skip by done.
  pose proof (match_fence_block tag ws inner ws' post Htag Hws Hws' Hq) as Hm.
  change ("```" +:+ ?y) with (String "`" ("``" +:+ y)) in *.
  by rewrite search_fence_cons, Hm.
Qed.

(** C1, as amended.  [extract_json_from_text] returns the first of these
    that parses: the whole text; group 1 of the code-block pattern; the
    text from the first opening brace to the last closing brace; when none
    does, it raises the error with the first 200 characters.  So an
    object [{inner}] that parses to [v] is also what comes out of any text
    [pre {inner} post] that is not itself JSON, when [pre] has no opening
    brace, [post] no closing brace and the object no backquote: a code
    block with any tag, or prose around the object.  The code-block
    pattern is what finds the object when the prose has braces of its own:
    an object without backquotes in a block that has no tag or the tag
    [json] comes out of any text that is not itself JSON and has no
    backquote before the block.  A text that is not JSON and has no
    opening brace followed by a closing brace raises the error with the
    first 200 characters of the text. *)
Theorem extract_json_from_text_spec :
  (∀ text v, Json.loads text = Some v → extract_json_from_text text = Ok v) ∧
  (∀ text g v,
     Json.loads text = None → search_fence text = Some g → Json.loads g = Some v →
     extract_json_from_text text = Ok v) ∧
  (∀ text b v,
     Json.loads text = None → search_fence text ≫= Json.loads = None →
     search_braces text = Some b → Json.loads b = Some v →
     extract_json_from_text text = Ok v) ∧
  (∀ text,
     Json.loads text = None → search_fence text ≫= Json.loads = None →
     search_braces text ≫= Json.loads = None →
     extract_json_from_text text = Raise (parse_error text)) ∧
  (∀ pre inner post v,
     Json.loads ("{" +:+ inner +:+ "}") = Some v →
     Py.has_char "{" pre = false → Py.has_char "}" post = false →
     Py.has_char "`" inner = false →
     Json.loads (pre +:+ ("{" +:+ inner +:+ "}") +:+ post) = None →
     extract_json_from_text (pre +:+ ("{" +:+ inner +:+ "}") +:+ post) = Ok v) ∧
  (∀ pre tag ws inner ws' post v,
     Json.loads ("{" +:+ inner +:+ "}") = Some v →
     Py.has_char "`" pre = false →
     tag = "" ∨ tag = "json" → all_space ws = true → all_space ws' = true →
     Py.has_char "`" inner = false →
     Json.loads (pre +:+ "```" +:+ tag +:+ ws +:+ ("{" +:+ inner +:+ "}") +:+ ws'
                 +:+ "```" +:+ post) = None →
     extract_json_from_text (pre +:+ "```" +:+ tag +:+ ws +:+ ("{" +:+ inner +:+ "}")
                             +:+ ws' +:+ "```" +:+ post) = Ok v) ∧
  (∀ text,
     Json.loads text = None → search_braces text = None →
     extract_json_from_text text = Raise (parse_error text)).
Proof.
  unfold extract_json_from_text. repeat split.
  - intros text v ->. done.
  - intros text g v -> -> Hg. simpl. by rewrite Hg.
  - intros text b v -> -> -> Hb. simpl. by rewrite Hb.
  - intros text -> -> ->. done.
  - intros pre inner post v HJ Hpre Hpost Hq ->.
    rewrite search_braces_context by done.
    destruct (search_fence_context pre inner post) as [-> | ->]; [done..| |];
      simpl; by rewrite HJ.
  - intros pre tag ws inner ws' post v HJ Hpre Htag Hws Hws' Hq ->.
    rewrite search_fence_block by done. simpl. by rewrite HJ.
  - intros text -> Hb.
    destruct (search_fence text) as [g|] eqn:Hg.
    + apply search_fence_braces in Hg as [b Hb']. congruence.
    + by rewrite Hb.
Qed.

Lemma extract_json_from_text_witness :
  extract_json_from_text sample_object = Ok sample_value ∧
  extract_json_from_text sample_fenced = Ok sample_value ∧
  extract_json_from_text sample_prose = Ok sample_value ∧
  extract_json_from_text sample_fenced_in_prose = Ok sample_value ∧
  extract_json_from_text "I cannot help with that."
  = Raise (parse_error "I cannot help with that.").
Proof.
  destruct extract_json_from_text_spec as (H1 & _ & _ & _ & H4 & H5 & H6).
  split; [apply H1; reflexivity|].
  split; [apply (H4 "```javascript
" sample_inner "
```"); reflexivity|].
  split; [apply (H4 "Here is the result: " sample_inner " I hope it helps.");
          reflexivity|].
  split; [apply (H5 "Fill {name} in: " "json" "
" sample_inner "
" " and {more}."); try reflexivity; by right|].
  apply H6; reflexivity.
Defined.

(** C1 as stated fails.  A text without braces that is itself JSON is
    returned, not refused; prose with a brace of its own hides an object
    that is not in a code block; and so it does for a block with another
    tag than [json], which the code-block pattern does not match. *)
Lemma extract_json_from_text_counterexample :
  (search_braces "42" = None ∧ extract_json_from_text "42" = Ok (JInt 42)) ∧
  (extract_json_from_text sample_object = Ok sample_value ∧
   extract_json_from_text ("Fill {name} in: " +:+ sample_object)
   = Raise (parse_error ("Fill {name} in: " +:+ sample_object))) ∧
  (search_fence sample_fenced = None ∧
   extract_json_from_text ("Fill {name} in: " +:+ sample_fenced)
   = Raise (parse_error ("Fill {name} in: " +:+ sample_fenced))).
Proof. repeat split; reflexivity. Qed.

End extraction.

(** ** The JSON scanner: enough fuel *)

Section parser.
Import Json.

Lemma skip_ws_length (s : string) :
  String.length (skip_ws s) ≤ String.length s.
Proof.
  induction s as [|c s IH]; [done|]. simpl.
  destruct (is_ws c); simpl; lia.
Qed.

Lemma after_length (c : ascii) (s r : string) :
  after c s = Some r → String.length s = S (String.length r).
Proof.
  destruct s as [|a s]; [done|]. simpl.
  destruct (Ascii.eqb a c); [|done]. by intros [= ->].
Qed.

Lemma span_digits_length (s : string) :
  String.length (span_digits s).2 ≤ String.length s.
Proof.
  induction s as [|c s IH]; [done|]. simpl.
  destruct (is_digit c); [|done].
  destruct (span_digits s) as [ds r]. simpl in *. lia.
Qed.

Lemma scan_frac_length (s : string) :
  String.length (scan_frac s).2 ≤ String.length s.
Proof.
  unfold scan_frac. destruct (after "." s) as [[|d s']|] eqn:Ha; [done| |done].
  destruct (is_digit d); [|done].
  pose proof (span_digits_length s') as Hs.
  destruct (span_digits s') as [ds r]. apply after_length in Ha.
  simpl in *. lia.
Qed.

Lemma scan_sign_length (s : string) :
  String.length (scan_sign s).2 ≤ String.length s.
Proof.
  unfold scan_sign.
  destruct (after "-" s) as [r|] eqn:Hm.
  { apply after_length in Hm. simpl. lia. }
  destruct (after "+" s) as [r|] eqn:Hp; [|done].
  apply after_length in Hp. simpl. lia.
Qed.

Lemma scan_exp_length (s : string) :
  String.length (scan_exp s).2 ≤ String.length s.
Proof.
  destruct s as [|e s1]; [done|]. unfold scan_exp.
  destruct (Ascii.eqb e "e" || Ascii.eqb e "E"); [|done].
  pose proof (scan_sign_length s1) as Hsign.
  destruct (scan_sign s1) as [neg s2].
  pose proof (span_digits_length s2) as Hd.
  destruct (span_digits s2) as [[|d ds] r]; [done|]. simpl in *. lia.
Qed.

Lemma match_number_length (s : string) (v : json) (r : string) :
  match_number s = Some (v, r) → String.length r < String.length s.
Proof.
  unfold match_number.
  assert (∃ neg s1, (match after "-" s with
                     | Some r => (true, r)
                     | None => (false, s)
                     end) = (neg, s1) ∧ String.length s1 ≤ String.length s)
    as (neg & s1 & -> & Hs1).
  { destruct (after "-" s) as [r'|] eqn:Hm; eexists _, _; split; try done.
    apply after_length in Hm. lia. }
  destruct s1 as [|c r0]; [done|].
  destruct (is_digit c); [|done].
  assert (∃ ds r1, (if Ascii.eqb c "0" then ("0", r0)
                    else let '(ds, r1) := span_digits r0 in (String c ds, r1))
                   = (ds, r1) ∧ String.length r1 ≤ String.length r0)
    as (ds & r1 & -> & Hr1).
  { destruct (Ascii.eqb c "0"); [by eexists _, _|].
    pose proof (span_digits_length r0) as Hd.
    destruct (span_digits r0) as [ds r1]. by eexists _, _. }
  pose proof (scan_frac_length r1) as Hf.
  destruct (scan_frac r1) as [frac r2].
  pose proof (scan_exp_length r2) as He.
  destruct (scan_exp r2) as [ex r3]. simpl in *.
  destruct frac, ex; try (intros [= _ <-]; lia).
  destruct (max_str_digits <? String.length ds); [done|].
  intros [= _ <-]. lia.
Qed.

Lemma keyword_length (kw : string) (v v' : json) (s r : string) :
  kw ≠ "" → keyword kw v s = Some (v', r) → String.length r < String.length s.
Proof.
  intros Hkw. unfold keyword.
  destruct (Py.strip_prefix kw s) as [r'|] eqn:Hp; [|done].
  intros [= _ <-]. apply strip_prefix_Some in Hp as ->.
  rewrite str_length_app. destruct kw; [done|]. simpl. lia.
Qed.

Lemma scan_atom_length (c : ascii) (s : string) (v : json) (r : string) :
  scan_atom c s = Some (v, r) → String.length r < String.length s.
Proof.
  unfold scan_atom.
  repeat (case_match; [by apply keyword_length|]).
  case_match; [|apply match_number_length].
  destruct (keyword "-Infinity" _ s) as [[v' r']|] eqn:Hk.
  - intros [= <- <-]. eapply keyword_length; [|exact Hk]. done.
  - apply match_number_length.
Qed.

Lemma scanstring_length (s t r : string) :
  scanstring s = Some (t, r) → String.length r < String.length s.
Proof.
  remember (String.length s) as n eqn:Hn.
  revert s t r Hn. induction (lt_wf n) as [n _ IH]. intros s t r -> H.
  destruct s as [|c s']; [done|]. simpl in H.
  destruct (Ascii.eqb c "034"). { inversion H; subst. simpl. lia. }
  destruct (Ascii.eqb c "\").
  - destruct s' as [|e s'']; [done|].
    destruct (Ascii.eqb e "u").
    + destruct s'' as [|h1 [|h2 [|h3 [|h4 s4]]]]; try done.
      destruct (unicode_escape h1 h2 h3 h4); [|done].
      destruct (scanstring s4) as [[t' r']|] eqn:H4; [|done].
      inversion H; subst.
      pose proof (IH (String.length s4) ltac:(simpl; lia) s4 _ _ eq_refl H4).
      simpl. lia.
    + destruct (simple_escape e); [|done].
      destruct (scanstring s'') as [[t' r']|] eqn:H2; [|done].
      inversion H; subst.
      pose proof (IH (String.length s'') ltac:(simpl; lia) s'' _ _ eq_refl H2).
      simpl. lia.
  - destruct (nat_of_ascii c <? 32); [done|].
    destruct (scanstring s') as [[t' r']|] eqn:H1; [|done].
    inversion H; subst.
    pose proof (IH (String.length s') ltac:(simpl; lia) s' _ _ eq_refl H1).
    simpl. lia.
Qed.

Lemma key_length (s key r : string) :
  after "034" s ≫= scanstring = Some (key, r) →
  String.length r < String.length s.
Proof.
  destruct (after "034" s) as [s'|] eqn:Ha; [|done]. simpl. intros H.
  apply after_length in Ha. apply scanstring_length in H. lia.
Qed.

(** A value, a run of members or a run of elements takes at least one
    character. *)
Lemma scan_length (fuel : nat) (m : mode) (s : string) (v : json) (r : string) :
  scan fuel m s = Some (v, r) → String.length r < String.length s.
Proof.
  revert m s v r. induction fuel as [|fuel IH]; intros m s v r H; [done|].
  destruct m as [|acc|acc]; cbn [scan] in H.
  - destruct s as [|c s']; [done|].
    destruct (Ascii.eqb c "034").
    { destruct (scanstring s') as [[t r']|] eqn:Hs; [|done].
      inversion H; subst. apply scanstring_length in Hs. simpl. lia. }
    pose proof (skip_ws_length s') as Hws.
    destruct (Ascii.eqb c "{").
    { destruct (after "}" (skip_ws s')) as [r'|] eqn:Ha.
      - inversion H; subst. apply after_length in Ha. simpl. lia.
      - apply IH in H. simpl. lia. }
    destruct (Ascii.eqb c "[").
    { destruct (after "]" (skip_ws s')) as [r'|] eqn:Ha.
      - inversion H; subst. apply after_length in Ha. simpl. lia.
      - destruct (scan fuel Value (skip_ws s')) as [[v0 r0]|] eqn:Hv; [|done].
        apply IH in Hv. apply IH in H. simpl. lia. }
    by apply scan_atom_length in H.
  - destruct (after "034" s ≫= scanstring) as [[key r0]|] eqn:Hk; [|done].
    apply key_length in Hk. pose proof (skip_ws_length r0) as Hw0.
    destruct (after ":" (skip_ws r0)) as [r1|] eqn:Hc; [|done].
    apply after_length in Hc. pose proof (skip_ws_length r1) as Hw1.
    destruct (scan fuel Value (skip_ws r1)) as [[v0 r2]|] eqn:Hv; [|done].
    apply IH in Hv. pose proof (skip_ws_length r2) as Hw2.
    destruct (after "}" (skip_ws r2)) as [r3|] eqn:Hend.
    { inversion H; subst. apply after_length in Hend. lia. }
    destruct (after "," (skip_ws r2)) as [r3|] eqn:Hcomma; [|done].
    apply after_length in Hcomma. pose proof (skip_ws_length r3) as Hw3.
    apply IH in H. lia.
  - pose proof (skip_ws_length s) as Hw.
    destruct (after "]" (skip_ws s)) as [r0|] eqn:Hend.
    { inversion H; subst. apply after_length in Hend. lia. }
    destruct (after "," (skip_ws s)) as [r0|] eqn:Hcomma; [|done].
    apply after_length in Hcomma. pose proof (skip_ws_length r0) as Hw0.
    destruct (scan fuel Value (skip_ws r0)) as [[v0 r1]|] eqn:Hv; [|done].
    apply IH in Hv. apply IH in H. lia.
Qed.

(** Fuel beyond the length of the text changes nothing. *)
Lemma scan_fuel (f1 f2 : nat) (m : mode) (s : string) :
  String.length s < f1 → String.length s < f2 → scan f1 m s = scan f2 m s.
Proof.
  revert f2 m s. induction f1 as [|f1 IH]; intros f2 m s H1 H2; [lia|].
  destruct f2 as [|f2]; [lia|].
  destruct m as [|acc|acc]; cbn [scan].
  - destruct s as [|c s']; [done|]. simpl in H1, H2.
    pose proof (skip_ws_length s') as Hws.
    destruct (Ascii.eqb c "034"); [done|].
    destruct (Ascii.eqb c "{").
    { destruct (after "}" (skip_ws s')); [done|]. apply IH; lia. }
    destruct (Ascii.eqb c "[").
    { destruct (after "]" (skip_ws s')); [done|].
      rewrite (IH f2 Value (skip_ws s')) by lia.
      destruct (scan f2 Value (skip_ws s')) as [[v0 r0]|] eqn:Hv; [|done].
      apply scan_length in Hv. apply IH; lia. }
    done.
  - destruct (after "034" s ≫= scanstring) as [[key r0]|] eqn:Hk; [|done].
    apply key_length in Hk. pose proof (skip_ws_length r0) as Hw0.
    destruct (after ":" (skip_ws r0)) as [r1|] eqn:Hc; [|done].
    apply after_length in Hc. pose proof (skip_ws_length r1) as Hw1.
    rewrite (IH f2 Value (skip_ws r1)) by lia.
    destruct (scan f2 Value (skip_ws r1)) as [[v0 r2]|] eqn:Hv; [|done].
    apply scan_length in Hv. pose proof (skip_ws_length r2) as Hw2.
    destruct (after "}" (skip_ws r2)) as [r3|]; [done|].
    destruct (after "," (skip_ws r2)) as [r3|] eqn:Hcomma; [|done].
    apply after_length in Hcomma. pose proof (skip_ws_length r3) as Hw3.
    apply IH; lia.
  - pose proof (skip_ws_length s) as Hw.
    destruct (after "]" (skip_ws s)) as [r0|]; [done|].
    destruct (after "," (skip_ws s)) as [r0|] eqn:Hcomma; [|done].
    apply after_length in Hcomma. pose proof (skip_ws_length r0) as Hw0.
    rewrite (IH f2 Value (skip_ws r0)) by lia.
    destruct (scan f2 Value (skip_ws r0)) as [[v0 r1]|] eqn:Hv; [|done].
    apply scan_length in Hv. apply IH; lia.
Qed.

(** [loads] gives the fuel that is enough: with any more the scanner
    returns the same. *)
Lemma loads_fuel (fuel : nat) (s : string) :
  String.length s < fuel →
  loads s
  = match scan fuel Value (skip_ws s) with
    | Some (v, r) => if String.eqb (skip_ws r) "" then Some v else None
    | None => None
    end.
Proof.
  intros H. unfold loads. pose proof (skip_ws_length s).
  rewrite (scan_fuel (S (String.length s)) fuel) by lia. done.
Qed.

End parser.

(** ** Story content: the precondition check *)

Section story.
Import resume_generator.

Lemma strip_empty : Py.strip "" = "".
Proof. done. Qed.

Lemma blank_check (s : string) :
  String.eqb s "" || String.eqb (Py.strip s) "" = String.eqb (Py.strip s) "".
Proof. destruct s; [done|]. done. Qed.

(** C7, as amended.  When at least one output is requested and the story
    of the profile or the job description is empty or whitespace only,
    [generate_story_content] raises its precondition error without calling
    the service: whatever the service would answer, the log of requests is
    as before.  When no output is requested it returns the empty result,
    also without a call. *)
Theorem generate_story_content_precondition (profile : UserProfile.t)
    (job_description : string) (include_why include_cover_letter : bool)
    (extra_knowledge : option string) (service : request → result string)
    (log : list request) :
  Py.strip (UserProfile.my_story profile) = "" ∨ Py.strip job_description = "" →
  run service
    (generate_story_content profile job_description include_why
       include_cover_letter extra_knowledge) log
  = (log, if include_why || include_cover_letter
          then Raise (precondition_error profile)
          else Ok []).
Proof.
  intros Hblank. unfold generate_story_content, precondition_error.
  rewrite !blank_check.
  destruct include_why, include_cover_letter; simpl; try done;
    destruct (String.eqb_spec (Py.strip (UserProfile.my_story profile)) "")
      as [Hs|Hs]; try done;
    destruct Hblank as [?|Hj]; try done; by rewrite Hj.
Qed.

(** When an output is requested and neither text is blank, the service is
    called, once. *)
Lemma generate_story_content_calls (profile : UserProfile.t)
    (job_description : string) (include_why include_cover_letter : bool)
    (extra_knowledge : option string) :
  include_why || include_cover_letter = true →
  Py.strip (UserProfile.my_story profile) ≠ "" →
  Py.strip job_description ≠ "" →
  ∃ req k,
    generate_story_content profile job_description include_why
      include_cover_letter extra_knowledge = Call req k ∧
    model req = "claude-sonnet-4-5" ∧
    ∀ service log,
      (run service (Call req k) log).1 = log ++ [req].
Proof.
  intros Hreq Hstory Hjd. unfold generate_story_content. rewrite !blank_check.
  assert (negb include_why && negb include_cover_letter = false) as ->.
  { by destruct include_why, include_cover_letter. }
  apply String.eqb_neq in Hstory, Hjd. rewrite Hstory, Hjd.
  eexists _, _. split; [done|]. split; [done|].
  intros service log. simpl. destruct (service _) as [text|e]; [|done].
  by destruct (extract_json_from_text text ≫= _).
Qed.

(** A profile without a story, asked for a cover letter. *)
Lemma generate_story_content_witness :
  run (fun _ => Ok "{}")
    (generate_story_content UserProfile.default "Rust engineer at Acme" false true None) []
  = ([], Raise no_story_error).
Proof.
  apply (generate_story_content_precondition UserProfile.default
           "Rust engineer at Acme" false true None (fun _ => Ok "{}") []).
  left. reflexivity.
Defined.

(** C7 as stated fails: with no output requested (the default), an empty
    story and an empty job description raise nothing. *)
Lemma generate_story_content_counterexample :
  UserProfile.my_story UserProfile.default = "" ∧
  generate_story_content UserProfile.default "" false false None = Ret [] ∧
  run (fun _ => Ok "{}")
    (generate_story_content UserProfile.default "" false false None) []
  = ([], Ok []).
Proof. repeat split; reflexivity. Qed.

End story.

(** ** The history cap *)

Section history.
Import app.

Lemma add_to_history_history (st : state) (a : append) :
  resume_history (apply_append st a)
  = Some (entry_of a :: take 19 (default [] (resume_history st))).
Proof. done. Qed.

Lemma reverse_cons_rev_helper {A} (x : A) (l k : list A) :
  rev (x :: l) ++ k = rev l ++ x :: k.
Proof. simpl. by rewrite <- (assoc_L (++)). Qed.

Lemma take_app_take {A} (n : nat) (l1 l2 : list A) :
  take n (l1 ++ take n l2) = take n (l1 ++ l2).
Proof. rewrite !take_app, take_take. do 2 f_equal. lia. Qed.

(** After any number of appends the history holds the appended entries,
    the latest first, then the entries it started with, cut at 20. *)
Lemma history_newest_first (appends : list append) (st : state) :
  resume_history (foldl apply_append st appends)
  = match appends with
    | [] => resume_history st
    | _ => Some (take 20 (rev (entry_of <$> appends)
                          ++ default [] (resume_history st)))
    end.
Proof.
  revert st. induction appends as [|a appends IH]; intros st; [done|].
  simpl foldl. rewrite IH. destruct appends as [|b appends].
  - by rewrite add_to_history_history.
  - rewrite add_to_history_history. f_equal. simpl default.
    change (entry_of a :: take 19 ?l) with (take 20 (entry_of a :: l)).
    rewrite take_app_take. f_equal.
    change (entry_of <$> a :: b :: appends)
      with (entry_of a :: (entry_of <$> b :: appends)).
    by rewrite (reverse_cons_rev_helper (entry_of a)).
Qed.

Lemma item_to_save_entry (e : env) (i : nat) (a : append) :
  item_to_save e i (entry_of a) = entry_of a.
Proof. done. Qed.

(** The entries written are at most as many as the history holds. *)
Lemma saved_length (e : env) (history : list json) :
  length (imap (item_to_save e) (filter (λ x, is_dict x = true) history))
  ≤ length history.
Proof. rewrite length_imap. apply length_filter. Qed.

(** C4.  Appending to a history [h] puts the new entry at index 0 in front
    of the first 19 entries of [h]; the result has at most 20 entries, and
    exactly 20 when [h] had 20, its last (oldest) entry being the one that
    is dropped.  Over any further appends the history holds the appended
    entries, newest first, in front of the older ones, cut at 20.  The file
    is written from the history, so it never holds more than 20 entries
    unless it did before and cannot be written. *)
Theorem add_to_history_cap (st : state) (a : append) (h : list json)
    (more : list append) :
  resume_history st = Some h →
  let st' := apply_append st a in
  resume_history st' = Some (entry_of a :: take 19 h) ∧
  length (entry_of a :: take 19 h) = min 20 (S (length h)) ∧
  (length h = 20 → ∃ oldest, h = take 19 h ++ [oldest]) ∧
  resume_history (foldl apply_append st (a :: more))
  = Some (take 20 (rev (entry_of <$> (a :: more)) ++ h)) ∧
  ((∀ f, history_file st = Some f → length f ≤ 20) →
   ∀ f, history_file st' = Some f → length f ≤ 20) ∧
  (write_ok (a_env a) = true →
   ∃ f, history_file st' = Some f ∧ f !! 0 = Some (entry_of a)).
Proof.
  intros Hh st'. subst st'. rewrite add_to_history_history, Hh. simpl default.
  split; [done|]. split.
  { rewrite length_cons, length_take. lia. }
  split.
  { intros Hlen. destruct (h !! 19) as [oldest|] eqn:Hold.
    - exists oldest. rewrite <- (take_drop 19 h) at 1. f_equal.
      apply list_eq. intros [|i]; simpl.
      + by rewrite lookup_drop, Nat.add_0_r.
      + rewrite lookup_drop. apply lookup_ge_None. lia.
    - apply lookup_ge_None in Hold. lia. }
  split.
  { by rewrite history_newest_first, Hh. }
  unfold apply_append, add_to_history, save_resume_history. simpl.
  rewrite Hh. simpl. split.
  - intros Hfile f. destruct (write_ok (a_env a)).
    + intros [= <-]. simpl. rewrite length_imap.
      etrans; [apply le_n_S, length_filter|]. rewrite length_take. lia.
    + destruct (fallback_ok (a_env a)); [|by apply Hfile].
      intros [= <-]. simpl. lia.
  - intros ->. eexists. split; [done|]. reflexivity.
Qed.

Lemma add_to_history_witness :
  resume_history (apply_append full_state sample_append)
  = Some (entry_of sample_append :: take 19 full_history) ∧
  length (entry_of sample_append :: take 19 full_history) = 20 ∧
  full_history = take 19 full_history ++ [JObj [("id", JInt 20)]].
Proof.
  destruct (add_to_history_cap full_state sample_append full_history [] eq_refl)
    as (H1 & H2 & _).
  split; [exact H1|]. split; [exact H2|]. reflexivity.
Defined.

End history.

(** ** The profile store: saving *)

Section saving.
Import profile_manager.

Lemma versioned_path_inj (clean_name : string) :
  Inj (=) (=) (λ version, profile_path (versioned clean_name version)).
Proof.
  intros m n H. unfold profile_path, versioned in H.
  apply str_app_inv_tail in H. apply (inj (String.app clean_name)) in H.
  apply (inj (String.app "_v")) in H. by apply (inj pretty) in H.
Qed.

Lemma exists_true (store : gmap string json) (path : string) :
  exists_ store path = true ↔ is_Some (store !! path).
Proof. unfold exists_. by rewrite bool_decide_eq_true. Qed.

Lemma exists_false (store : gmap string json) (path : string) :
  exists_ store path = false ↔ store !! path = None.
Proof.
  unfold exists_. rewrite bool_decide_eq_false. by rewrite eq_None_not_Some.
Qed.

(** What the loop has found when it stops. *)
Lemma next_version_Some (store : gmap string json) (clean_name : string)
    (fuel version n : nat) :
  next_version store clean_name fuel version = Some n →
  version ≤ n ∧
  store !! profile_path (versioned clean_name n) = None ∧
  ∀ m, version ≤ m < n →
       is_Some (store !! profile_path (versioned clean_name m)).
Proof.
  revert version. induction fuel as [|fuel IH]; intros version H; [done|].
  simpl in H.
  destruct (exists_ store (profile_path (versioned clean_name version))) eqn:He.
  - apply IH in H as (Hle & Hn & Hm). split; [lia|]. split; [done|].
    intros m Hmn. destruct (decide (m = version)) as [->|Hne].
    + by apply exists_true.
    + apply Hm. lia.
  - inversion H; subst. split; [done|]. split; [by apply exists_false|].
    intros m Hmn. lia.
Qed.

(** If the loop runs out of iterations, it has seen that many files. *)
Lemma next_version_None (store : gmap string json) (clean_name : string)
    (fuel version : nat) :
  next_version store clean_name fuel version = None →
  ∀ k, k < fuel →
       is_Some (store !! profile_path (versioned clean_name (version + k))).
Proof.
  revert version. induction fuel as [|fuel IH]; intros version H k Hk; [lia|].
  simpl in H.
  destruct (exists_ store (profile_path (versioned clean_name version))) eqn:He;
    [|done].
  destruct k as [|k].
  - rewrite Nat.add_0_r. by apply exists_true.
  - replace (version + S k) with (S version + k) by lia. apply IH; [done | lia].
Qed.

(** The loop ends: one iteration more than there are files is enough. *)
Lemma next_version_total (store : gmap string json) (clean_name : string)
    (version : nat) :
  is_Some (next_version store clean_name (S (size store)) version).
Proof.
  destruct (next_version store clean_name (S (size store)) version) as [n|] eqn:H;
    [by eexists|].
  exfalso. pose proof (next_version_None _ _ _ _ H) as Hall.
  set (f := λ v, profile_path (versioned clean_name v)).
  set (keys := f <$> seq version (S (size store))).
  assert (NoDup keys) as Hnd.
  { apply (@NoDup_fmap_2 _ _ f (versioned_path_inj clean_name)), NoDup_seq. }
  assert (keys ⊆+ (map_to_list store).*1) as Hsub.
  { apply NoDup_submseteq; [done|]. intros key Hkey. apply list_elem_of_fmap in Hkey as (v & -> & Hv).
    apply elem_of_seq in Hv.
    destruct (Hall (v - version)) as [data Hdata]; [lia|].
    replace (version + (v - version)) with v in Hdata by lia.
    apply list_elem_of_fmap. exists (f v, data). split; [done|].
    by apply elem_of_map_to_list. }
  apply submseteq_length in Hsub. unfold keys in Hsub.
  rewrite !length_fmap, length_seq, length_map_to_list in Hsub. lia.
Qed.

(** [create_profile] always returns or raises. *)
Lemma create_profile_total (open_error : string → option exn)
    (store : gmap string json) (profile_name : string)
    (profile : UserProfile.t) (replace : bool) :
  is_Some (create_profile open_error store profile_name profile replace).
Proof.
  unfold create_profile.
  destruct (exists_ store (profile_path (clean profile_name)) && negb replace);
    [|by eexists].
  destruct (next_version_total store (clean profile_name) 2) as [n ->].
  by eexists.
Qed.

(** Without a collision, or with [replace], the cleaned name is used. *)
Lemma create_profile_plain (open_error : string → option exn)
    (store : gmap string json) (profile_name : string)
    (profile : UserProfile.t) (replace : bool) :
  store !! profile_path (clean profile_name) = None ∨ replace = true →
  create_profile open_error store profile_name profile replace
  = Some (written open_error store (profile_path (clean profile_name))
            (clean profile_name) profile).
Proof.
  intros H. unfold create_profile.
  assert (exists_ store (profile_path (clean profile_name)) && negb replace = false)
    as ->; [|done].
  destruct H as [H| ->]; [|by rewrite andb_false_r].
  apply exists_false in H. by rewrite H.
Qed.

(** With a collision and without [replace], the lowest free version from 2
    on is used. *)
Lemma create_profile_collision (open_error : string → option exn)
    (store : gmap string json) (profile_name : string)
    (profile : UserProfile.t) :
  is_Some (store !! profile_path (clean profile_name)) →
  ∃ n, 2 ≤ n ∧
    create_profile open_error store profile_name profile false
    = Some (written open_error store
              (profile_path (versioned (clean profile_name) n))
              (versioned (clean profile_name) n) profile) ∧
    store !! profile_path (versioned (clean profile_name) n) = None ∧
    ∀ m, 2 ≤ m < n →
         is_Some (store !! profile_path (versioned (clean profile_name) m)).
Proof.
  intros Hex. unfold create_profile. apply exists_true in Hex. rewrite Hex.
  destruct (next_version_total store (clean profile_name) 2) as [n Hn].
  rewrite Hn. apply next_version_Some in Hn as (Hle & Hfree & Hbelow).
  exists n. done.
Qed.

Lemma written_opens (open_error : string → option exn) (store : gmap string json)
    (path stored : string) (profile : UserProfile.t) :
  open_error path = None →
  written open_error store path stored profile
  = Ok (<[path := model_dump profile]> store, (path, stored)).
Proof. unfold written. by intros ->. Qed.

Lemma written_raises (open_error : string → option exn) (store : gmap string json)
    (path stored : string) (profile : UserProfile.t) (e : exn) :
  open_error path = Some e →
  written open_error store path stored profile = Raise e.
Proof. unfold written. by intros ->. Qed.

(** What [create_profile] has done when it returns: the name is the
    cleaned name, free or to be replaced, or the cleaned name with the
    lowest free version, and the file of that name has opened and holds
    the profile. *)
Lemma create_profile_inv (open_error : string → option exn)
    (store store' : gmap string json) (profile_name path stored : string)
    (profile : UserProfile.t) (replace : bool) :
  create_profile open_error store profile_name profile replace
  = Some (Ok (store', (path, stored))) →
  path = profile_path stored ∧
  store' = <[profile_path stored := model_dump profile]> store ∧
  open_error (profile_path stored) = None ∧
  (stored = clean profile_name ∧
   (store !! profile_path (clean profile_name) = None ∨ replace = true)
   ∨ ∃ n, stored = versioned (clean profile_name) n ∧ 2 ≤ n ∧ replace = false ∧
          is_Some (store !! profile_path (clean profile_name)) ∧
          store !! profile_path stored = None ∧
          ∀ m, 2 ≤ m < n →
               is_Some (store !! profile_path (versioned (clean profile_name) m))).
Proof.
  intros Hcreate.
  assert (∀ p s, written open_error store p s profile = Ok (store', (path, stored)) →
                 path = p ∧ stored = s ∧ store' = <[p := model_dump profile]> store ∧
                 open_error p = None) as Hw.
  { intros p s. unfold written. destruct (open_error p); [done|].
    by intros [= <- <- <-]. }
  destruct (decide (store !! profile_path (clean profile_name) = None
                    ∨ replace = true)) as [Hplain|Hcoll].
  - rewrite create_profile_plain in Hcreate by done. injection Hcreate as Hcreate.
    apply Hw in Hcreate as (-> & -> & -> & Hopen). repeat split; [done|]. by left.
  - assert (is_Some (store !! profile_path (clean profile_name))) as Hex.
    { destruct (store !! profile_path (clean profile_name)); [by eexists|].
      destruct Hcoll. by left. }
    assert (replace = false) as ->.
    { destruct replace; [|done]. destruct Hcoll. by right. }
    destruct (create_profile_collision open_error store profile_name profile Hex)
      as (n & Hle & Hc & Hfree & Hbelow).
    rewrite Hc in Hcreate. injection Hcreate as Hcreate.
    apply Hw in Hcreate as (-> & -> & -> & Hopen). repeat split; [done|].
    right. by exists n.
Qed.

Lemma versioned_path_ne (clean_name : string) (version : nat) :
  profile_path (versioned clean_name version) ≠ profile_path clean_name.
Proof.
  unfold profile_path, versioned. intros H. apply str_app_inv_tail in H.
  apply (f_equal String.length) in H. rewrite str_length_app in H.
  change ("_v" +:+ ?x) with (String "_" (String "v" x)) in H. simpl in H. lia.
Qed.

(** Three saves under one name. *)
Lemma create_profile_three_saves (open_error : string → option exn)
    (store : gmap string json) (profile_name : string)
    (p1 p2 p3 : UserProfile.t) :
  let c := clean profile_name in
  store !! profile_path c = None →
  store !! profile_path (versioned c 2) = None →
  store !! profile_path (versioned c 3) = None →
  open_error (profile_path c) = None →
  open_error (profile_path (versioned c 2)) = None →
  open_error (profile_path (versioned c 3)) = None →
  ∃ store1 store2 store3,
    create_profile open_error store profile_name p1 false
    = Some (Ok (store1, (profile_path c, c))) ∧
    create_profile open_error store1 profile_name p2 false
    = Some (Ok (store2, (profile_path (versioned c 2), versioned c 2))) ∧
    create_profile open_error store2 profile_name p3 false
    = Some (Ok (store3, (profile_path (versioned c 3), versioned c 3))) ∧
    store3 !! profile_path c = Some (model_dump p1) ∧
    store3 !! profile_path (versioned c 2) = Some (model_dump p2) ∧
    store3 !! profile_path (versioned c 3) = Some (model_dump p3).
Proof.
  intros c H1 H2 H3 Ho1 Ho2 Ho3.
  pose proof (versioned_path_ne c 2) as Hne2.
  pose proof (versioned_path_ne c 3) as Hne3.
  assert (profile_path (versioned c 2) ≠ profile_path (versioned c 3)) as Hne23.
  { intros H. by apply versioned_path_inj in H. }
  set (store1 := <[profile_path c := model_dump p1]> store).
  set (store2 := <[profile_path (versioned c 2) := model_dump p2]> store1).
  set (store3 := <[profile_path (versioned c 3) := model_dump p3]> store2).
  exists store1, store2, store3.
  split.
  { rewrite create_profile_plain by by left. fold c. by rewrite written_opens. }
  assert (∀ (st : gmap string json) p k,
            is_Some (st !! profile_path c) →
            (∀ m, 2 ≤ m < k → is_Some (st !! profile_path (versioned c m))) →
            st !! profile_path (versioned c k) = None → 2 ≤ k →
            open_error (profile_path (versioned c k)) = None →
            create_profile open_error st profile_name p false
            = Some (Ok (<[profile_path (versioned c k) := model_dump p]> st,
                        (profile_path (versioned c k), versioned c k)))) as Hstep.
  { intros st p k Hc Hbelow Hfree Hk Hopen.
    destruct (create_profile_collision open_error st profile_name p Hc)
      as (n & Hle & -> & Hn & Hb). fold c in Hn, Hb. fold c.
    assert (n = k) as ->; [|by rewrite written_opens].
    destruct (Nat.lt_trichotomy n k) as [Hlt|[->|Hgt]]; [|done|].
    - destruct (Hbelow n) as [? ?]; [lia | congruence].
    - destruct (Hb k) as [? ?]; [lia | congruence]. }
  split.
  { apply Hstep; [|intros m ?; lia| |lia|done].
    - unfold store1. rewrite lookup_insert_eq. by eexists.
    - unfold store1. by rewrite lookup_insert_ne. }
  split.
  { apply Hstep; [| | |lia|done].
    - unfold store2, store1. rewrite lookup_insert_ne, lookup_insert_eq by done.
      by eexists.
    - intros m Hm. assert (m = 2) as -> by lia.
      unfold store2. rewrite lookup_insert_eq. by eexists.
    - unfold store2, store1. by rewrite !lookup_insert_ne. }
  unfold store3, store2, store1. split.
  { rewrite lookup_insert_ne by done. rewrite lookup_insert_ne by done.
    by rewrite lookup_insert_eq. }
  split.
  { rewrite lookup_insert_ne by done. by rewrite lookup_insert_eq. }
  by rewrite lookup_insert_eq.
Qed.

(** C6, as amended.  The collision that counts is that of the cleaned
    name.  When the file of the cleaned name exists and [replace] is not
    requested, [create_profile] takes the cleaned name with the suffix
    [_vN], where N is the lowest number from 2 on whose file does not
    exist: so [_v2] when that file is free, and [_v3] when only [_v2] is
    taken.  When the file of that name opens, the profile is stored there,
    the name is returned and every file that existed keeps its content;
    when it does not open, the exception of [open] leaves the call and
    nothing is stored.  Three saves under one name, into a directory that
    has none of the three files and lets them be written, are stored under
    the name, the name with [_v2] and the name with [_v3]. *)
Theorem create_profile_versioning (open_error : string → option exn)
    (store : gmap string json)
    (profile_name : string) (profile p2 p3 : UserProfile.t) :
  let c := clean profile_name in
  (is_Some (store !! profile_path c) →
   ∃ n,
     let path := profile_path (versioned c n) in
     let store' := <[path := model_dump profile]> store in
     2 ≤ n ∧
     store !! path = None ∧
     (∀ m, 2 ≤ m < n → is_Some (store !! profile_path (versioned c m))) ∧
     (store !! profile_path (versioned c 2) = None → n = 2) ∧
     (is_Some (store !! profile_path (versioned c 2)) →
      store !! profile_path (versioned c 3) = None → n = 3) ∧
     (open_error path = None →
      create_profile open_error store profile_name profile false
      = Some (Ok (store', (path, versioned c n)))) ∧
     (∀ e, open_error path = Some e →
      create_profile open_error store profile_name profile false = Some (Raise e)) ∧
     (∀ other data, store !! other = Some data → store' !! other = Some data)) ∧
  (store !! profile_path c = None →
   store !! profile_path (versioned c 2) = None →
   store !! profile_path (versioned c 3) = None →
   open_error (profile_path c) = None →
   open_error (profile_path (versioned c 2)) = None →
   open_error (profile_path (versioned c 3)) = None →
   ∃ store1 store2 store3,
     create_profile open_error store profile_name profile false
     = Some (Ok (store1, (profile_path c, c))) ∧
     create_profile open_error store1 profile_name p2 false
     = Some (Ok (store2, (profile_path (versioned c 2), versioned c 2))) ∧
     create_profile open_error store2 profile_name p3 false
     = Some (Ok (store3, (profile_path (versioned c 3), versioned c 3))) ∧
     store3 !! profile_path c = Some (model_dump profile) ∧
     store3 !! profile_path (versioned c 2) = Some (model_dump p2) ∧
     store3 !! profile_path (versioned c 3) = Some (model_dump p3)).
Proof.
  intros c. split; [|apply create_profile_three_saves].
  intros Hex.
  destruct (create_profile_collision open_error store profile_name profile Hex)
    as (n & Hle & Hcreate & Hfree & Hbelow).
  fold c in Hcreate, Hfree, Hbelow.
  exists n. cbn zeta. split; [done|]. split; [done|]. split; [done|]. split.
  { intros H2. destruct (decide (n = 2)) as [|Hne]; [done|].
    destruct (Hbelow 2) as [? ?]; [lia|]. congruence. }
  split.
  { intros H2 H3. destruct (decide (n = 3)) as [|Hne]; [done|].
    destruct (decide (n = 2)) as [->|Hne2].
    { destruct H2 as [? ?]. congruence. }
    destruct (Hbelow 3) as [? ?]; [lia|]. congruence. }
  split.
  { intros Hopen. by rewrite Hcreate, written_opens. }
  split.
  { intros e Hopen. by rewrite Hcreate, (written_raises _ _ _ _ _ e). }
  intros other data Hother. rewrite lookup_insert_ne; [done|].
  intros <-. congruence.
Qed.

Lemma create_profile_versioning_witness :
  clean "  cv. " = "cv" ∧
  create_profile opens two_files "  cv. " UserProfile.default false
  = Some (Ok (<["cv_v3.json" := model_dump UserProfile.default]> two_files,
              ("cv_v3.json", "cv_v3"))).
Proof.
  split; [reflexivity|].
  destruct (create_profile_versioning opens two_files "  cv. " UserProfile.default
              UserProfile.default UserProfile.default) as [Hcoll _].
  destruct Hcoll as (n & _ & _ & _ & _ & H3 & Hcreate & _).
  { vm_compute. by eexists. }
  assert (n = 3) as ->.
  { apply H3; [vm_compute; by eexists | reflexivity]. }
  exact (Hcreate eq_refl).
Defined.

(** C6 as stated fails: the file of the requested name exists and
    [replace] is not requested, yet the profile is stored under the
    cleaned name and gets no suffix. *)
Lemma create_profile_versioning_counterexample :
  is_Some (({[ "v1.0.json" := model_dump sample_profile ]} : gmap string json)
             !! profile_path "v1.0") ∧
  create_profile opens {[ "v1.0.json" := model_dump sample_profile ]} "v1.0"
    UserProfile.default false
  = Some (Ok (<["v10.json" := model_dump UserProfile.default]>
                {[ "v1.0.json" := model_dump sample_profile ]},
              ("v10.json", "v10"))).
Proof. split; [by eexists | reflexivity]. Qed.

End saving.

(** ** The profile store: round trip *)

Section roundtrip.
Import profile_manager.

Lemma mapM_cons {A B} (f : A → result B) (x : A) (l : list A) :
  mapM f (x :: l) = f x ≫= λ y, mapM f l ≫= λ k, Ok (y :: k).
Proof. done. Qed.

Lemma bind_Ok {A B} (a : A) (k : A → result B) : Ok a ≫= k = k a.
Proof. done. Qed.

Lemma mapM_fmap_ok {A B} (f : B → result A) (g : A → B) (l : list A) :
  (∀ x, f (g x) = Ok x) → mapM f (g <$> l) = Ok l.
Proof.
  intros H. induction l as [|x l IH]; [done|].
  rewrite fmap_cons, mapM_cons, H, bind_Ok, IH. done.
Qed.

Lemma mapM_fixed {A} (f : A → result A) (l : list A) :
  (∀ x, x ∈ l → f x = Ok x) → mapM f l = Ok l.
Proof.
  intros H. induction l as [|x l IH]; [done|].
  rewrite mapM_cons, H, bind_Ok by left. rewrite IH; [done|].
  intros y Hy. apply H. by right.
Qed.

Lemma mapM_v_str (l : list string) : mapM v_str (JStr <$> l) = Ok l.
Proof. by apply mapM_fmap_ok. Qed.

Lemma v_str_list_dump (l : list string) : v_list v_str (dump_str_list l) = Ok l.
Proof. apply mapM_v_str. Qed.

Lemma v_list_dump {A} (item : json → result A) (dump : A → json) (l : list A) :
  (∀ x, item (dump x) = Ok x) → v_list item (JArr (dump <$> l)) = Ok l.
Proof. apply mapM_fmap_ok. Qed.

Lemma v_optional_str_dump (o : option string) :
  v_optional_str (dump_optional_str o) = Ok o.
Proof. by destruct o. Qed.

Lemma v_dict_dump {A} (item : json → result A) (dump : A → json)
    (d : list (string * A)) :
  (∀ x, item (dump x) = Ok x) →
  v_dict item (JObj (prod_map id dump <$> d)) = Ok d.
Proof.
  intros H. unfold v_dict. apply mapM_fmap_ok. intros [k x]. simpl.
  by rewrite H.
Qed.

Lemma validate_education_dump (e : Education.t) :
  validate_education (dump_education e) = Ok e.
Proof.
  destruct e. unfold validate_education, dump_education, required, optional.
  cbn. rewrite v_optional_str_dump. cbn. rewrite !mapM_v_str. done.
Qed.

Lemma validate_experience_dump (e : Experience.t) :
  validate_experience (dump_experience e) = Ok e.
Proof.
  destruct e. unfold validate_experience, dump_experience, required, optional.
  cbn. rewrite !mapM_v_str. done.
Qed.

Lemma validate_project_dump (p : Project.t) :
  validate_project (dump_project p) = Ok p.
Proof.
  destruct p. unfold validate_project, dump_project, required, optional.
  cbn. rewrite !mapM_v_str. cbn. rewrite v_optional_str_dump. done.
Qed.

(** A dumped education entry has the new format: the migration leaves it
    alone. *)
Lemma migrate_education_dump (e : Education.t) :
  migrate_education (dump_education e) = Ok (dump_education e).
Proof. done. Qed.

#[local] Arguments v_list : simpl never.
#[local] Arguments v_dict : simpl never.
#[local] Arguments validate_education : simpl never.
#[local] Arguments validate_experience : simpl never.
#[local] Arguments validate_project : simpl never.
#[local] Arguments migrate_education : simpl never.
#[local] Arguments dump_str_list : simpl never.

(** Loading what [model_dump] wrote gives the profile back. *)
Lemma load_data_model_dump (profile : UserProfile.t) :
  load_data (model_dump profile) = Ok profile.
Proof.
  destruct profile as [pi su st ed ex pr sk ce aw].
  unfold load_data, model_dump, migrate. cbn.
  rewrite mapM_fixed.
  2: { intros x Hx. apply list_elem_of_fmap in Hx as (e & -> & _).
       apply migrate_education_dump. }
  cbn. unfold optional. cbn.
  rewrite (v_dict_dump v_str JStr) by done. cbn.
  rewrite (v_list_dump validate_education dump_education)
    by apply validate_education_dump. cbn.
  rewrite (v_list_dump validate_experience dump_experience)
    by apply validate_experience_dump. cbn.
  rewrite (v_list_dump validate_project dump_project)
    by apply validate_project_dump. cbn.
  rewrite (v_dict_dump (v_list v_str) dump_str_list) by apply v_str_list_dump.
  cbn. rewrite !v_str_list_dump. done.
Qed.

(** C5, as amended.  The name to load a saved profile under is the name
    [create_profile] returns: when the file of that name opens for
    writing, [create_profile] returns, and loading under the returned name
    gives back a profile equal to the saved one, field by field and with
    every list in its order.  When the file does not open, the exception
    of [open] leaves [create_profile] and nothing is stored.  The name is
    the requested one when that is already clean and either free or to be
    replaced. *)
Theorem create_load_roundtrip (open_error : string → option exn)
    (store : gmap string json) (profile_name : string)
    (profile : UserProfile.t) (replace : bool) :
  ∃ stored,
    let store' := <[profile_path stored := model_dump profile]> store in
    (open_error (profile_path stored) = None →
     create_profile open_error store profile_name profile replace
     = Some (Ok (store', (profile_path stored, stored))) ∧
     load_profile store' stored = Ok profile) ∧
    (∀ e, open_error (profile_path stored) = Some e →
     create_profile open_error store profile_name profile replace
     = Some (Raise e)) ∧
    (clean profile_name = profile_name →
     store !! profile_path profile_name = None ∨ replace = true →
     stored = profile_name).
Proof.
  assert (∃ stored,
            create_profile open_error store profile_name profile replace
            = Some (written open_error store (profile_path stored) stored profile) ∧
            (clean profile_name = profile_name →
             store !! profile_path profile_name = None ∨ replace = true →
             stored = profile_name)) as (stored & Hcreate & Hname).
  { destruct (decide (store !! profile_path (clean profile_name) = None
                      ∨ replace = true)) as [Hplain|Hcoll].
    - eexists. split; [by apply create_profile_plain|]. done.
    - assert (is_Some (store !! profile_path (clean profile_name))) as Hex.
      { destruct (store !! profile_path (clean profile_name)); [by eexists|].
        destruct Hcoll. by left. }
      assert (replace = false) as ->.
      { destruct replace; [|done]. destruct Hcoll. by right. }
      destruct (create_profile_collision open_error store profile_name profile Hex)
        as (n & _ & Hcreate & _ & _).
      eexists. split; [exact Hcreate|].
      intros Hclean [Hfree|?]; [|done]. rewrite Hclean in Hex.
      rewrite Hfree in Hex. by destruct Hex. }
  exists stored. cbn zeta. split; [|split; [|done]].
  - intros Hopen. rewrite Hcreate, written_opens by done. split; [done|].
    unfold load_profile. rewrite lookup_insert_eq. apply load_data_model_dump.
  - intros e Hopen. by rewrite Hcreate, (written_raises _ _ _ _ _ e).
Qed.

Lemma create_load_roundtrip_witness :
  create_profile opens ∅ "ada" sample_profile false
  = Some (Ok (<["ada.json" := model_dump sample_profile]> ∅, ("ada.json", "ada"))) ∧
  load_profile (<["ada.json" := model_dump sample_profile]> ∅) "ada"
  = Ok sample_profile.
Proof.
  destruct (create_load_roundtrip opens ∅ "ada" sample_profile false)
    as (stored & Hok & _ & Hname).
  rewrite (Hname eq_refl (or_introl eq_refl)) in Hok.
  exact (Hok eq_refl).
Defined.

(** C5 as stated fails twice.  A profile saved under a name with a dot is
    stored under the name without it, and loading under the requested name
    finds nothing; and where the file cannot be opened, here for want of
    the directory that the name asks for, nothing is saved. *)
Lemma create_load_roundtrip_counterexample :
  (∃ store',
     create_profile opens ∅ "v1.0" sample_profile false
     = Some (Ok (store', (profile_path "v10", "v10"))) ∧
     load_profile store' "v1.0" = Raise (not_found "v1.0")) ∧
  (∃ msg, create_profile no_subdirectory ∅ "a/b" sample_profile false
          = Some (Raise (FileNotFoundError msg)) ∧
          load_profile ∅ "a/b" = Raise (not_found "a/b")).
Proof.
  split.
  - eexists. split; [reflexivity|]. vm_compute. reflexivity.
  - eexists. split; reflexivity.
Qed.

End roundtrip.

(** ** The profile store: loading *)

Section loading.
Import profile_manager.

Lemma found_ok {A} (a : A) : found (Ok a).
Proof. by intros msg. Qed.

Lemma found_bind {A B} (r : result A) (k : A → result B) :
  found r → (∀ a, found (k a)) → found (r ≫= k).
Proof.
  intros Hr Hk. destruct r as [a|e]; [apply (Hk a)|].
  intros msg [= ->]. by apply (Hr msg).
Qed.

Lemma found_mapM {A B} (f : A → result B) (l : list A) :
  (∀ a, found (f a)) → found (mapM f l).
Proof.
  intros Hf. induction l as [|a l IH]; [apply found_ok|].
  simpl. apply found_bind; [done|]. intros b.
  apply found_bind; [done|]. intros bs. apply found_ok.
Qed.

Local Ltac found_tac :=
  repeat first
    [ apply found_ok
    | apply found_mapM; intros ?
    | apply found_bind; [|intros ?]
    | progress (unfold required, optional, v_list, v_dict, v_str,
                v_optional_str, py_in, py_index, py_iter)
    | case_match
    | by intros ?
    | done ].

Lemma found_validate_education (v : json) : found (validate_education v).
Proof. unfold validate_education. found_tac. Qed.

Lemma found_validate_experience (v : json) : found (validate_experience v).
Proof. unfold validate_experience. found_tac. Qed.

Lemma found_validate_project (v : json) : found (validate_project v).
Proof. unfold validate_project. found_tac. Qed.

Lemma found_migrate_education (v : json) : found (migrate_education v).
Proof. unfold migrate_education. found_tac. Qed.

Lemma found_load_data (data : json) : found (load_data data).
Proof.
  unfold load_data, migrate, validate.
  pose proof found_validate_education. pose proof found_validate_experience.
  pose proof found_validate_project. pose proof found_migrate_education.
  found_tac.
Qed.


Lemma find_backup_Some (backup_dirs : list (gmap string json)) (path : string)
    (dir : gmap string json) :
  dir ∈ backup_dirs → is_Some (dir !! path) →
  is_Some (backend_profile_manager.find_backup backup_dirs path).
Proof.
  induction 1 as [dir dirs|dir dir' dirs _ IH]; intros Hsome; cbn.
  - destruct Hsome as [data ->]. by eexists.
  - destruct (dir' !! path); [by eexists | by apply IH].
Qed.






End loading.

(** ** The cleaning of profile names *)

Section cleaning.
Import profile_manager.

Lemma all_chars_app (P : ascii → bool) (a b : string) :
  all_chars P (a +:+ b) = all_chars P a && all_chars P b.
Proof.
  induction a as [|x a IH]; [done|].
  rewrite str_app_cons. simpl. by rewrite IH, andb_assoc.
Qed.

Lemma all_chars_impl (P Q : ascii → bool) (s : string) :
  (∀ c, P c = true → Q c = true) → all_chars P s = true → all_chars Q s = true.
Proof.
  intros HPQ. induction s as [|c s IH]; [done|]. simpl. intros H.
  apply andb_prop in H as [Hc H]. by rewrite (HPQ _ Hc), IH.
Qed.

Lemma has_char_other_than (c : ascii) (s : string) :
  Py.has_char c s = false ↔ all_chars (other_than c) s = true.
Proof.
  unfold other_than. induction s as [|a s IH]; [done|]. simpl.
  rewrite orb_false_iff, andb_true_iff, negb_true_iff, IH. done.
Qed.

Lemma no_space_all_chars (s : string) :
  no_space s = all_chars (λ c, negb (Py.isspace c)) s.
Proof. induction s as [|c s IH]; [done|]. simpl. by rewrite IH. Qed.

Lemma all_chars_lstrip (P : ascii → bool) (s : string) :
  all_chars P s = true → all_chars P (Py.lstrip s) = true.
Proof.
  induction s as [|c s IH]; [done|]. simpl. intros H.
  destruct (Py.isspace c); [|done]. apply andb_prop in H as [_ H]. by apply IH.
Qed.

Lemma all_chars_rstrip (P : ascii → bool) (s : string) :
  all_chars P s = true → all_chars P (Py.rstrip s) = true.
Proof.
  induction s as [|c s IH]; [done|]. simpl. intros H.
  apply andb_prop in H as [Hc H]. specialize (IH H).
  destruct (Py.rstrip s) as [|d r].
  - destruct (Py.isspace c); [done|]. simpl. by rewrite Hc.
  - simpl in *. by rewrite Hc, IH.
Qed.

Lemma all_chars_split (P : ascii → bool) (s : string) :
  all_chars P s = true → Forall (λ w, all_chars P w = true) (Py.split s).
Proof.
  induction s as [|c s IH]; [constructor|]. simpl. intros H.
  apply andb_prop in H as [Hc H]. specialize (IH H).
  destruct (Py.isspace c); [done|].
  destruct (Py.at_break s).
  - constructor; [|done]. simpl. by rewrite Hc.
  - destruct (Py.split s) as [|w ws].
    + constructor; [|done]. simpl. by rewrite Hc.
    + inversion IH; subst. constructor; [|done]. simpl. by rewrite Hc.
Qed.

Lemma join_cons (sep x : string) (l : list string) :
  l ≠ [] → Py.join sep (x :: l) = x +:+ sep +:+ Py.join sep l.
Proof. by destruct l. Qed.

Lemma all_chars_join (P : ascii → bool) (sep : string) (ws : list string) :
  all_chars P sep = true → Forall (λ w, all_chars P w = true) ws →
  all_chars P (Py.join sep ws) = true.
Proof.
  intros Hsep. induction 1 as [|w ws Hw Hws IH]; [done|].
  destruct ws as [|w' ws]; [done|].
  rewrite join_cons by done. by rewrite !all_chars_app, Hw, Hsep, IH.
Qed.

Lemma all_chars_replace (P : ascii → bool) (old new : string) (skip : nat)
    (s : string) :
  all_chars P new = true → all_chars P s = true →
  all_chars P (Py.replace_go old new skip s) = true.
Proof.
  intros Hnew. revert skip. induction s as [|c s IH]; intros skip H; [done|].
  simpl in H. apply andb_prop in H as [Hc H]. simpl.
  destruct skip as [|k]; [|by apply IH].
  destruct (Py.startswith old (String c s)).
  - rewrite all_chars_app, Hnew. by apply IH.
  - simpl. rewrite Hc. by apply IH.
Qed.

Lemma startswith_dot (c : ascii) (s : string) :
  Py.startswith "." (String c s) = Ascii.eqb "." c.
Proof.
  unfold Py.startswith. change "." with (String "." "").
  rewrite strip_prefix_cons. by destruct (Ascii.eqb "." c).
Qed.

Lemma replace_dot_cons (c : ascii) (s : string) :
  Py.replace "." "" (String c s)
  = if Ascii.eqb "." c then Py.replace "." "" s
    else String c (Py.replace "." "" s).
Proof.
  unfold Py.replace. cbn [Py.replace_go]. rewrite startswith_dot.
  by destruct (Ascii.eqb "." c).
Qed.

(** Removing the dots leaves none. *)
Lemma replace_dot_none (s : string) :
  Py.has_char "." (Py.replace "." "" s) = false.
Proof.
  induction s as [|c s IH]; [done|]. rewrite replace_dot_cons.
  destruct (Ascii.eqb "." c) eqn:Hc; [done|]. simpl.
  rewrite Ascii.eqb_sym in Hc. by rewrite Hc, IH.
Qed.

(** Removing the dots of a text that has none changes nothing. *)
Lemma replace_dot_id (s : string) :
  Py.has_char "." s = false → Py.replace "." "" s = s.
Proof.
  induction s as [|c s IH]; [done|]. intros H. simpl in H.
  apply orb_false_elim in H as [Hc H]. rewrite replace_dot_cons.
  rewrite Ascii.eqb_sym in Hc. by rewrite Hc, IH.
Qed.

(** The decimal digits of [pretty]. *)
Lemma all_chars_pretty_N_go (P : ascii → bool) (x : N) (s : string) :
  (∀ d, (d < 10)%N → P (pretty_N_char d) = true) →
  all_chars P s = true → all_chars P (pretty_N_go x s) = true.
Proof.
  intros HP. revert s. induction (N.lt_wf_0 x) as [x _ IH]; intros s Hs.
  assert (x = 0 ∨ 0 < x)%N as [->|Hx] by lia.
  - by rewrite pretty_N_go_0.
  - rewrite pretty_N_go_step by done. apply IH.
    + by apply N.div_lt.
    + simpl. rewrite Hs, HP; [done|]. by apply N.mod_lt.
Qed.

Lemma all_chars_pretty (P : ascii → bool) (n : nat) :
  (∀ d, (d < 10)%N → P (pretty_N_char d) = true) →
  all_chars P (pretty n) = true.
Proof.
  intros HP. unfold pretty, pretty_nat, pretty, pretty_N.
  case_decide.
  - change (P (pretty_N_char 0) && true = true). by rewrite HP.
  - by apply all_chars_pretty_N_go.
Qed.

Lemma digit_cases (P : ascii → bool) :
  P "0"%char = true → P "1"%char = true → P "2"%char = true → P "3"%char = true → P "4"%char = true →
  P "5"%char = true → P "6"%char = true → P "7"%char = true → P "8"%char = true → P "9"%char = true →
  ∀ d, (d < 10)%N → P (pretty_N_char d) = true.
Proof.
  intros ?????????? d Hd.
  assert (d = 0 ∨ d = 1 ∨ d = 2 ∨ d = 3 ∨ d = 4 ∨ d = 5 ∨ d = 6 ∨ d = 7
          ∨ d = 8 ∨ d = 9)%N as Hcases by lia.
  destruct Hcases as [->|[->|[->|[->|[->|[->|[->|[->|[->| ->]]]]]]]]]; done.
Qed.

(** The suffix of a version is a word, without dots. *)
Lemma version_suffix (P : ascii → bool) (n : nat) :
  P "_"%char = true → P "v"%char = true →
  P "0"%char = true → P "1"%char = true → P "2"%char = true → P "3"%char = true → P "4"%char = true →
  P "5"%char = true → P "6"%char = true → P "7"%char = true → P "8"%char = true → P "9"%char = true →
  all_chars P ("_v" +:+ pretty n) = true.
Proof.
  intros H_ Hv ??????????. rewrite all_chars_app. simpl. rewrite H_, Hv. simpl.
  by apply all_chars_pretty, digit_cases.
Qed.

Lemma split_join (ws : list string) :
  Forall word ws → Py.split (Py.join " " ws) = ws.
Proof.
  induction 1 as [|w ws Hw Hws IH]; [done|].
  destruct ws as [|w' ws]; [by apply split_word|].
  rewrite join_cons, split_word_app, split_space, IH by done. done.
Qed.

(** A text made of words and single spaces, with a word glued to its end,
    is made of words and single spaces. *)
Lemma join_split_suffix (ws : list string) (t : string) :
  Forall word ws → word t →
  Py.join " " (Py.split (Py.join " " ws +:+ t)) = Py.join " " ws +:+ t.
Proof.
  intros Hws Ht. induction Hws as [|w ws Hw Hws IH].
  - rewrite str_app_nil_l. by rewrite split_word.
  - destruct ws as [|w' ws].
    + simpl Py.join at 2 3. rewrite split_word; [done|]. apply word_app; [done|].
      by destruct Ht.
    + rewrite join_cons by done. rewrite !str_app_assoc.
      rewrite split_word_app, split_space by done.
      rewrite join_cons, IH; [done|].
      intros Hnil. apply (f_equal length) in Hnil.
      rewrite split_join_suffix in Hnil; [done| done | done | by destruct Ht].
Qed.

(** The three steps of the cleaning, on the words of the name. *)
Lemma clean_words (profile_name : string) :
  clean profile_name
  = Py.replace "." "" (Py.join " " (Py.split (Py.strip profile_name))).
Proof. done. Qed.

Lemma clean_no_dot (profile_name : string) :
  Py.has_char "." (clean profile_name) = false.
Proof. apply replace_dot_none. Qed.

Lemma clean_plain (profile_name : string) :
  all_chars plain_char (clean profile_name) = true.
Proof.
  unfold clean, Py.replace. apply all_chars_replace; [done|].
  apply all_chars_join; [done|].
  eapply Forall_impl; [apply split_words|]. intros w [_ Hw].
  rewrite no_space_all_chars in Hw. eapply all_chars_impl; [|exact Hw].
  intros c Hc. unfold plain_char. by rewrite Hc.
Qed.

(** A name without dots is cleaned to its words joined by single spaces. *)
Lemma clean_dot_free (profile_name : string) :
  Py.has_char "." profile_name = false →
  clean profile_name = Py.join " " (Py.split (Py.strip profile_name)).
Proof.
  intros H. rewrite clean_words. apply replace_dot_id.
  apply has_char_other_than. apply has_char_other_than in H.
  apply all_chars_join; [done|]. apply all_chars_split.
  by apply all_chars_rstrip, all_chars_lstrip.
Qed.

Lemma version_word (n : nat) : word ("_v" +:+ pretty n).
Proof.
  split; [done|]. rewrite no_space_all_chars. by apply version_suffix.
Qed.

Lemma rstrip_head (c : ascii) (s : string) :
  Py.rstrip (String c s) = "" ∨ ∃ r, Py.rstrip (String c s) = String c r.
Proof. cbn. destruct (Py.rstrip s); [destruct (Py.isspace c)|]; eauto. Qed.

Lemma split_lstrip (s : string) : Py.split (Py.lstrip s) = Py.split s.
Proof.
  induction s as [|c s IH]; [done|]. cbn [Py.lstrip].
  destruct (Py.isspace c) eqn:Hc; [|done]. cbn [Py.split]. by rewrite Hc.
Qed.

Lemma split_rstrip (s : string) : Py.split (Py.rstrip s) = Py.split s.
Proof.
  induction s as [|c s IH]; [done|]. cbn [Py.rstrip].
  destruct (Py.rstrip s) as [|d r] eqn:Hr.
  - cbn [Py.split] in IH. destruct (Py.isspace c) eqn:Hc.
    + cbn [Py.split]. by rewrite Hc.
    + cbn [Py.split]. rewrite Hc, <- IH. cbn. by destruct (Py.at_break s).
  - cbn [Py.split]. destruct (Py.isspace c); [done|]. rewrite <- IH.
    assert (Py.at_break s = Py.at_break (String d r)) as ->; [|done].
    destruct s as [|x s]; [done|].
    destruct (rstrip_head x s) as [H|[r' H]]; rewrite H in Hr; [done|].
    by inversion Hr.
Qed.

Lemma split_strip (s : string) : Py.split (Py.strip s) = Py.split s.
Proof. unfold Py.strip. by rewrite split_rstrip, split_lstrip. Qed.

(** What holds of the name a profile is stored under, with or without a
    version suffix. *)
Lemma stored_name_clean (profile_name stored : string) :
  stored = clean profile_name
  ∨ (∃ n, stored = versioned (clean profile_name) n) →
  Py.has_char "." stored = false ∧
  all_chars plain_char stored = true ∧
  (Py.has_char "." profile_name = false →
   Py.join " " (Py.split stored) = stored).
Proof.
  intros [->|[n ->]].
  - split; [apply clean_no_dot|]. split; [apply clean_plain|].
    intros H. rewrite clean_dot_free by done.
    by rewrite split_join by apply split_words.
  - unfold versioned. split.
    { rewrite has_char_app, clean_no_dot, orb_false_l.
      apply has_char_other_than. by apply version_suffix. }
    split.
    { rewrite all_chars_app, clean_plain. by apply version_suffix. }
    intros H. rewrite clean_dot_free by done.
    apply join_split_suffix; [apply split_words | apply version_word].
Qed.

(** The cleaning in terms of the requested name: its words joined by
    single spaces, and the dots then taken out. *)
Lemma replace_dot_remove (s : string) : Py.replace "." "" s = remove_char "." s.
Proof.
  induction s as [|c s IH]; [done|]. rewrite replace_dot_cons. cbn [remove_char].
  rewrite (Ascii.eqb_sym c "."). by rewrite IH.
Qed.

Lemma clean_exact (profile_name : string) :
  clean profile_name = remove_char "." (Py.join " " (Py.split profile_name)).
Proof. unfold clean. by rewrite split_strip, replace_dot_remove. Qed.

(** C10, as amended.  The name that [create_profile] takes is fixed by the
    requested name and the directory: it is the words of the requested
    name joined by single spaces with the dots then taken out, as it
    stands when its file is free or to be replaced, and with the suffix
    [_vN] of the lowest free version otherwise.  When the file of that
    name opens for writing, the profile is stored under it and the name is
    returned; when it does not, the exception of [open] leaves the call.
    The name has no dot and no whitespace character other than the space;
    and when the requested name has no dot, it consists of words joined by
    single spaces, with nothing before the first or after the last.  A
    profile saved under a name with a dot is therefore never stored under
    the requested name, and [load_profile] fails for the requested name
    unless a file of that very name was already there. *)
Theorem create_profile_clean_name (open_error : string → option exn)
    (store : gmap string json)
    (profile_name : string) (profile : UserProfile.t) (replace : bool) :
  let cleaned := remove_char "." (Py.join " " (Py.split profile_name)) in
  ∃ stored,
    let store' := <[profile_path stored := model_dump profile]> store in
    (stored = cleaned ∧
     (store !! profile_path cleaned = None ∨ replace = true)
     ∨ ∃ n, stored = cleaned +:+ "_v" +:+ pretty n ∧ 2 ≤ n ∧ replace = false ∧
            is_Some (store !! profile_path cleaned) ∧
            store !! profile_path stored = None ∧
            ∀ m, 2 ≤ m < n →
                 is_Some (store !! profile_path (cleaned +:+ "_v" +:+ pretty m))) ∧
    (open_error (profile_path stored) = None →
     create_profile open_error store profile_name profile replace
     = Some (Ok (store', (profile_path stored, stored)))) ∧
    (∀ e, open_error (profile_path stored) = Some e →
     create_profile open_error store profile_name profile replace
     = Some (Raise e)) ∧
    store' !! profile_path stored = Some (model_dump profile) ∧
    Py.has_char "." stored = false ∧
    all_chars plain_char stored = true ∧
    (Py.has_char "." profile_name = false →
     Py.join " " (Py.split stored) = stored) ∧
    (Py.has_char "." profile_name = true →
     stored ≠ profile_name ∧
     (store !! profile_path profile_name = None →
      load_profile store' profile_name = Raise (not_found profile_name))).
Proof.
  cbn zeta. rewrite <- clean_exact.
  assert (∃ stored,
            create_profile open_error store profile_name profile replace
            = Some (written open_error store (profile_path stored) stored profile) ∧
            (stored = clean profile_name ∧
             (store !! profile_path (clean profile_name) = None ∨ replace = true)
             ∨ ∃ n, stored = versioned (clean profile_name) n ∧ 2 ≤ n ∧
                    replace = false ∧
                    is_Some (store !! profile_path (clean profile_name)) ∧
                    store !! profile_path stored = None ∧
                    ∀ m, 2 ≤ m < n →
                         is_Some (store !! profile_path
                                            (versioned (clean profile_name) m))))
    as (stored & Hcreate & Hstored).
  { destruct (decide (store !! profile_path (clean profile_name) = None
                      ∨ replace = true)) as [Hplain|Hcoll].
    - eexists. split; [by apply create_profile_plain | by left].
    - assert (is_Some (store !! profile_path (clean profile_name))) as Hex.
      { destruct (store !! profile_path (clean profile_name)); [by eexists|].
        destruct Hcoll. by left. }
      assert (replace = false) as ->.
      { destruct replace; [|done]. destruct Hcoll. by right. }
      destruct (create_profile_collision open_error store profile_name profile Hex)
        as (n & Hle & Hcreate & Hfree & Hbelow).
      eexists. split; [exact Hcreate|]. right. by exists n. }
  assert (stored = clean profile_name
          ∨ (∃ n, stored = versioned (clean profile_name) n)) as Hshape.
  { destruct Hstored as [[-> _]|(n & -> & _)]; [by left | right; by exists n]. }
  destruct (stored_name_clean profile_name stored Hshape) as (Hdot & Hpl & Hnorm).
  exists stored. split; [done|]. split.
  { intros Hopen. by rewrite Hcreate, written_opens. }
  split.
  { intros e Hopen. by rewrite Hcreate, (written_raises _ _ _ _ _ e). }
  split; [by rewrite lookup_insert_eq|].
  split; [done|]. split; [done|]. split; [done|].
  intros Hname. assert (stored ≠ profile_name) as Hne by congruence.
  split; [done|]. intros Habsent. unfold load_profile.
  rewrite lookup_insert_ne, Habsent; [done|].
  unfold profile_path. intros Heq. by apply str_app_inv_tail in Heq.
Qed.

Lemma create_profile_clean_name_witness :
  create_profile opens ∅ " Ada   Lovelace v1.0 " sample_profile false
  = Some (Ok (<["Ada Lovelace v10.json" := model_dump sample_profile]> ∅,
              ("Ada Lovelace v10.json", "Ada Lovelace v10"))) ∧
  load_profile (<["Ada Lovelace v10.json" := model_dump sample_profile]> ∅)
    " Ada   Lovelace v1.0 "
  = Raise (not_found " Ada   Lovelace v1.0 ").
Proof.
  destruct (create_profile_clean_name opens ∅ " Ada   Lovelace v1.0 "
              sample_profile false)
    as (stored & Hstored & Hcreate & _ & _ & _ & _ & _ & Hdot).
  assert (stored = "Ada Lovelace v10") as ->.
  { destruct Hstored as [[-> _]|(n & _ & _ & _ & [? Hsome] & _)];
      [reflexivity | done]. }
  destruct (Hdot eq_refl) as [_ Hload].
  split; [exact (Hcreate eq_refl) | exact (Hload eq_refl)].
Defined.

(** C10 as stated fails.  Removing the dots comes last, so it can leave a
    space at an end of the name or two spaces in a row; loading under a
    dotted name succeeds when a file of that name was already in the
    directory; and where the file does not open, nothing is stored under
    any name. *)
Lemma create_profile_clean_name_counterexample :
  (create_profile opens ∅ ". a" sample_profile false
   = Some (Ok (<[" a.json" := model_dump sample_profile]> ∅, (" a.json", " a"))) ∧
   Py.strip " a" ≠ " a") ∧
  create_profile opens ∅ "a . b" sample_profile false
  = Some (Ok (<["a  b.json" := model_dump sample_profile]> ∅, ("a  b.json", "a  b"))) ∧
  (∃ store', create_profile opens {[ "v1.0.json" := model_dump sample_profile ]} "v1.0"
               UserProfile.default false
             = Some (Ok (store', (profile_path "v10", "v10"))) ∧
             load_profile store' "v1.0" = Ok sample_profile) ∧
  (∃ msg, create_profile no_subdirectory ∅ "a/b" sample_profile false
          = Some (Raise (FileNotFoundError msg))).
Proof.
  split; [|split; [|split]].
  - split; [reflexivity | done].
  - reflexivity.
  - eexists. split; [reflexivity|]. vm_compute. reflexivity.
  - eexists. reflexivity.
Qed.

End cleaning.

(** ** The migration of legacy education entries *)

Section migration.
Import profile_manager.

Lemma bind_Ok_inv {A B} (r : result A) (k : A → result B) (b : B) :
  r ≫= k = Ok b → ∃ a, r = Ok a ∧ k a = Ok b.
Proof. destruct r as [a|e]; [by exists a | done]. Qed.

Lemma dict_get_set_eq {V} (k : string) (v : V) (d : list (string * V)) :
  dict.get k (dict.set k v d) = Some v.
Proof.
  induction d as [|[k' v'] d IH]; simpl.
  - by rewrite String.eqb_refl.
  - destruct (String.eqb k k') eqn:Hk; simpl; by rewrite Hk.
Qed.

(** An entry whose graduation date is not made of two tokens is left as it
    is by the migration. *)
Lemma migrate_education_not_two (d : list (string * json)) (g : string) :
  dict.get "graduation_date" d = Some (JStr g) →
  dict.has "start_date" d = false →
  length (Py.split g) ≠ 2 →
  migrate_education (JObj d) = Ok (JObj d).
Proof.
  intros Hg Hs Hlen. unfold migrate_education, py_in, py_index, dict.has.
  rewrite Hg. cbn. unfold dict.has in Hs. rewrite Hs. cbn.
  destruct (String.eqb g ""); [done|]. cbn. unfold migrate_fields.
  destruct (Py.split g) as [|m [|y [|z l]]]; done.
Qed.

(** An entry without a start date does not validate. *)
Lemma validate_education_no_start (d : list (string * json)) (e : Education.t) :
  dict.get "start_date" d = None → validate_education (JObj d) ≠ Ok e.
Proof.
  intros Hs H. unfold validate_education in H.
  apply bind_Ok_inv in H as (degree & _ & H).
  apply bind_Ok_inv in H as (institution & _ & H).
  apply bind_Ok_inv in H as (location & _ & H).
  apply bind_Ok_inv in H as (start_date & Hstart & _).
  unfold required in Hstart. by rewrite Hs in Hstart.
Qed.

(** Every stored profile with a legacy education entry whose graduation
    date is not made of exactly two tokens fails to load. *)
Lemma load_data_legacy_not_two (data d : list (string * json)) (g : string)
    (before after : list json) (profile : UserProfile.t) :
  dict.get "education" data = Some (JArr (before ++ JObj d :: after)) →
  dict.get "graduation_date" d = Some (JStr g) →
  dict.has "start_date" d = false →
  length (Py.split g) ≠ 2 →
  load_data (JObj data) ≠ Ok profile.
Proof.
  intros Hedu Hg Hs Hlen H. unfold load_data in H.
  apply bind_Ok_inv in H as (data' & Hmig & Hval).
  unfold migrate in Hmig. rewrite Hedu in Hmig. cbn in Hmig.
  apply bind_Ok_inv in Hmig as (items' & Hitems & Hdata').
  inversion Hdata'; subst data'; clear Hdata'.
  assert (∃ b' a', items' = b' ++ JObj d :: a') as (b' & a' & ->).
  { clear -Hitems Hg Hs Hlen. revert items' Hitems.
    induction before as [|x before IH]; intros items' Hitems.
    - rewrite (left_id_L [] (++)), mapM_cons in Hitems.
      rewrite (migrate_education_not_two d g), bind_Ok in Hitems by done.
      apply bind_Ok_inv in Hitems as (a' & _ & [= <-]). by exists [], a'.
    - change ((x :: before) ++ ?l) with (x :: (before ++ l)) in Hitems.
      rewrite mapM_cons in Hitems.
      apply bind_Ok_inv in Hitems as (x' & _ & Hitems).
      apply bind_Ok_inv in Hitems as (rest' & Hrest & [= <-]).
      destruct (IH _ Hrest) as (b' & a' & ->). by exists (x' :: b'), a'. }
  unfold validate in Hval.
  apply bind_Ok_inv in Hval as (pi & _ & Hval).
  apply bind_Ok_inv in Hval as (su & _ & Hval).
  apply bind_Ok_inv in Hval as (st & _ & Hval).
  apply bind_Ok_inv in Hval as (ed & Hed & _).
  unfold optional in Hed. rewrite dict_get_set_eq in Hed.
  unfold v_list in Hed. clear -Hed Hs.
  revert ed Hed. induction b' as [|x b' IH]; intros ed Hed.
  - rewrite (left_id_L [] (++)), mapM_cons in Hed.
    apply bind_Ok_inv in Hed as (e & He & _).
    apply validate_education_no_start in He; [done|].
    unfold dict.has in Hs. by destruct (dict.get "start_date" d).
  - change ((x :: b') ++ ?l) with (x :: (b' ++ l)) in Hed.
    rewrite mapM_cons in Hed.
    apply bind_Ok_inv in Hed as (x' & _ & Hed).
    apply bind_Ok_inv in Hed as (rest' & Hrest & _). by eapply IH.
Qed.

(** The first half of C3 holds: "May 2024" is split into a start four years
    earlier and the end; a year that is not a number falls back to
    "Sep 2020" and keeps the original text as the end. *)
Lemma load_profile_legacy_two_tokens :
  load_profile legacy_store "old" = Ok (migrated "May 2020" "May 2024") ∧
  backend_profile_manager.load_profile ∅ [legacy_store] "old"
  = Ok (migrated "May 2020" "May 2024") ∧
  load_profile legacy_store "words" = Ok (migrated "Sep 2020" "May twenty").
Proof. repeat split; vm_compute; reflexivity. Qed.

(** C3, second half, at the failing input.  A legacy entry whose graduation
    date is the single token "2024" is left without [start_date] and
    [end_date] by the migration, and the validation of the profile then
    raises: [load_profile] does not return, in either manager. *)
Theorem load_profile_legacy_single_token :
  migrate_education
    (JObj [("degree", JStr "BSc"); ("institution", JStr "MIT");
           ("graduation_date", JStr "2024")])
  = Ok (JObj [("degree", JStr "BSc"); ("institution", JStr "MIT");
              ("graduation_date", JStr "2024")]) ∧
  load_profile legacy_store "single" = Raise ValidationError ∧
  backend_profile_manager.load_profile legacy_store [] "single"
  = Raise ValidationError.
Proof. repeat split; vm_compute; reflexivity. Qed.

End migration.

(** ** The renderers and optional fields *)

Section renderers.
Import export_handler.

(** A script whose own code raises does not complete, whatever the
    library does with its calls. *)
Lemma perform_then_raise (fpdf : list pdf_op → pdf_op → option exn)
    (todo : list pdf_op) (e : exn) :
  ∃ e', (made ← perform fpdf [] todo; _ ← (Raise e : result unit); mret made)
        = Raise e'.
Proof. destruct (perform fpdf [] todo); by eexists. Qed.

(** A library that lets every call through makes all the calls. *)
Lemma perform_accepting (made todo : list pdf_op) :
  perform accepting made todo = Ok (made ++ todo).
Proof.
  revert made. induction todo as [|op todo IH]; intros made.
  - by rewrite (right_id_L [] (++)).
  - cbn. by rewrite IH, <- (assoc_L (++)).
Qed.

(** In the PDF renderer a project that has technologies is asked for a key
    it does not have. *)
Lemma pdf_project_technologies (d : list (string * json)) :
  is_Some (dict.get "name" d) →
  truthy (default JNull (dict.get "technologies" d)) = true →
  dict.get "technatives" d = None →
  outcome (pdf_project (JObj d)) = Raise (KeyError "technatives").
Proof.
  intros [name Hname] Htech Hkey.
  unfold pdf_project, has_value, py_index, py_get.
  rewrite Hname, Hkey. cbn. by rewrite Htech.
Qed.

(** The other two renderers read the technologies under their own key. *)
Lemma txt_docx_project_technologies :
  is_ok (txt_project project_with_technologies) = true ∧
  is_ok (docx_project project_with_technologies) = true.
Proof. split; reflexivity. Qed.

(** With optional fields absent, the renderers complete and leave the
    sections out: nothing but the header for an empty resume, and no line
    of technologies for a project that has none.  For the PDF this is the
    code's own part: the export completes when the library lets every call
    through. *)
Lemma renderers_optional_absent :
  export_to_txt (JObj [])
  = Ok [Lit "YOUR NAME"; Lit (String "010" "");
        Lit (Py.join "" (replicate 80 "=")); Lit (String "010" ""); Lit ""] ∧
  outcome (pdf_script (JObj [])) = Ok tt ∧
  is_ok (export_to_pdf accepting (JObj [])) = true ∧
  is_ok (export_to_docx (JObj [])) = true ∧
  is_ok (export_to_txt resume_without_technologies) = true ∧
  outcome (pdf_script resume_without_technologies) = Ok tt ∧
  is_ok (export_to_pdf accepting resume_without_technologies) = true ∧
  is_ok (export_to_docx resume_without_technologies) = true.
Proof. repeat split; vm_compute; reflexivity. Qed.

(** C9, at the failing input.  For a resume that has a project with
    technologies, and none of the optional sections, [export_to_txt] and
    [export_to_docx] complete, and [export_to_pdf] raises: it reads the
    technologies under the key [technatives].  The exception is the
    [KeyError] of that key when the library lets the calls before it
    through, and whatever the library does with them, the export does not
    complete. *)
Theorem export_to_pdf_technologies :
  export_to_pdf accepting resume_with_technologies = Raise (KeyError "technatives") ∧
  outcome (pdf_script resume_with_technologies) = Raise (KeyError "technatives") ∧
  (∀ fpdf, ∃ e, export_to_pdf fpdf resume_with_technologies = Raise e) ∧
  is_ok (export_to_txt resume_with_technologies) = true ∧
  is_ok (export_to_docx resume_with_technologies) = true.
Proof.
  split; [vm_compute; reflexivity|]. split; [vm_compute; reflexivity|].
  split; [|split; vm_compute; reflexivity].
  intros fpdf. unfold export_to_pdf. cbn zeta.
  assert (outcome (pdf_script resume_with_technologies)
          = Raise (KeyError "technatives")) as -> by (vm_compute; reflexivity).
  apply perform_then_raise.
Qed.

End renderers.

(** * Further properties of the code *)

(** ** What the renderers read *)

Section read_set.
Import export_handler.

Lemma dict_get_set_ne {V} (k k' : string) (v : V) (d : list (string * V)) :
  k' ≠ k → dict.get k' (dict.set k v d) = dict.get k' d.
Proof.
  intros Hne. induction d as [|[k0 v0] d IH]; simpl.
  - apply String.eqb_neq in Hne. by rewrite Hne.
  - destruct (String.eqb k k0) eqn:Hk; simpl; [|by rewrite IH].
    apply String.eqb_eq in Hk as ->.
    apply String.eqb_neq in Hne. by rewrite Hne.
Qed.

(** The three renderers read seven keys of the resume and nothing else:
    two resumes that hold the same under [personal_info], [summary],
    [experience], [projects], [education], [skills] and [certifications]
    are rendered alike, whatever else they hold.  So the awards and the
    analysis of the job description, which [generate_tailored_resume] puts
    in the resume, appear in no export. *)
Theorem renderers_read_set (d d' : list (string * json)) :
  agree_on rendered_keys d d' →
  export_to_txt (JObj d) = export_to_txt (JObj d') ∧
  pdf_script (JObj d) = pdf_script (JObj d') ∧
  (∀ fpdf, export_to_pdf fpdf (JObj d) = export_to_pdf fpdf (JObj d')) ∧
  export_to_docx (JObj d) = export_to_docx (JObj d').
Proof.
  intros H.
  assert (dict.get "personal_info" d = dict.get "personal_info" d') as H1
    by (apply H; set_solver).
  assert (dict.get "summary" d = dict.get "summary" d') as H2
    by (apply H; set_solver).
  assert (dict.get "experience" d = dict.get "experience" d') as H3
    by (apply H; set_solver).
  assert (dict.get "projects" d = dict.get "projects" d') as H4
    by (apply H; set_solver).
  assert (dict.get "education" d = dict.get "education" d') as H5
    by (apply H; set_solver).
  assert (dict.get "skills" d = dict.get "skills" d') as H6
    by (apply H; set_solver).
  assert (dict.get "certifications" d = dict.get "certifications" d') as H7
    by (apply H; set_solver).
  assert (pdf_script (JObj d) = pdf_script (JObj d')) as Hpdf.
  { unfold pdf_script, for_each_call.
    unfold has_value, has_items, py_get_default, py_get, py_index.
    by rewrite H1, H2, H3, H4, H5, H6, H7. }
  split; [|split; [done|split]].
  - unfold export_to_txt, txt_lines.
    unfold has_value, has_items, for_each, py_get_default, py_get, py_index.
    by rewrite H1, H2, H3, H4, H5, H6, H7.
  - intros fpdf. unfold export_to_pdf. by rewrite Hpdf.
  - unfold export_to_docx.
    unfold has_value, has_items, for_each, py_get_default, py_get, py_index.
    by rewrite H1, H2, H3, H4, H5, H6, H7.
Qed.

Lemma renderers_read_set_witness :
  export_to_txt (JObj (with_awards plain_fields)) = export_to_txt (JObj plain_fields) ∧
  pdf_script (JObj (with_awards plain_fields)) = pdf_script (JObj plain_fields) ∧
  (∀ fpdf, export_to_pdf fpdf (JObj (with_awards plain_fields))
           = export_to_pdf fpdf (JObj plain_fields)) ∧
  export_to_docx (JObj (with_awards plain_fields)) = export_to_docx (JObj plain_fields).
Proof.
  apply (renderers_read_set (with_awards plain_fields) plain_fields).
  intros k Hk. unfold rendered_keys in Hk.
  repeat (apply elem_of_cons in Hk as [->|Hk]; [reflexivity|]).
  by apply elem_of_nil in Hk.
Defined.

End read_set.

(** ** The renderers on resumes of the profile's types *)

Section typed.
Import export_handler profile_manager.

Lemma bind_ok_ex {A B} (m : result A) (k : A → result B) (Q : A → Prop)
    (P : B → Prop) :
  (∃ a, m = Ok a ∧ Q a) → (∀ a, Q a → ∃ b, k a = Ok b ∧ P b) →
  ∃ b, m ≫= k = Ok b ∧ P b.
Proof. intros (a & -> & Ha) Hk. by apply Hk. Qed.

Lemma mapM_ok_fmap {A B C} (f : B → result C) (g : A → B) (P : C → Prop) (l : list A) :
  (∀ x, x ∈ l → ∃ y, f (g x) = Ok y ∧ P y) →
  ∃ ys, mapM f (g <$> l) = Ok ys ∧ Forall P ys.
Proof.
  induction l as [|x l IH]; intros H.
  - exists []. by split.
  - destruct (H x) as (y & Hy & HP); [left|].
    destruct IH as (ys & Hys & HPs).
    { intros z Hz. apply H. by right. }
    exists (y :: ys). rewrite fmap_cons, mapM_cons, Hy, bind_Ok, Hys.
    split; [done|]. by constructor.
Qed.

Lemma py_join_strs (sep : string) (l : list string) :
  py_join sep (JArr (JStr <$> l)) = Ok (Py.join sep l).
Proof.
  unfold py_join. cbn. by rewrite (mapM_fmap_ok join_item JStr).
Qed.

Lemma dict_get_fmap {A B} (f : A → B) (k : string) (d : list (string * A)) :
  dict.get k (prod_map id f <$> d) = f <$> dict.get k d.
Proof.
  induction d as [|[k' v] d IH]; [done|]. cbn. by destruct (String.eqb k k').
Qed.

Lemma personal_get (key dflt : string) (pi : list (string * string)) :
  py_get_default key (JStr dflt) (JObj (prod_map id JStr <$> pi))
  = Ok (JStr (default dflt (dict.get key pi))).
Proof. cbn. rewrite dict_get_fmap. by destruct (dict.get key pi). Qed.

Lemma personal_value (key : string) (pi : list (string * string)) :
  ∃ c, has_value key (JObj (prod_map id JStr <$> pi)) = Ok c ∧
       (c = true → ∃ s, py_index key (JObj (prod_map id JStr <$> pi)) = Ok (JStr s)).
Proof.
  unfold has_value, py_index, py_get. rewrite dict_get_fmap.
  destruct (dict.get key pi) as [s|]; cbn.
  - eexists. split; [done|]. intros _. by exists s.
  - eexists. split; [done|]. done.
Qed.

Lemma personal_present (keys : list string) (pi : list (string * string)) :
  ∃ strs, present_values keys (JObj (prod_map id JStr <$> pi)) = Ok (JStr <$> strs).
Proof.
  induction keys as [|key keys (rest & IH)]; [by exists []|].
  cbn [present_values]. destruct (personal_value key pi) as ([] & -> & Hv).
  - destruct Hv as [s ->]; [done|]. rewrite IH. cbn. by exists (s :: rest).
  - rewrite IH. cbn. by exists rest.
Qed.

Lemma txt_experience_dump (e : Experience.t) :
  ∃ out, txt_experience (dump_experience e) = Ok out ∧ Forall (λ l, is_text l = true) out.
Proof.
  destruct e as [title company location start_date end_date description skills].
  unfold txt_experience, date_location, has_value. cbn.
  destruct (negb (location =? "")%string); cbn; eexists; (split; [done|]);
    repeat constructor; apply Forall_app; (split; [|by repeat constructor]);
    apply Forall_fmap, Forall_fmap, Forall_true; done.
Qed.

Lemma for_each_fmap {A B} (key : string) (d : list (string * json)) (g : B → json)
    (l : list B) (body : json → result (list A)) (P : A → Prop) :
  dict.get key d = Some (JArr (g <$> l)) →
  (∀ x, ∃ out, body (g x) = Ok out ∧ Forall P out) →
  ∃ out, for_each key (JObj d) body = Ok out ∧ Forall P out.
Proof.
  intros Hd Hbody. unfold for_each, py_index. rewrite Hd. cbn.
  destruct (mapM_ok_fmap body g (Forall P) l) as (outs & -> & Houts).
  { intros s _. apply Hbody. }
  cbn. eexists. split; [done|]. by apply Forall_concat.
Qed.

Ltac step Q :=
  lazymatch goal with
  | |- @ex _ (λ b, ?m ≫= ?k = Ok b ∧ @?P b) =>
      apply (bind_ok_ex m k Q P); [ | intros ? ? ]
  end.
Ltac calc :=
  cbn [py_get_default py_get py_index has_value has_items py_iter py_len
       dict.get String.eqb Ascii.eqb Bool.eqb default id mbind mret result_bind
       result_ret truthy dump_str_list dump_optional_str raw fmt when
       Project.name Project.description Project.technologies Project.achievements
       Project.url Education.degree Education.institution Education.location
       Education.start_date Education.end_date Education.gpa
       Education.relevant_coursework Education.achievements
       Experience.title Experience.company Experience.location Experience.start_date
       Experience.end_date Experience.description Experience.skills_used
       UserProfile.personal_info UserProfile.summary UserProfile.my_story
       UserProfile.experience UserProfile.projects UserProfile.education
       UserProfile.skills UserProfile.certifications UserProfile.awards].
Ltac texts := repeat first [ done | constructor | apply Forall_app; split ].

Lemma txt_project_dump (pr : Project.t) :
  ∃ out, txt_project (dump_project pr) = Ok out ∧ Forall (λ l, is_text l = true) out.
Proof.
  destruct pr as [name description technologies achievements url].
  unfold txt_project, dump_project, dump_str_list. calc. rewrite py_join_strs.
  step (Forall (λ l, is_text l = true)).
  { destruct technologies; by eexists; split; [|repeat constructor]. }
  calc.
  step (Forall (λ l, is_text l = true)).
  { destruct achievements; [by eexists|]. eapply (for_each_fmap _ _ JStr); [done|].
    intros s0. eexists. split; [done|]. by repeat constructor. }
  eexists. split; [done|]. texts.
Qed.

Lemma lstrip_bullet_str (s : string) :
  lstrip_bullet (JStr s) = Ok (Py.lstrip_chars " " s).
Proof. done. Qed.

Lemma txt_education_dump (e : Education.t) :
  ∃ out, txt_education (dump_education e) = Ok out ∧ Forall (λ l, is_text l = true) out.
Proof.
  destruct e as [degree institution location start_date end_date gpa coursework achievements].
  unfold txt_education, dump_education, edu_info, dump_str_list. calc.
  step (λ l, is_text l = true).
  { destruct (negb (location =? "")%string); by eexists. }
  step (Forall (λ l, is_text l = true)).
  { destruct gpa as [g|]; calc; [|by eexists]. destruct (negb (g =? "")%string); eexists; split; texts. }
  step (λ c : bool, c = match achievements with [] => false | _ => true end).
  { destruct achievements; by eexists. }
  subst. step (Forall (λ l, is_text l = true)).
  { destruct achievements; [by eexists|]. calc.
    eapply (for_each_fmap _ _ JStr); [done|].
    intros s0. rewrite lstrip_bullet_str. eexists. split; [done|]. by repeat constructor. }
  eexists. split; [done|]. texts.
Qed.

Lemma skills_row_dump {A} (key : string) (sk : list (string * list string))
    (row : string → list A) (P : A → Prop) :
  (∀ t, Forall P (row t)) →
  ∃ out, skills_row key (JObj (prod_map id dump_str_list <$> sk)) row = Ok out
         ∧ Forall P out.
Proof.
  intros Hrow. unfold skills_row, has_value, py_get, py_index.
  rewrite dict_get_fmap. destruct (dict.get key sk) as [l|]; [|by eexists].
  unfold dump_str_list. cbn [fmap option_fmap option_map]. calc. rewrite py_join_strs.
  destruct l; eexists; (split; [done|]); [done | apply Hrow].
Qed.

Lemma personal_link (key label : string) (pi : list (string * string)) :
  ∃ out,
    (if truthy (default JNull (dict.get key (prod_map id JStr <$> pi)))
     then match dict.get key (prod_map id JStr <$> pi) with
          | Some x => Ok x
          | None => Raise (KeyError key)
          end ≫= λ v, mret [LText ([Lit label] ++ fmt v)]
     else mret []) = Ok out ∧ Forall (λ l, is_text l = true) out.
Proof.
  rewrite dict_get_fmap. destruct (dict.get key pi) as [s|]; [|by eexists].
  calc. cbn [fmap option_fmap option_map]. calc.
  destruct (negb (s =? "")%string); eexists; split; texts.
Qed.

Lemma nonempty_fmap {A B} (f : A → B) (l : list A) :
  match f <$> l with [] => false | _ => true end
  = match l with [] => false | _ => true end.
Proof. by destruct l. Qed.

Lemma ltb_length_fmap {A B} (f : A → B) (l : list A) :
  (0 <? length (f <$> l)) = match l with [] => false | _ => true end.
Proof. by destruct l. Qed.

Lemma export_to_txt_typed (p : UserProfile.t) :
  is_ok (export_to_txt (model_dump p)) = true.
Proof.
  cut (∃ lines, txt_lines (model_dump p) = Ok lines ∧ Forall (λ l, is_text l = true) lines).
  { intros (lines & Hl & Htext). unfold export_to_txt. rewrite Hl. calc.
    assert (∃ ts, mapM line_text lines = Ok ts) as [ts ->]; [|done].
    clear Hl. induction Htext as [|[t|v] lines Ht _ [ts IH]]; [by eexists| |done].
    rewrite mapM_cons. cbn. rewrite IH. by eexists. }
  destruct p as [pi su st ed ex pr sk ce aw].
  unfold txt_lines, model_dump, dump_str_list. calc.
  rewrite !nonempty_fmap, !ltb_length_fmap.
  step (λ _ : string, True).
  { rewrite dict_get_fmap. destruct (dict.get "name" pi); by eexists. }
  step (λ l : list json, ∃ strs, l = JStr <$> strs).
  { destruct (personal_present ["email"; "phone"; "location"] pi) as [strs ->]. by eexists; split; [|eexists]. }
  destruct H0 as [strs ->].
  step (Forall (λ l, is_text l = true)).
  { destruct strs; [by eexists|].
    change (JStr s :: (JStr <$> strs)) with (JStr <$> s :: strs).
    rewrite py_join_strs. eexists. split; [done|]. texts. }
  step (Forall (λ l, is_text l = true)); [apply personal_link|].
  step (Forall (λ l, is_text l = true)); [apply personal_link|].
  step (Forall (λ l, is_text l = true)).
  { destruct (negb (su =? "")%string); eexists; split; texts. }
  step (Forall (λ l, is_text l = true)).
  { destruct ex; [by eexists|].
    apply (bind_ok_ex _ _ (Forall (λ l, is_text l = true))).
    - eapply (for_each_fmap _ _ dump_experience); [done|]. apply txt_experience_dump.
    - intros entries Hentries. eexists. split; [done|]. texts. }
  step (λ c : bool, c = match pr with [] => false | _ => true end).
  { destruct pr; by eexists. }
  subst.
  step (Forall (λ l, is_text l = true)).
  { destruct pr; [by eexists|].
    apply (bind_ok_ex _ _ (Forall (λ l, is_text l = true))).
    - eapply (for_each_fmap _ _ dump_project); [done|]. apply txt_project_dump.
    - intros entries Hentries. eexists. split; [done|]. texts. }
  step (Forall (λ l, is_text l = true)).
  { destruct ed; [by eexists|].
    apply (bind_ok_ex _ _ (Forall (λ l, is_text l = true))).
    - eapply (for_each_fmap _ _ dump_education); [done|]. apply txt_education_dump.
    - intros entries Hentries. eexists. split; [done|]. texts. }
  step (Forall (λ l, is_text l = true)).
  { destruct sk as [|kv sk]; [by eexists|].
    change (match prod_map id (λ l : list string, JArr (JStr <$> l)) <$> kv :: sk with
            | [] => false | _ => true end) with true. cbv iota.
    change (prod_map id (λ l : list string, JArr (JStr <$> l)) <$> kv :: sk)
      with (prod_map id dump_str_list <$> kv :: sk).
    cbn [when].
    step (Forall (λ l, is_text l = true)); [apply skills_row_dump; intros; texts|].
    step (Forall (λ l, is_text l = true)); [apply skills_row_dump; intros; texts|].
    step (Forall (λ l, is_text l = true)); [apply skills_row_dump; intros; texts|].
    eexists. split; [done|]. texts. }
  step (λ c : bool, c = match ce with [] => false | _ => true end).
  { destruct ce; by eexists. }
  subst.
  step (Forall (λ l, is_text l = true)).
  { destruct ce; [by eexists|].
    apply (bind_ok_ex _ _ (Forall (λ l, is_text l = true))).
    - eapply (for_each_fmap _ _ JStr); [done|]. intros x. eexists. split; [done|]. texts.
    - intros entries Hentries. eexists. split; [done|]. texts. }
  eexists. split; [done|]. texts.
Qed.

Ltac step_any :=
  lazymatch goal with
  | |- @ex _ (λ b, ?m ≫= ?k = Ok b ∧ @?P b) =>
      lazymatch type of m with
      | result ?A => apply (bind_ok_ex m k (@anything A) P); [ | intros ? ? ]
      end
  end.
Ltac ok := by eexists.

Lemma forall_any {A} (l : list A) : Forall anything l.
Proof. by apply Forall_true. Qed.

Lemma personal_link_any {A} (key : string) (pi : list (string * string))
    (k : json → list A) :
  ∃ out,
    (if truthy (default JNull (dict.get key (prod_map id JStr <$> pi)))
     then match dict.get key (prod_map id JStr <$> pi) with
          | Some x => Ok x
          | None => Raise (KeyError key)
          end ≫= λ v, mret (k v)
     else mret []) = Ok out ∧ anything out.
Proof.
  rewrite dict_get_fmap. destruct (dict.get key pi) as [s|]; [|ok].
  calc. cbn [fmap option_fmap option_map]. calc.
  destruct (negb (s =? "")%string); ok.
Qed.

Lemma docx_link_dump (key : string) (pi : list (string * string)) :
  ∃ strs, docx_link key (JObj (prod_map id JStr <$> pi)) = Ok (JStr <$> strs).
Proof.
  unfold docx_link. destruct (personal_value key pi) as ([] & -> & Hv); [|by exists []].
  destruct Hv as [s ->]; [done|]. cbn. by eexists [_].
Qed.

Lemma docx_experience_dump (e : Experience.t) :
  ∃ out, docx_experience (dump_experience e) = Ok out ∧ Forall anything out.
Proof.
  destruct e as [title company location start_date end_date description skills].
  unfold docx_experience, dump_experience, dump_str_list. calc.
  destruct (negb (location =? "")%string); calc; eexists; (split; [done|]); apply forall_any.
Qed.

Lemma docx_project_dump (pr : Project.t) :
  ∃ out, docx_project (dump_project pr) = Ok out ∧ Forall anything out.
Proof.
  destruct pr as [name description technologies achievements url].
  unfold docx_project, dump_project, dump_str_list. calc. rewrite py_join_strs.
  step_any. { destruct technologies; ok. }
  step_any. { destruct (negb (description =? "")%string); ok. }
  step (@Forall docx_op anything).
  { destruct achievements; [by eexists|]. eapply (for_each_fmap _ _ JStr); [done|].
    intros s0. eexists. split; [done|]. apply forall_any. }
  eexists. split; [done|]. apply forall_any.
Qed.

Lemma docx_education_dump (e : Education.t) :
  ∃ out, docx_education (dump_education e) = Ok out ∧ Forall anything out.
Proof.
  destruct e as [degree institution location start_date end_date gpa coursework achievements].
  unfold docx_education, dump_education, dump_str_list. calc.
  step_any. { destruct (negb (location =? "")%string); ok. }
  step_any. { destruct (negb (end_date =? "")%string); ok. }
  step (λ c : bool, c = match achievements with [] => false | _ => true end).
  { destruct achievements; by eexists. }
  subst. step (@Forall docx_op anything).
  { destruct achievements; [by eexists|]. calc.
    eapply (for_each_fmap _ _ JStr); [done|].
    intros s0. rewrite lstrip_bullet_str. eexists. split; [done|]. apply forall_any. }
  eexists. split; [done|]. apply forall_any.
Qed.

Lemma section_fmap {A B} (key : string) (d : list (string * json)) (g : B → json)
    (l : list B) (body : json → result (list A)) (k : list A → list A) :
  dict.get key d = Some (JArr (g <$> l)) →
  (∀ x, ∃ out, body (g x) = Ok out ∧ Forall anything out) →
  ∃ out,
    when (match l with [] => false | _ => true end)
      (for_each key (JObj d) body ≫= λ entries, mret (k entries)) = Ok out
    ∧ anything out.
Proof.
  intros Hd Hbody. destruct l; [ok|]. cbn [when].
  destruct (for_each_fmap key d g (b :: l) body anything Hd Hbody) as (out & -> & _). ok.
Qed.

Lemma export_to_docx_typed (p : UserProfile.t) :
  is_ok (export_to_docx (model_dump p)) = true.
Proof.
  cut (∃ out, export_to_docx (model_dump p) = Ok out ∧ anything out).
  { by intros (out & -> & _). }
  destruct p as [pi su st ed ex pr sk ce aw].
  unfold export_to_docx, model_dump, dump_str_list. calc.
  rewrite !nonempty_fmap, !ltb_length_fmap.
  step_any.
  { rewrite dict_get_fmap. destruct (dict.get "name" pi); by eexists. }
  step (λ l : list json, ∃ strs, l = JStr <$> strs).
  { destruct (personal_present ["email"; "phone"; "location"] pi) as [strs ->]. by eexists; split; [|eexists]. }
  destruct H0 as [strs ->].
  step (λ l : list json, ∃ strs, l = JStr <$> strs).
  { destruct (docx_link_dump "linkedin" pi) as [l ->]. by eexists; split; [|eexists]. }
  destruct H0 as [linkedin ->].
  step (λ l : list json, ∃ strs, l = JStr <$> strs).
  { destruct (docx_link_dump "github" pi) as [l ->]. by eexists; split; [|eexists]. }
  destruct H0 as [github ->].
  step_any.
  { rewrite <- !fmap_app. destruct (strs ++ linkedin ++ github) as [|s l]; [ok|].
    cbn [fmap list_fmap].
    rewrite (py_join_strs " | " (s :: l) : py_join " | " (JArr (JStr s :: (JStr <$> l))) = _).
    ok. }
  step_any. { destruct (negb (su =? "")%string); ok. }
  step_any. { eapply (section_fmap _ _ dump_education); [done|]. apply docx_education_dump. }
  step_any. { eapply (section_fmap _ _ dump_experience); [done|]. apply docx_experience_dump. }
  step (λ c : bool, c = match pr with [] => false | _ => true end).
  { destruct pr; by eexists. }
  subst.
  step_any. { eapply (section_fmap _ _ dump_project); [done|]. apply docx_project_dump. }
  step_any.
  { destruct sk as [|kv sk]; [by eexists|].
    change (match prod_map id (λ l : list string, JArr (JStr <$> l)) <$> kv :: sk with
            | [] => false | _ => true end) with true.
    change (prod_map id (λ l : list string, JArr (JStr <$> l)) <$> kv :: sk)
      with (prod_map id dump_str_list <$> kv :: sk).
    cbn [when].
    step (@Forall docx_op anything); [apply skills_row_dump; intros; apply forall_any|].
    step (@Forall docx_op anything); [apply skills_row_dump; intros; apply forall_any|].
    step (@Forall docx_op anything); [apply skills_row_dump; intros; apply forall_any|].
    ok. }
  step (λ c : bool, c = match ce with [] => false | _ => true end).
  { destruct ce; by eexists. }
  subst.
  step_any.
  { eapply (section_fmap _ _ JStr); [done|]. intros x. eexists. split; [done|]. apply forall_any. }
  ok.
Qed.

(** *** The script of the PDF renderer *)

Lemma outcome_bind {A B} (m : script A) (k : A → script B) :
  outcome (m ≫= k)
  = match outcome m with
    | Ok a => outcome (k a)
    | Raise e => Raise e
    end.
Proof. destruct m as [made [a|e]]; [|done]. cbn. by destruct (k a). Qed.

Lemma calls_call_bind {B} (op : pdf_op) (k : unit → script B) :
  calls (call op ≫= k) = op :: calls (k tt).
Proof. cbn. by destruct (k tt). Qed.

Lemma outcome_each {A} (items : list A) (body : A → script unit) :
  (∀ x, x ∈ items → outcome (body x) = Ok tt) →
  outcome (each items body) = Ok tt.
Proof.
  induction items as [|x items IH]; intros H; [done|].
  cbn [each]. rewrite outcome_bind, H by left. apply IH.
  intros y Hy. apply H. by right.
Qed.

Lemma outcome_each_call (ops : list pdf_op) : outcome (each ops call) = Ok tt.
Proof. by apply outcome_each. Qed.

Lemma outcome_pdf_heading (title : string) : outcome (pdf_heading title) = Ok tt.
Proof. done. Qed.

(** One step of a script whose first part is a call or a step that
    returns. *)
Ltac script_step :=
  rewrite outcome_bind;
  first [ rewrite outcome_pdf_heading | rewrite outcome_each_call
        | progress cbn [outcome call eval mret script_ret when_call] ];
  calc.
Ltac script := repeat script_step.

Lemma date_location_dump (e : Experience.t) :
  ∃ dl, date_location (dump_experience e) = Ok dl.
Proof.
  destruct e as [title company location start_date end_date description skills].
  unfold date_location, dump_experience. calc.
  destruct (negb (location =? "")%string); by eexists.
Qed.

Lemma edu_info_dump (e : Education.t) :
  ∃ info, edu_info (dump_education e) = Ok info.
Proof.
  destruct e as [degree institution location start_date end_date gpa coursework
                 achievements].
  unfold edu_info, dump_education. calc.
  destruct (negb (location =? "")%string); by eexists.
Qed.

Lemma outcome_each_calls {A} (items : list A) (f : A → pdf_op) :
  outcome (each items (λ x, call (f x))) = Ok tt.
Proof. by apply outcome_each. Qed.

Lemma pdf_experience_dump (e : Experience.t) :
  outcome (pdf_experience (dump_experience e)) = Ok tt.
Proof.
  destruct (date_location_dump e) as [dl Hdl].
  unfold pdf_experience. rewrite Hdl.
  destruct e as [title company location start_date end_date description skills].
  unfold dump_experience. script. by rewrite outcome_each_calls.
Qed.

Lemma pdf_education_dump (e : Education.t) :
  outcome (pdf_education (dump_education e)) = Ok tt.
Proof.
  destruct (edu_info_dump e) as [info Hinfo].
  unfold pdf_education. rewrite Hinfo.
  destruct e as [degree institution location start_date end_date gpa coursework
                 achievements].
  unfold dump_education. script.
  assert (outcome
            (when_call (truthy (dump_optional_str gpa))
               (v ← eval (Ok (dump_optional_str gpa));
                call (cell 0 5 (LText ([Lit "GPA: "] ++ fmt v)) true "")))
          = Ok tt) as Hgpa.
  { destruct gpa as [g|]; [|done]. cbn. by destruct (negb (g =? "")%string). }
  rewrite outcome_bind, Hgpa. rewrite ?nonempty_fmap, ?ltb_length_fmap.
  destruct achievements as [|a achievements]; [done|].
  script. unfold for_each_call. script.
  rewrite outcome_each; [done|].
  intros x (s0 & -> & _)%list_elem_of_fmap. by rewrite outcome_bind.
Qed.

Lemma pdf_project_plain (pr : Project.t) :
  no_technologies pr = true →
  outcome (pdf_project (dump_project pr)) = Ok tt.
Proof.
  destruct pr as [name description technologies achievements url].
  intros Htech. destruct technologies; [clear Htech|done].
  unfold pdf_project, dump_project. script. rewrite ?nonempty_fmap.
  destruct achievements as [|a achievements]; [done|].
  script. unfold for_each_call. script. by rewrite outcome_each_calls.
Qed.

Lemma pdf_project_raises (pr : Project.t) :
  no_technologies pr = false →
  outcome (pdf_project (dump_project pr)) = Raise (KeyError "technatives").
Proof.
  destruct pr as [name description technologies achievements url].
  unfold no_technologies. cbn [Project.technologies]. intros Htech.
  destruct technologies; [done|]. unfold pdf_project, dump_project. by script.
Qed.

Lemma each_pdf_project (projects : list Project.t) :
  outcome (each (dump_project <$> projects) pdf_project)
  = if forallb no_technologies projects then Ok tt
    else Raise (KeyError "technatives").
Proof.
  induction projects as [|pr projects IH]; [done|].
  rewrite fmap_cons. cbn [each forallb]. rewrite outcome_bind.
  destruct (no_technologies pr) eqn:Hpr.
  - by rewrite pdf_project_plain.
  - by rewrite pdf_project_raises.
Qed.

Lemma each_fmap_ok {A} (f : A → json) (body : json → script unit) (l : list A) :
  (∀ x, outcome (body (f x)) = Ok tt) →
  outcome (each (f <$> l) body) = Ok tt.
Proof.
  intros H. apply outcome_each. by intros y (x & -> & _)%list_elem_of_fmap.
Qed.

Lemma pdf_skills_row_dump (key : string) (sk : list (string * list string))
    (before after : list pdf_op) :
  outcome (pdf_skills_row key (JObj (prod_map id dump_str_list <$> sk)) before after)
  = Ok tt.
Proof.
  unfold pdf_skills_row, has_value, py_get, py_index. rewrite dict_get_fmap.
  destruct (dict.get key sk) as [l|]; [|done]. cbn [fmap option_fmap option_map].
  script. rewrite nonempty_fmap. destruct l as [|x l]; [done|].
  cbn [when_call]. rewrite outcome_bind, outcome_each_call. script.
  unfold dump_str_list. rewrite py_join_strs. by script.
Qed.

Lemma when_call_ok (c : bool) (body : script unit) :
  outcome body = Ok tt → outcome (when_call c body) = Ok tt.
Proof. by destruct c. Qed.

Lemma outcome_links (links : list text) :
  outcome (match links with
           | [] => mret tt
           | [l] => call (cell 0 5 (LText l) true "C")
           | l1 :: l2 :: _ => call (cell 0 5 (LText (l1 ++ [Lit " | "] ++ l2)) true "C")
           end) = Ok tt.
Proof. by destruct links as [|? [|? ?]]. Qed.

(** The step of the code that is next returns. *)
Ltac returns tac :=
  lazymatch goal with
  | |- match ?X with Ok _ => _ | Raise _ => _ end = _ =>
      let H := fresh in
      assert (∃ out, X = Ok out) as [? H]; [tac | rewrite H; clear H]
  end.

(** The same with the value it returns. *)
Ltac returns_with v tac :=
  lazymatch goal with
  | |- match ?X with Ok _ => _ | Raise _ => _ end = _ =>
      let H := fresh in
      assert (X = Ok v) as H; [tac | rewrite H; clear H]
  end.

(** The part of the script that is next comes to [r]. *)
Ltac part_outcome r tac :=
  lazymatch goal with
  | |- match outcome ?S with Ok _ => _ | Raise _ => _ end = _ =>
      let H := fresh in
      assert (outcome S = r) as H; [tac | rewrite H; clear H]
  end.

Lemma pdf_script_typed (p : UserProfile.t) :
  outcome (pdf_script (model_dump p))
  = if forallb no_technologies (UserProfile.projects p) then Ok tt
    else Raise (KeyError "technatives").
Proof.
  destruct p as [pi su st ed ex pr sk ce aw]. cbn [UserProfile.projects].
  unfold pdf_script, model_dump. script.
  destruct (personal_present ["email"; "phone"; "location"] pi) as [strs ->].
  script. rewrite py_join_strs. script.
  returns ltac:(destruct (personal_link_any (A:=text) "linkedin" pi
                            (λ v, [[Lit "LinkedIn: "] ++ fmt v]))
                  as (out & Hout & _); exists out; exact Hout).
  script.
  returns ltac:(destruct (personal_link_any (A:=text) "github" pi
                            (λ v, [[Lit "GitHub: "] ++ fmt v]))
                  as (out & Hout & _); exists out; exact Hout).
  rewrite outcome_bind, outcome_links. script.
  rewrite outcome_bind, when_call_ok by by script.
  script. rewrite outcome_bind, when_call_ok.
  2: { script. unfold for_each_call. script. apply each_fmap_ok, pdf_experience_dump. }
  script. rewrite nonempty_fmap, ltb_length_fmap.
  returns_with (match pr with [] => false | _ => true end) ltac:(by destruct pr).
  rewrite outcome_bind.
  part_outcome (if forallb no_technologies pr then Ok tt
                else Raise (KeyError "technatives") : result unit)
    ltac:(destruct pr; [done|]; cbn [when_call]; script; unfold for_each_call;
          script; apply each_pdf_project).
  destruct (forallb no_technologies pr); [|done].
  script. rewrite outcome_bind, when_call_ok.
  2: { script. unfold for_each_call. script. apply each_fmap_ok, pdf_education_dump. }
  script. rewrite outcome_bind, when_call_ok.
  2: { script. rewrite outcome_bind, pdf_skills_row_dump.
       rewrite outcome_bind, pdf_skills_row_dump. apply pdf_skills_row_dump. }
  script. rewrite nonempty_fmap, ltb_length_fmap.
  returns_with (match ce with [] => false | _ => true end) ltac:(by destruct ce).
  rewrite outcome_bind, when_call_ok.
  2: { script. unfold for_each_call. script. apply outcome_each_calls. }
  done.
Qed.

(** The calls that open every script of the renderer. *)
Lemma pdf_script_opening (resume_data : json) :
  ∃ rest, calls (pdf_script resume_data)
          = [new_document; add_page; set_auto_page_break 15;
             add_font "Times" "" "times.ttf"] ++ rest.
Proof. unfold pdf_script. rewrite !calls_call_bind. by eexists. Qed.

(** For a resume that has the types of the profile model, [export_to_txt]
    and [export_to_docx] never raise.  The code of [export_to_pdf] runs to
    its end exactly when no project names a technology, and stops with the
    [KeyError] of the key [technatives] otherwise.  What [export_to_pdf]
    comes to also lies with the library: a call that it refuses ends the
    export with its exception, as [add_font] does when the font files are
    not found; when it lets every call through, the export completes or
    raises that [KeyError]. *)
Theorem typed_resume_exports (p : UserProfile.t) :
  let runs_through := forallb no_technologies (UserProfile.projects p) in
  is_ok (export_to_txt (model_dump p)) = true ∧
  is_ok (export_to_docx (model_dump p)) = true ∧
  outcome (pdf_script (model_dump p))
  = (if runs_through then Ok tt else Raise (KeyError "technatives")) ∧
  (∀ fpdf,
     export_to_pdf fpdf (model_dump p)
     = match perform fpdf [] (calls (pdf_script (model_dump p))) with
       | Ok made => if runs_through then Ok made else Raise (KeyError "technatives")
       | Raise e => Raise e
       end) ∧
  export_to_pdf accepting (model_dump p)
  = (if runs_through then Ok (calls (pdf_script (model_dump p)))
     else Raise (KeyError "technatives")) ∧
  export_to_pdf without_fonts (model_dump p)
  = Raise (FileNotFoundError "TTF Font file not found: times.ttf").
Proof.
  cbn zeta.
  split; [apply export_to_txt_typed|]. split; [apply export_to_docx_typed|].
  split; [apply pdf_script_typed|].
  assert (∀ fpdf,
            export_to_pdf fpdf (model_dump p)
            = match perform fpdf [] (calls (pdf_script (model_dump p))) with
              | Ok made => if forallb no_technologies (UserProfile.projects p)
                           then Ok made else Raise (KeyError "technatives")
              | Raise e => Raise e
              end) as Hany.
  { intros fpdf. unfold export_to_pdf. cbn zeta. rewrite pdf_script_typed.
    destruct (perform fpdf [] _); [|done].
    by destruct (forallb no_technologies (UserProfile.projects p)). }
  split; [done|]. split.
  - by rewrite Hany, perform_accepting.
  - rewrite Hany. destruct (pdf_script_opening (model_dump p)) as [rest ->]. done.
Qed.

(** The dates of an education entry of the model.  [export_to_txt] and
    [export_to_pdf] print neither of them: they look for [graduation_date],
    which the model does not have.  [export_to_docx] prints the end date,
    after a tab and in bold, and not the start date. *)
Theorem education_dates_rendered (e : Education.t) (start_date end_date : string) :
  txt_education (dump_education (with_dates e start_date end_date))
  = txt_education (dump_education e) ∧
  pdf_education (dump_education (with_dates e start_date end_date))
  = pdf_education (dump_education e) ∧
  docx_education (dump_education (with_dates e start_date (Education.end_date e)))
  = docx_education (dump_education e) ∧
  (Education.end_date e ≠ "" →
   ∃ runs rest,
     docx_education (dump_education e)
     = Ok (paragraph "No Spacing"
             (runs ++ [in_bold (lit (String "009" "" +:+ Education.end_date e))])
             false false :: rest)).
Proof.
  destruct e as [degree institution location start end_ gpa coursework achievements].
  split; [done|]. split; [done|]. split; [done|].
  cbn [Education.end_date]. intros Hend. apply String.eqb_neq in Hend.
  destruct (docx_education_dump
              (Education.mk degree institution location start end_ gpa coursework
                 achievements)) as (out & Hout & _).
  revert Hout. unfold docx_education, dump_education, dump_str_list. calc.
  rewrite Hend. calc. cbn [str_add negb].
  destruct (negb (location =? "")%string); calc; intros Hout;
    apply bind_Ok_inv in Hout as (c & Hc & Hout);
    apply bind_Ok_inv in Hout as (ach & Hach & _);
    rewrite Hc; calc; rewrite Hach; calc.
  - by exists [in_bold (LText [Lit institution]); plain (LText [Lit " - "; Lit location])], 
              (paragraph "No Spacing" [in_italic (LText [Lit degree])] false false :: ach).
  - by exists [in_bold (LText [Lit institution])],
              (paragraph "No Spacing" [in_italic (LText [Lit degree])] false false :: ach).
Qed.

Lemma education_dates_rendered_witness :
  ∃ runs rest,
    docx_education (dump_education
                      (Education.mk "BSc" "MIT" "" "Sep 2016" "May 2020" None [] []))
    = Ok (paragraph "No Spacing" (runs ++ [in_bold (lit (String "009" "" +:+ "May 2020"))])
            false false :: rest).
Proof.
  apply (education_dates_rendered
           (Education.mk "BSc" "MIT" "" "Sep 2016" "May 2020" None [] []) "" "").
  done.
Defined.

End typed.

(** ** The profile store: listing and deleting *)

Section listing.
Import profile_manager.

Lemma slice_to_from (k : nat) (s : string) :
  Py.slice_to k s +:+ Py.slice_from k s = s.
Proof.
  revert k. induction s as [|c s IH]; intros [|k]; try done.
  cbn [Py.slice_to Py.slice_from]. by rewrite str_app_cons, IH.
Qed.

Lemma slice_from_app (a b : string) : Py.slice_from (String.length a) (a +:+ b) = b.
Proof. induction a as [|c a IH]; [by destruct b|]. by rewrite str_app_cons. Qed.

Lemma slice_to_app (a b : string) : Py.slice_to (String.length a) (a +:+ b) = a.
Proof.
  induction a as [|c a IH]; [by destruct b|].
  rewrite str_app_cons. cbn [String.length Py.slice_to]. by rewrite IH.
Qed.

Lemma endswith_app (a suffix : string) : Py.endswith suffix (a +:+ suffix) = true.
Proof.
  unfold Py.endswith, Py.slice_last. rewrite str_length_app.
  replace (String.length a + String.length suffix - String.length suffix)
    with (String.length a) by lia.
  rewrite slice_from_app. apply String.eqb_refl.
Qed.

Lemma endswith_inv (suffix s : string) :
  Py.endswith suffix s = true → ∃ a, s = a +:+ suffix.
Proof.
  unfold Py.endswith, Py.slice_last. intros H. apply String.eqb_eq in H.
  pose proof (slice_to_from (String.length s - String.length suffix) s) as E.
  rewrite H in E. by eexists.
Qed.

Lemma rfind_app (c : ascii) (a b : string) (i : nat) :
  Py.rfind c b = Some i → Py.rfind c (a +:+ b) = Some (String.length a + i).
Proof.
  intros Hb. induction a as [|x a IH]; [by rewrite str_app_nil_l|].
  rewrite str_app_cons. cbn [Py.rfind String.length]. by rewrite IH.
Qed.

(** The stem of a file name that ends in [.json]. *)
Lemma stem_json (name : string) :
  stem (name +:+ ".json") = if String.eqb name "" then ".json" else name.
Proof.
  unfold stem. rewrite (rfind_app "." name ".json" 0) by done.
  rewrite Nat.add_0_r, str_length_app. destruct name as [|c name]; [done|].
  cbn [String.eqb]. replace (0 <? String.length (String c name)) with true by done.
  replace (String.length (String c name) <? String.length (String c name) + String.length ".json" - 1)
    with true.
  2: { symmetry. apply Nat.ltb_lt. cbn. lia. }
  cbn [andb]. apply slice_to_app.
Qed.

Lemma elem_of_glob_json (store : gmap string json) (path : string) :
  path ∈ glob_json store ↔
  is_Some (store !! path) ∧ Py.has_char "/" path = false ∧ Py.endswith ".json" path = true.
Proof.
  unfold glob_json. rewrite list_elem_of_filter, list_elem_of_fmap.
  rewrite andb_true_iff, negb_true_iff. split.
  - intros [[H1 H2] ([k v] & -> & Hkv)]. apply elem_of_map_to_list in Hkv.
    split; [by eexists|]. done.
  - intros ([v Hv] & H1 & H2). split; [done|]. exists (path, v). split; [done|].
    by apply elem_of_map_to_list.
Qed.

Lemma elem_of_list_profiles (store : gmap string json) (name : string) :
  name ∈ list_profiles store ↔
  (name ≠ "" ∧ Py.has_char "/" name = false ∧ is_Some (store !! profile_path name))
  ∨ (name = ".json" ∧ is_Some (store !! ".json")).
Proof.
  unfold list_profiles. rewrite list_elem_of_fmap. split.
  - intros (path & -> & Hpath). apply elem_of_glob_json in Hpath as (Hsome & Hslash & Hend).
    apply endswith_inv in Hend as [a ->]. rewrite stem_json.
    destruct (String.eqb_spec a "") as [->|Ha]; [by right|]. left.
    split; [done|]. split; [|done].
    rewrite has_char_app in Hslash. by apply orb_false_elim in Hslash as [? _].
  - intros [(Hne & Hslash & Hsome)|[-> Hsome]].
    + exists (profile_path name). unfold profile_path. rewrite stem_json.
      apply String.eqb_neq in Hne. rewrite Hne. split; [done|].
      apply elem_of_glob_json. split; [done|]. split; [|apply endswith_app].
      by rewrite has_char_app, Hslash.
    + exists ".json". split; [done|]. by apply elem_of_glob_json.
Qed.

Lemma profile_path_inj : Inj (=) (=) profile_path.
Proof. intros a b H. unfold profile_path in H. by apply str_app_inv_tail in H. Qed.

(** The shape of the name [create_profile] has stored the profile under. *)
Lemma create_profile_stored (open_error : string → option exn)
    (store store' : gmap string json) (profile_name path stored : string)
    (profile : UserProfile.t) (replace : bool) :
  create_profile open_error store profile_name profile replace
  = Some (Ok (store', (path, stored))) →
  path = profile_path stored ∧
  store' = <[profile_path stored := model_dump profile]> store ∧
  (stored = clean profile_name ∨ ∃ n, stored = versioned (clean profile_name) n).
Proof.
  intros (-> & -> & _ & [[-> _]|(n & -> & _)])%create_profile_inv.
  - split; [done|]. split; [done|]. by left.
  - split; [done|]. split; [done|]. right. by exists n.
Qed.

Lemma clean_all_chars (P : ascii → bool) (profile_name : string) :
  P " "%char = true → all_chars P profile_name = true →
  all_chars P (clean profile_name) = true.
Proof.
  intros Hsp H. unfold clean, Py.replace. apply all_chars_replace; [done|].
  apply all_chars_join; [by cbn; rewrite Hsp|]. apply all_chars_split.
  by apply all_chars_rstrip, all_chars_lstrip.
Qed.

Lemma stored_no_slash (profile_name stored : string) :
  Py.has_char "/" profile_name = false →
  stored = clean profile_name ∨ (∃ n, stored = versioned (clean profile_name) n) →
  Py.has_char "/" stored = false.
Proof.
  intros Hname Hstored. apply has_char_other_than.
  apply has_char_other_than in Hname.
  assert (all_chars (other_than "/") (clean profile_name) = true) as Hclean
    by by apply clean_all_chars.
  destruct Hstored as [->|[n ->]]; [done|].
  unfold versioned. rewrite all_chars_app, Hclean. by apply version_suffix.
Qed.

(** A profile that has been saved is listed under the name it was stored
    under, unless that name is empty: the file [.json] is listed as
    [.json], a name under which nothing can be loaded unless there is a
    file [.json.json].  (A name with a slash is a file of another
    directory.) *)
Theorem created_profile_listed (open_error : string → option exn)
    (store store' : gmap string json)
    (profile_name path stored : string) (profile : UserProfile.t) (replace : bool) :
  create_profile open_error store profile_name profile replace
  = Some (Ok (store', (path, stored))) →
  Py.has_char "/" profile_name = false →
  (stored ≠ "" → stored ∈ list_profiles store') ∧
  (stored = "" →
   ".json" ∈ list_profiles store' ∧ ("" ∉ list_profiles store') ∧
   (store !! ".json.json" = None →
    load_profile store' ".json" = Raise (not_found ".json"))).
Proof.
  intros Hcreate Hslash.
  apply create_profile_stored in Hcreate as (-> & -> & Hstored).
  pose proof (stored_no_slash _ _ Hslash Hstored) as Hs.
  split.
  - intros Hne. apply elem_of_list_profiles. left. split; [done|]. split; [done|].
    rewrite lookup_insert_eq. by eexists.
  - intros ->. split; [|split].
    + apply elem_of_list_profiles. right. split; [done|].
      change (profile_path "") with ".json". rewrite lookup_insert_eq. by eexists.
    + rewrite elem_of_list_profiles. by intros [[? _]|[? _]].
    + intros Habsent. unfold load_profile.
      change (profile_path "") with ".json". change (profile_path ".json") with ".json.json".
      rewrite lookup_insert_ne by done. by rewrite Habsent.
Qed.

Lemma created_profile_listed_witness :
  ∃ store',
    create_profile opens ∅ "Ada Lovelace" UserProfile.default false
    = Some (Ok (store', ("Ada Lovelace.json", "Ada Lovelace"))) ∧
    "Ada Lovelace" ∈ list_profiles store'.
Proof.
  eexists. split; [reflexivity|].
  refine (proj1 (created_profile_listed opens ∅ _ "Ada Lovelace" _ "Ada Lovelace"
                   UserProfile.default false eq_refl eq_refl) _).
  done.
Defined.

(** Every listed name other than [.json] is the name of a file: the
    profile loads or fails to validate, it is never reported missing.
    Deleting it takes it off the list and leaves the other names on it. *)
Theorem listed_profile_loads (store : gmap string json) (name : string) :
  name ∈ list_profiles store → name ≠ ".json" →
  (∃ data, store !! profile_path name = Some data ∧
           load_profile store name = load_data data ∧ found (load_data data)) ∧
  (delete_profile store name).2 = true ∧
  (name ∉ list_profiles (delete_profile store name).1) ∧
  (∀ other, other ≠ name → other ≠ ".json" →
     other ∈ list_profiles store → other ∈ list_profiles (delete_profile store name).1).
Proof.
  intros Hin Hne. apply elem_of_list_profiles in Hin as [(Hn & Hslash & [data Hdata])|[? _]];
    [|done].
  split.
  { exists data. split; [done|]. unfold load_profile. rewrite Hdata.
    split; [done|]. apply found_load_data. }
  unfold delete_profile, exists_. rewrite bool_decide_eq_true_2 by by eexists.
  cbn [fst snd]. split; [done|]. split.
  - rewrite elem_of_list_profiles. intros [(_ & _ & Hsome)|[? _]]; [|done].
    rewrite lookup_delete_eq in Hsome. by destruct Hsome.
  - intros other Hother Hjson Hlisted.
    apply elem_of_list_profiles in Hlisted as [(Ho & Hs & Hsome)|[? _]]; [|done].
    apply elem_of_list_profiles. left. split; [done|]. split; [done|].
    rewrite lookup_delete_ne; [done|]. intros Heq. by apply profile_path_inj in Heq.
Qed.

Lemma listed_profile_loads_witness :
  ("old" ∉ list_profiles (delete_profile legacy_store "old").1) ∧
  "words" ∈ list_profiles (delete_profile legacy_store "old").1.
Proof.
  assert ("old" ∈ list_profiles legacy_store) as Hold.
  { apply elem_of_list_profiles. left. split; [done|]. split; [done|]. by eexists. }
  assert ("words" ∈ list_profiles legacy_store) as Hwords.
  { apply elem_of_list_profiles. left. split; [done|]. split; [done|]. by eexists. }
  destruct (listed_profile_loads legacy_store "old" Hold) as (_ & _ & Hgone & Hkept);
    [done|].
  split; [exact Hgone|]. by apply Hkept.
Defined.


(** The backup directories of the backend.  A profile that is not in the
    profile directory is loaded from the first backup directory that has a
    file of its name, where the manager without backups reports it
    missing; a file in the profile directory comes before any backup. *)
Theorem load_profile_backup (store : gmap string json)
    (before after : list (gmap string json)) (backup_dir : gmap string json)
    (profile_name : string) (data : json) :
  store !! profile_path profile_name = None →
  Forall (λ dir : gmap string json, dir !! profile_path profile_name = None) before →
  backup_dir !! profile_path profile_name = Some data →
  backend_profile_manager.load_profile store (before ++ backup_dir :: after) profile_name
  = load_data data ∧
  load_profile store profile_name = Raise (not_found profile_name) ∧
  ∀ own, backend_profile_manager.load_profile
           (<[profile_path profile_name := own]> store)
           (before ++ backup_dir :: after) profile_name
         = load_data own.
Proof.
  intros Hstore Hbefore Hdir. split; [|split].
  - unfold backend_profile_manager.load_profile. rewrite Hstore.
    assert (backend_profile_manager.find_backup (before ++ backup_dir :: after)
              (profile_path profile_name) = Some data) as ->; [|done].
    induction Hbefore as [|dir before Hdir' _ IH]; cbn.
    + by rewrite Hdir.
    + by rewrite Hdir'.
  - unfold load_profile. by rewrite Hstore.
  - intros own. unfold backend_profile_manager.load_profile.
    by rewrite lookup_insert_eq.
Qed.

Lemma load_profile_backup_witness :
  backend_profile_manager.load_profile ∅ [∅; legacy_store; two_files] "old"
  = load_data (legacy_profile "May 2024") ∧
  load_profile ∅ "old" = Raise (not_found "old").
Proof.
  destruct (load_profile_backup ∅ [∅] [two_files] legacy_store "old"
              (legacy_profile "May 2024")) as (H1 & H2 & _).
  - reflexivity.
  - constructor; [reflexivity | constructor].
  - reflexivity.
  - split; [exact H1 | exact H2].
Defined.

End listing.

Section autosave.
Import profile_manager app.

(** A name in clean form is left as it is by the cleaning. *)
Lemma clean_fixed (name : string) :
  Py.has_char "." name = false → Py.join " " (Py.split name) = name →
  clean name = name.
Proof.
  intros Hdot Hnorm. unfold clean. rewrite split_strip, Hnorm.
  by apply replace_dot_id.
Qed.

(** Saving again under the name that [create_profile] returned.  When the
    requested name has no dot, the returned name is in clean form, so
    [auto_save_profile] writes the file that was created, which has opened
    before, and the profile then loads as saved last. *)
Theorem auto_save_after_create (open_error : string → option exn)
    (store store1 : gmap string json)
    (profile_name path stored : string) (profile edited : UserProfile.t)
    (replace : bool) :
  create_profile open_error store profile_name profile replace
  = Some (Ok (store1, (path, stored))) →
  Py.has_char "." profile_name = false →
  stored ≠ "" →
  clean stored = stored ∧
  auto_save_profile open_error store1 (Some stored) (Some edited)
  = (<[path := model_dump edited]> store1, true) ∧
  load_profile (auto_save_profile open_error store1 (Some stored) (Some edited)).1 stored
  = Ok edited.
Proof.
  intros Hcreate Hdot Hne.
  pose proof Hcreate as (_ & _ & Hopen & _)%create_profile_inv.
  apply create_profile_stored in Hcreate as (-> & -> & Hstored).
  destruct (stored_name_clean profile_name stored Hstored) as (Hd & _ & Hnorm).
  assert (clean stored = stored) as Hclean by (apply clean_fixed; auto).
  split; [done|].
  assert (auto_save_profile open_error
            (<[profile_path stored := model_dump profile]> store)
            (Some stored) (Some edited)
          = (<[profile_path stored := model_dump edited]>
               (<[profile_path stored := model_dump profile]> store), true)) as Hsave.
  { unfold auto_save_profile. apply String.eqb_neq in Hne. rewrite Hne.
    rewrite create_profile_plain by by right. rewrite Hclean.
    by rewrite written_opens. }
  split; [done|]. rewrite Hsave. cbn [fst]. unfold load_profile.
  rewrite lookup_insert_eq. apply load_data_model_dump.
Qed.

Lemma auto_save_after_create_witness :
  ∃ store1,
    create_profile opens two_files " cv " UserProfile.default false
    = Some (Ok (store1, ("cv_v3.json", "cv_v3"))) ∧
    auto_save_profile opens store1 (Some "cv_v3") (Some sample_profile)
    = (<["cv_v3.json" := model_dump sample_profile]> store1, true).
Proof.
  eexists. split; [reflexivity|].
  refine (proj1 (proj2 (auto_save_after_create opens two_files _ " cv " "cv_v3.json"
                          "cv_v3" UserProfile.default sample_profile false
                          eq_refl eq_refl _))).
  done.
Defined.

End autosave.

Section backend_listing.
Import profile_manager.

Lemma first_listing_elem (backup_dirs : list (gmap string json)) (name : string) :
  name ∈ backend_profile_manager.first_listing backup_dirs →
  ∃ dir, dir ∈ backup_dirs ∧ name ∈ list_profiles dir.
Proof.
  induction backup_dirs as [|dir dirs IH]; cbn; [by intros ?%elem_of_nil|].
  destruct (list_profiles dir) as [|n ns] eqn:Hdir.
  - intros (d & Hd & Hn)%IH. exists d. split; [by right|done].
  - intros Hin. exists dir. split; [by left|]. by rewrite Hdir.
Qed.

(** The listing of the backend.  When the profile directory has a
    profile, the backup directories are not listed; when it has none and
    no backup directory has one, the listing is empty.  Every name that is
    listed, other than [.json], is the name of a file of the profile
    directory or of a backup directory: loading it is never answered with
    a missing profile. *)
Theorem backend_list_profiles_spec (store : gmap string json)
    (backup_dirs : list (gmap string json)) :
  (list_profiles store ≠ [] →
   backend_profile_manager.list_profiles store backup_dirs = list_profiles store) ∧
  (list_profiles store = [] →
   Forall (λ dir, list_profiles dir = []) backup_dirs →
   backend_profile_manager.list_profiles store backup_dirs = []) ∧
  ∀ name, name ∈ backend_profile_manager.list_profiles store backup_dirs →
    name ≠ ".json" →
    ∃ data, backend_profile_manager.load_profile store backup_dirs name
            = load_data data ∧
            found (load_data data).
Proof.
  split; [|split].
  - unfold backend_profile_manager.list_profiles. by destruct (list_profiles store).
  - unfold backend_profile_manager.list_profiles. intros -> Hall.
    induction Hall as [|dir dirs Hdir _ IH]; [done|]. cbn. by rewrite Hdir.
  - intros name Hin Hne.
    assert (∃ dir, dir ∈ store :: backup_dirs ∧ name ∈ list_profiles dir)
      as (dir & Hdir & Hname).
    { unfold backend_profile_manager.list_profiles in Hin.
      destruct (list_profiles store) as [|n ns] eqn:Hstore.
      - apply first_listing_elem in Hin as (dir & Hdir & Hname).
        exists dir. split; [by right|done].
      - exists store. split; [by left|]. by rewrite Hstore. }
    apply elem_of_list_profiles in Hname as [(_ & _ & Hsome)|[? _]]; [|done].
    unfold backend_profile_manager.load_profile.
    destruct (store !! profile_path name) as [data|] eqn:Hstore.
    { exists data. split; [done|]. apply found_load_data. }
    apply elem_of_cons in Hdir as [->|Hdir].
    { rewrite Hstore in Hsome. by destruct Hsome. }
    destruct (find_backup_Some backup_dirs (profile_path name) dir Hdir Hsome)
      as [data ->].
    exists data. split; [done|]. apply found_load_data.
Qed.

End backend_listing.

(** ** The history file *)

Section persistence.
Import app.

Lemma setdefault_has (key : string) (v : json) (d : list (string * json)) :
  dict.has key (setdefault key v d) = true.
Proof.
  unfold setdefault. destruct (dict.has key d) eqn:H; [done|].
  unfold dict.has. by rewrite dict_get_set_eq.
Qed.

Lemma setdefault_keeps (key k : string) (v x : json) (d : list (string * json)) :
  dict.get k d = Some x → dict.get k (setdefault key v d) = Some x.
Proof.
  intros Hk. unfold setdefault. destruct (dict.has key d) eqn:H; [done|].
  rewrite dict_get_set_ne; [done|]. intros ->.
  unfold dict.has in H. by rewrite Hk in H.
Qed.

Lemma setdefault_has_keeps (key k : string) (v : json) (d : list (string * json)) :
  dict.has k d = true → dict.has k (setdefault key v d) = true.
Proof.
  unfold dict.has at 1. destruct (dict.get k d) as [x|] eqn:Hk; [|done]. intros _.
  unfold dict.has. by rewrite (setdefault_keeps key k v x).
Qed.

Lemma setdefault_present (key : string) (v : json) (d : list (string * json)) :
  dict.has key d = true → setdefault key v d = d.
Proof. unfold setdefault. by intros ->. Qed.

Lemma with_required_fields_complete (e : env) (k : nat) (d : list (string * json)) :
  complete (JObj (with_required_fields e k d)) = true.
Proof.
  unfold complete, with_required_fields, history_fields. cbn [forallb].
  repeat (apply andb_true_intro; split); try done;
    repeat first [apply setdefault_has | apply setdefault_has_keeps].
Qed.

Lemma with_required_fields_keeps (e : env) (k : nat) (d : list (string * json))
    (key : string) (x : json) :
  dict.get key d = Some x → dict.get key (with_required_fields e k d) = Some x.
Proof. intros H. unfold with_required_fields. do 6 apply setdefault_keeps. exact H. Qed.

Lemma complete_fields (d : list (string * json)) :
  complete (JObj d) = true →
  dict.has "id" d = true ∧ dict.has "timestamp" d = true ∧
  dict.has "job_title" d = true ∧ dict.has "company" d = true ∧
  dict.has "job_description" d = true ∧ dict.has "resume" d = true.
Proof.
  unfold complete, history_fields. cbn [forallb]. rewrite !andb_true_iff. tauto.
Qed.

Lemma with_required_fields_fixed (e : env) (k : nat) (d : list (string * json)) :
  complete (JObj d) = true → with_required_fields e k d = d.
Proof.
  intros H. apply complete_fields in H as (H1 & H2 & H3 & H4 & H5 & H6).
  unfold with_required_fields.
  rewrite (setdefault_present "id"), (setdefault_present "timestamp"),
    (setdefault_present "job_title"), (setdefault_present "company"),
    (setdefault_present "job_description"), (setdefault_present "resume") by done.
  done.
Qed.

Lemma item_to_save_fixed (e : env) (i : nat) (item : json) :
  complete item = true → item_to_save e i item = item.
Proof.
  destruct item as [| | | | | |d]; try done. intros H.
  apply complete_fields in H as (H1 & H2 & H3 & H4 & H5 & H6).
  unfold item_to_save.
  rewrite (setdefault_present "id"), (setdefault_present "timestamp"),
    (setdefault_present "job_title"), (setdefault_present "company"),
    (setdefault_present "job_description") by done.
  done.
Qed.

Lemma ensure_fields_fixed (e : env) (k : nat) (history : list json) :
  Forall (λ item, complete item = true) history → ensure_fields e k history = history.
Proof.
  intros H. revert k. induction H as [|item history Hitem _ IH]; intros k; [done|].
  destruct item as [| | | | | |d]; try done.
  cbn [ensure_fields]. by rewrite with_required_fields_fixed, IH.
Qed.

Lemma saved_fixed (e : env) (history : list json) :
  Forall (λ item, complete item = true) history →
  imap (item_to_save e) (filter (λ x, is_dict x = true) history) = history.
Proof.
  intros H. assert (filter (λ x, is_dict x = true) history = history) as ->.
  { induction H as [|item history Hitem _ IH]; [done|].
    rewrite filter_cons_True; [by rewrite IH|]. by destruct item. }
  apply list_eq. intros i. rewrite list_lookup_imap.
  destruct (history !! i) as [item|] eqn:Hi; [|done]. cbn.
  rewrite item_to_save_fixed; [done|].
  by eapply (proj1 (Forall_lookup _ _) H).
Qed.

(** What [load_resume_history] returns for a file that holds a list: the
    entries of the file in their order, each dictionary completed with the
    six fields, its own fields kept; what is not a dictionary is left as
    it is. *)
Theorem load_resume_history_fields (e : env) (history : list json) :
  ∃ loaded,
    load_resume_history e (document (JArr history)) = JArr loaded ∧
    Forall2 (λ item item',
               match item with
               | JObj d =>
                   ∃ d', item' = JObj d' ∧ complete item' = true ∧
                         ∀ key x, dict.get key d = Some x → dict.get key d' = Some x
               | _ => item' = item
               end) history loaded.
Proof.
  exists (ensure_fields e 0 history). split; [done|].
  generalize 0. induction history as [|item history IH]; intros k; [constructor|].
  destruct item as [| | | | | |d]; cbn [ensure_fields]; constructor; try done.
  exists (with_required_fields e k d). split; [done|].
  split; [apply with_required_fields_complete|]. intros key x.
  apply with_required_fields_keeps.
Qed.

(** The history persists.  When every entry of the session has the six
    fields, as the entries made by [add_to_history] do, and the file can be
    written, then after [add_to_history] the file holds the history of the
    session: [load_resume_history] gives it back, entry by entry, and every
    entry still has the six fields.  When the file cannot be written but
    the fallback can, the file holds the empty history. *)
Theorem history_persists (st : state) (a : append) (e : env) :
  Forall (λ item, complete item = true) (default [] (resume_history st)) →
  let st' := apply_append st a in
  Forall (λ item, complete item = true) (default [] (resume_history st')) ∧
  (write_ok (a_env a) = true →
   load_resume_history e (as_file (history_file st'))
   = JArr (default [] (resume_history st'))) ∧
  (write_ok (a_env a) = false → fallback_ok (a_env a) = true →
   load_resume_history e (as_file (history_file st')) = JArr []).
Proof.
  intros Hst st'. subst st'. rewrite add_to_history_history. cbn [default from_option id].
  assert (Forall (λ item, complete item = true)
            (entry_of a :: take 19 (default [] (resume_history st)))) as Hall.
  { constructor; [done|]. by apply Forall_take. }
  split; [done|].
  unfold apply_append, add_to_history, save_resume_history.
  cbn [resume_history current_resume_index history_file].
  change (take 20 (new_entry (a_env a) (a_resume a) (a_job_description a) (a_company a) (a_title a)
                   :: default [] (resume_history st)))
    with (entry_of a :: take 19 (default [] (resume_history st))).
  split.
  - intros ->. cbn [history_file as_file load_resume_history].
    rewrite saved_fixed by done. by rewrite ensure_fields_fixed.
  - intros -> ->. done.
Qed.

Lemma history_persists_witness :
  load_resume_history sample_env
    (as_file (history_file (apply_append (mk_state None (-1) None) sample_append)))
  = JArr [entry_of sample_append].
Proof.
  apply (proj1 (proj2 (history_persists (mk_state None (-1) None) sample_append sample_env
                         (Forall_nil_2 _)))).
  reflexivity.
Defined.

End persistence.

(** ** The routes of the API *)

Section api.
Import profile_manager backend_main.


(** [POST /api/profiles] followed by [GET].  A profile that validates is
    written to the file of the cleaned name, whatever file was there.
    When that file opens, the response names the cleaned name; getting the
    profile under that name gives the dumped profile back, and posting it
    once more changes nothing.  When the file does not open, and when the
    profile does not validate, the response is 500 with the text of the
    exception and the directory is left as it was. *)
Theorem post_then_get_profile (open_error : string → option exn)
    (store : gmap string json)
    (backup_dirs : list (gmap string json)) (profile_name : string)
    (profile : list (string * json)) :
  match validate (JObj profile) with
  | Ok p =>
      let path := profile_path (clean profile_name) in
      let store' := <[path := model_dump p]> store in
      let saved := Reply (JObj [("message", JStr "Profile saved successfully");
                                ("profile_name", JStr (clean profile_name))]) in
      match open_error path with
      | None =>
          create_profile open_error store profile_name profile = Some (store', saved) ∧
          get_profile store' backup_dirs (clean profile_name)
          = Reply (JObj [("profile", model_dump p)]) ∧
          create_profile open_error store' profile_name profile = Some (store', saved)
      | Some e =>
          create_profile open_error store profile_name profile
          = Some (store, HTTPException 500 (str_of e))
      end
  | Raise e =>
      create_profile open_error store profile_name profile
      = Some (store, HTTPException 500 (str_of e))
  end.
Proof.
  unfold create_profile. destruct (validate (JObj profile)) as [p|e]; [|done].
  cbn zeta. unfold backend_profile_manager.create_profile.
  rewrite !create_profile_plain by by right. unfold written.
  destruct (open_error (profile_path (clean profile_name))) as [e|]; [done|].
  cbn. rewrite insert_insert_eq.
  split; [done|]. split; [|done].
  unfold get_profile, backend_profile_manager.load_profile.
  by rewrite lookup_insert_eq, load_data_model_dump.
Qed.

Lemma post_then_get_profile_witness :
  create_profile no_subdirectory ∅ "a/b" [] 
  = Some (∅, HTTPException 500
               (str_of (FileNotFoundError
                          "[Errno 2] No such file or directory: 'profiles/a/b.json'"))) ∧
  create_profile no_subdirectory ∅ " cv. " []
  = Some (<["cv.json" := model_dump UserProfile.default]> ∅,
          Reply (JObj [("message", JStr "Profile saved successfully");
                       ("profile_name", JStr "cv")])).
Proof.
  split.
  - exact (post_then_get_profile no_subdirectory ∅ [] "a/b" []).
  - exact (proj1 (post_then_get_profile no_subdirectory ∅ [] " cv. " [])).
Defined.


Lemma slice_from_length (k : nat) (s : string) :
  String.length (Py.slice_from k s) = String.length s - k.
Proof.
  revert k. induction s as [|c s IH]; intros [|k]; try done. cbn. apply IH.
Qed.

(** [GET /api/api-key/status] after a key has been saved.  The key counts
    as configured unless it is empty, and the masked key shows its last
    four characters, all of it when it has no more than four, and nothing
    else of it: two keys that end in the same four characters are
    masked alike. *)
Theorem check_api_key_masked (config : file) (api_key : string) :
  let saved := (set_api_key true config api_key).1 in
  check_api_key saved
  = Reply (if String.eqb api_key ""
           then JObj [("configured", JBool false); ("masked_key", JNull)]
           else JObj [("configured", JBool true);
                      ("masked_key", JStr ("sk-ant-..." +:+ Py.slice_last 4 api_key))]) ∧
  String.length (Py.slice_last 4 api_key) = min 4 (String.length api_key) ∧
  (∃ hidden, api_key = hidden +:+ Py.slice_last 4 api_key) ∧
  ∀ other,
    other ≠ "" → api_key ≠ "" → Py.slice_last 4 other = Py.slice_last 4 api_key →
    check_api_key (set_api_key true config other).1 = check_api_key saved.
Proof.
  assert (∀ key, check_api_key (set_api_key true config key).1
                 = Reply (if String.eqb key ""
                          then JObj [("configured", JBool false); ("masked_key", JNull)]
                          else JObj [("configured", JBool true);
                                     ("masked_key",
                                      JStr ("sk-ant-..." +:+ Py.slice_last 4 key))]))
    as Hcheck.
  { intros key. unfold check_api_key. cbn. by destruct (String.eqb key ""). }
  cbn zeta. split; [apply Hcheck|]. split; [|split].
  - unfold Py.slice_last. rewrite slice_from_length. lia.
  - exists (Py.slice_to (String.length api_key - 4) api_key). unfold Py.slice_last.
    by rewrite slice_to_from.
  - intros other Ho Hk Hlast. rewrite !Hcheck.
    apply String.eqb_neq in Ho, Hk. by rewrite Ho, Hk, Hlast.
Qed.

End api.

(** ** The generation of a resume *)

Section tailoring.
Import resume_generator profile_manager ResumeGenerator.

Variable repr : json → string.
Variable dict_slice_error : exn.
Variable service : request → result string.

Lemma run_bind {A B} (p : prog A) (f : A → prog B) (log : list request) :
  run service (p ≫= f) log
  = match run service p log with
    | (log', Ok a) => run service (f a) log'
    | (log', Raise e) => (log', Raise e)
    end.
Proof.
  revert log. induction p as [a|e|req k IH]; intros log; try done.
  cbn. destruct (service req) as [text|e]; [apply IH | done].
Qed.

Lemma run_lift {A} (r : result A) (log : list request) :
  run service (lift r) log = (log, r).
Proof. by destruct r. Qed.

Lemma run_call (tokens : nat) (temp sys prompt : string) (log : list request) :
  run service (call tokens temp sys prompt) log
  = (log ++ [mk_request "claude-sonnet-4-5" tokens temp sys prompt],
     service (mk_request "claude-sonnet-4-5" tokens temp sys prompt)).
Proof. unfold call. cbn. by destruct (service _). Qed.

Lemma run_ret {A} (a : A) (log : list request) : run service (mret a) log = (log, Ok a).
Proof. done. Qed.

Lemma truncate_value_short (v truncated : json) :
  truncate_value v = Ok truncated → short_bullets truncated.
Proof.
  unfold truncate_value. intros H.
  apply bind_Ok_inv in H as (items & _ & H).
  apply bind_Ok_inv in H as (bullets & _ & [= <-]).
  eexists. split; [done|]. unfold truncate_bullets_to_25_words.
  apply Forall_fmap, Forall_true. intros b. apply truncate_bullet_ceiling.
Qed.

(** What [truncate_key] returns: a dictionary, with the value of the key
    cut to 25 words a bullet if it has the key. *)
Lemma truncate_key_inv (key : string) (res res' : json) :
  truncate_key key res = Ok res' →
  (∃ d, res = JObj d ∧ dict.get key d = None ∧ res' = res)
  ∨ (∃ d truncated, res = JObj d ∧ res' = JObj (dict.set key truncated d) ∧
                    short_bullets truncated)
  ∨ (∀ d, res ≠ JObj d) ∧ res' = res.
Proof.
  unfold truncate_key. intros H.
  apply bind_Ok_inv in H as (present & Hin & H). destruct present.
  - apply bind_Ok_inv in H as (v & Hv & H).
    apply bind_Ok_inv in H as (truncated & Ht & H).
    destruct res as [| | | | | |d]; try done. inversion H; subst.
    right. left. exists d, truncated. split; [done|]. split; [done|].
    by eapply truncate_value_short.
  - inversion H; subst. destruct res' as [| | | | | |d];
      try (right; right; by split).
    left. exists d. split; [done|]. split; [|done].
    cbn in Hin. unfold dict.has in Hin. by destruct (dict.get key d).
Qed.

Lemma tailored_experience_inv (exp : Experience.t) (res entry : json) :
  tailored_experience exp res = Ok entry →
  tailored_from exp entry.
Proof.
  unfold tailored_experience, tailored_from. intros H.
  apply bind_Ok_inv in H as (res' & Hres & H).
  apply bind_Ok_inv in H as (description & Hd & H).
  apply bind_Ok_inv in H as (skills_used & Hs & [= <-]).
  exists description, skills_used. split; [done|]. split.
  - apply truncate_key_inv in Hres
      as [(d & -> & Hnone & ->)|[(d & truncated & -> & -> & Hshort)|[Hno ->]]].
    + left. cbn in Hd. rewrite Hnone in Hd. by inversion Hd.
    + right. cbn in Hd. rewrite dict_get_set_eq in Hd. inversion Hd; by subst.
    + destruct res as [| | | | | |d]; try done. by destruct (Hno d eq_refl).
  - intros Hskills. unfold has_skills in Hs.
    destruct (Experience.skills_used exp); [done|]. by inversion Hs.
Qed.

(** One turn of the loop of [_tailor_experiences]. *)
Lemma tailor_experiences_step (i : nat) (exp : Experience.t) (rest : list Experience.t)
    (jd_analysis : json) (extra_knowledge : option string)
    (counts : option (gmap Z Z)) (log : list request) :
  run service
    (tailor_experiences_from repr i (exp :: rest) jd_analysis extra_knowledge counts) log
  = match experience_prompt repr exp jd_analysis extra_knowledge (desired_bullets counts i) with
    | Raise e => (log, Raise e)
    | Ok prompt =>
        match service (experience_request prompt) with
        | Raise e => (log ++ [experience_request prompt], Raise e)
        | Ok text =>
            match extract_json_from_text text ≫= tailored_experience exp with
            | Raise e => (log ++ [experience_request prompt], Raise e)
            | Ok entry =>
                match run service
                        (tailor_experiences_from repr (S i) rest jd_analysis
                           extra_knowledge counts)
                        (log ++ [experience_request prompt]) with
                | (log', Ok tailored) => (log', Ok (entry :: tailored))
                | (log', Raise e) => (log', Raise e)
                end
            end
        end
    end.
Proof.
  cbn [tailor_experiences_from]. rewrite run_bind, run_lift.
  destruct (experience_prompt _ _ _ _ _) as [prompt|e]; [|done].
  rewrite run_bind, run_call. fold (experience_request prompt).
  destruct (service (experience_request prompt)) as [text|e]; [|done].
  rewrite run_bind, run_lift.
  destruct (extract_json_from_text text ≫= tailored_experience exp) as [entry|e]; [|done].
  rewrite run_bind.
  destruct (run service _ (log ++ [experience_request prompt])) as [log' [tailored|e]];
    done.
Qed.

Lemma tailor_experiences_loop (experience : list Experience.t) (i : nat)
    (jd_analysis : json) (extra_knowledge : option string)
    (counts : option (gmap Z Z)) (log : list request) :
  ∃ reqs,
    (run service
       (tailor_experiences_from repr i experience jd_analysis extra_knowledge counts)
       log).1 = log ++ reqs ∧
    Forall for_experience reqs ∧
    match (run service
             (tailor_experiences_from repr i experience jd_analysis extra_knowledge
                counts) log).2 with
    | Ok tailored =>
        length reqs = length experience ∧ Forall2 tailored_from experience tailored
    | Raise _ => length reqs ≤ length experience
    end.
Proof.
  revert i log. induction experience as [|exp rest IH]; intros i log.
  { exists []. rewrite (right_id_L [] (++)). by repeat split. }
  rewrite tailor_experiences_step.
  destruct (experience_prompt _ _ _ _ _) as [prompt|e].
  2: { exists []. rewrite (right_id_L [] (++)). repeat split; [done|]. cbn. lia. }
  destruct (service (experience_request prompt)) as [text|e].
  2: { exists [experience_request prompt]. repeat split; [by repeat constructor|].
       cbn. lia. }
  destruct (extract_json_from_text text ≫= tailored_experience exp) as [entry|e] eqn:He.
  2: { exists [experience_request prompt]. repeat split; [by repeat constructor|].
       cbn. lia. }
  destruct (IH (S i) (log ++ [experience_request prompt])) as (reqs & Hlog & Hreqs & Hres).
  destruct (run service _ (log ++ [experience_request prompt])) as [log' [tailored|e]].
  - cbn in *. exists (experience_request prompt :: reqs).
    split; [by rewrite Hlog, <- (assoc_L (++))|].
    split; [by constructor|]. destruct Hres as [Hlen Hall].
    split; [cbn; lia|]. constructor; [|done].
    apply bind_Ok_inv in He as (res & _ & He). by eapply tailored_experience_inv.
  - cbn in *. exists (experience_request prompt :: reqs).
    split; [by rewrite Hlog, <- (assoc_L (++))|].
    split; [by constructor|]. cbn. lia.
Qed.

(** [_tailor_experiences] calls the service at most once for each
    experience of the profile, and not at all for a profile without
    experience; when it returns, it has called once for each. *)
Theorem tailor_experiences_calls (profile : UserProfile.t) (jd_analysis : json)
    (extra_knowledge : option string) (counts : option (gmap Z Z))
    (log : list request) :
  let outcome :=
    run service (_tailor_experiences repr profile jd_analysis extra_knowledge counts)
      log in
  ∃ reqs,
    outcome.1 = log ++ reqs ∧
    Forall for_experience reqs ∧
    length reqs ≤ length (UserProfile.experience profile) ∧
    (is_ok outcome.2 = true → length reqs = length (UserProfile.experience profile)) ∧
    (UserProfile.experience profile = [] → outcome = (log, Ok [])).
Proof.
  cbn zeta. unfold _tailor_experiences.
  destruct (tailor_experiences_loop (UserProfile.experience profile) 0 jd_analysis
              extra_knowledge counts log) as (reqs & Hlog & Hreqs & Hres).
  exists reqs. split; [done|]. split; [done|].
  split; [|split].
  - destruct (run service _ log) as [log' [tailored|e]]; cbn in *; [|done].
    destruct Hres as [Hlen _]. lia.
  - destruct (run service _ log) as [log' [tailored|e]]; cbn in *; [|done].
    by destruct Hres.
  - intros Hnone. by rewrite Hnone.
Qed.

(** When [_tailor_experiences] returns, its entries are those of the
    experiences of the profile, one for one and in order: title, company,
    location and dates are the profile's; the bullets are the profile's
    own or bullets of at most 25 words; skills that the profile names are
    kept as they are. *)
Theorem tailor_experiences_entries (profile : UserProfile.t) (jd_analysis : json)
    (extra_knowledge : option string) (counts : option (gmap Z Z))
    (log log' : list request) (tailored : list json) :
  run service (_tailor_experiences repr profile jd_analysis extra_knowledge counts) log
  = (log', Ok tailored) →
  Forall2 tailored_from (UserProfile.experience profile) tailored.
Proof.
  intros Hrun. unfold _tailor_experiences in Hrun.
  destruct (tailor_experiences_loop (UserProfile.experience profile) 0 jd_analysis
              extra_knowledge counts log) as (reqs & _ & _ & Hres).
  rewrite Hrun in Hres. by destruct Hres.
Qed.

Lemma generated_project_inv (project : Project.t) (res entry : json) :
  generated_project project res = Ok entry →
  ∃ description technologies achievements,
    entry = project_entry project description technologies achievements ∧
    (achievements = dump_str_list (Project.achievements project)
     ∨ short_bullets achievements).
Proof.
  unfold generated_project. intros H.
  apply bind_Ok_inv in H as (res' & Hres & H).
  apply bind_Ok_inv in H as (description & _ & H).
  apply bind_Ok_inv in H as (technologies & _ & H).
  apply bind_Ok_inv in H as (achievements & Ha & [= <-]).
  exists description, technologies, achievements. split; [done|].
  apply truncate_key_inv in Hres
    as [(d & -> & Hnone & ->)|[(d & truncated & -> & -> & Hshort)|[Hno ->]]].
  - left. cbn in Ha. rewrite Hnone in Ha. by inversion Ha.
  - right. cbn in Ha. rewrite dict_get_set_eq in Ha. inversion Ha; by subst.
  - destruct res as [| | | | | |d]; try done. by destruct (Hno d eq_refl).
Qed.

Lemma existing_project_entry (project : Project.t) :
  existing_project project
  = project_entry project (JStr (Project.description project))
      (dump_str_list (Project.technologies project))
      (dump_str_list (truncate_bullets_to_25_words (Project.achievements project))).
Proof.
  unfold existing_project, project_entry.
  destruct (Project.achievements project) eqn:E; [|done].
  unfold dump_project. by rewrite E.
Qed.

Lemma tailor_projects_step (project : Project.t) (rest : list Project.t)
    (jd_analysis : json) (extra_knowledge : option string) (log : list request) :
  run service (tailor_projects_loop (project :: rest) jd_analysis extra_knowledge) log
  = let continue entry log1 :=
      match run service (tailor_projects_loop rest jd_analysis extra_knowledge) log1 with
      | (log', Ok tailored) => (log', Ok (entry :: tailored))
      | (log', Raise e) => (log', Raise e)
      end in
    if needs_generation project then
      match generation_prompt project jd_analysis extra_knowledge with
      | Raise e => (log, Raise e)
      | Ok prompt =>
          match service (project_request prompt) with
          | Raise e => (log ++ [project_request prompt], Raise e)
          | Ok text =>
              match extract_json_from_text text ≫= generated_project project with
              | Raise e => (log ++ [project_request prompt], Raise e)
              | Ok entry => continue entry (log ++ [project_request prompt])
              end
          end
      end
    else continue (existing_project project) log.
Proof.
  cbn [tailor_projects_loop]. rewrite run_bind. cbn zeta.
  destruct (needs_generation project).
  - rewrite run_bind, run_lift.
    destruct (generation_prompt project jd_analysis extra_knowledge) as [prompt|e];
      [|done].
    rewrite run_bind, run_call. fold (project_request prompt).
    destruct (service (project_request prompt)) as [text|e]; [|done].
    rewrite run_lift.
    destruct (extract_json_from_text text ≫= generated_project project) as [entry|e];
      [|done].
    rewrite run_bind.
    by destruct (run service _ (log ++ [project_request prompt])) as [log' [t|e]].
  - rewrite run_ret, run_bind.
    by destruct (run service _ log) as [log' [t|e]].
Qed.

Lemma tailor_projects_run (projects : list Project.t) (jd_analysis : json)
    (extra_knowledge : option string) (log : list request) :
  ∃ reqs,
    (run service (tailor_projects_loop projects jd_analysis extra_knowledge) log).1
    = log ++ reqs ∧
    Forall for_project reqs ∧
    match (run service (tailor_projects_loop projects jd_analysis extra_knowledge) log).2
    with
    | Ok tailored =>
        length reqs = length (filter (λ p, needs_generation p = true) projects) ∧
        Forall2 tailored_project projects tailored
    | Raise _ => length reqs ≤ length (filter (λ p, needs_generation p = true) projects)
    end.
Proof.
  revert log. induction projects as [|project rest IH]; intros log.
  { exists []. rewrite (right_id_L [] (++)). by repeat split. }
  rewrite tailor_projects_step. cbn zeta.
  destruct (needs_generation project) eqn:Hneeds.
  - rewrite filter_cons_True by done.
    destruct (generation_prompt project jd_analysis extra_knowledge) as [prompt|e].
    2: { exists []. rewrite (right_id_L [] (++)). repeat split; [done|]. cbn. lia. }
    destruct (service (project_request prompt)) as [text|e].
    2: { exists [project_request prompt]. repeat split; [by repeat constructor|].
         cbn. lia. }
    destruct (extract_json_from_text text ≫= generated_project project)
      as [entry|e] eqn:He.
    2: { exists [project_request prompt]. repeat split; [by repeat constructor|].
         cbn. lia. }
    destruct (IH (log ++ [project_request prompt])) as (reqs & Hlog & Hreqs & Hres).
    destruct (run service _ (log ++ [project_request prompt])) as [log' [tailored|e]];
      cbn in *; exists (project_request prompt :: reqs);
      (split; [by rewrite Hlog, <- (assoc_L (++))|]);
      (split; [constructor; [by repeat split|done]|]); [|cbn [length]; lia].
    destruct Hres as [Hlen Hall]. split; [cbn [length]; lia|]. constructor; [|done].
    unfold tailored_project. rewrite Hneeds.
    apply bind_Ok_inv in He as (res & _ & He). by eapply generated_project_inv.
  - rewrite filter_cons_False by by rewrite Hneeds.
    destruct (IH log) as (reqs & Hlog & Hreqs & Hres).
    destruct (run service _ log) as [log' [tailored|e]]; cbn in *; exists reqs;
      (split; [done|]); (split; [done|]); [|done].
    destruct Hres as [Hlen Hall]. split; [done|]. constructor; [|done].
    unfold tailored_project. rewrite Hneeds. apply existing_project_entry.
Qed.

Lemma tailor_projects_complete (projects : list Project.t) (jd_analysis : json)
    (extra_knowledge : option string) (log : list request) :
  filter (λ p, needs_generation p = true) projects = [] →
  run service (tailor_projects_loop projects jd_analysis extra_knowledge) log
  = (log, Ok (existing_project <$> projects)).
Proof.
  induction projects as [|project rest IH]; [done|].
  intros Hnone. rewrite tailor_projects_step. cbn zeta.
  destruct (needs_generation project) eqn:Hneeds.
  - by rewrite filter_cons_True in Hnone.
  - rewrite filter_cons_False in Hnone by by rewrite Hneeds.
    by rewrite (IH Hnone).
Qed.

(** [_tailor_projects] enters the first three projects of the profile, in
    order.  It calls the service only for those of them that lack
    technologies or a description, at most once each and once each when it
    returns; when none of the three lacks them it makes no call and returns
    their own data, the achievements cut to 25 words. *)
Theorem tailor_projects_spec (profile : UserProfile.t) (jd_analysis : json)
    (extra_knowledge : option string) (log : list request) :
  let outcome :=
    run service (_tailor_projects profile jd_analysis extra_knowledge) log in
  ∃ reqs,
    outcome.1 = log ++ reqs ∧
    Forall for_project reqs ∧
    length reqs ≤ length (to_generate profile) ∧
    (∀ tailored, outcome.2 = Ok tailored →
       length reqs = length (to_generate profile) ∧
       Forall2 tailored_project (take 3 (UserProfile.projects profile)) tailored) ∧
    (to_generate profile = [] →
       outcome = (log, Ok (existing_project
                             <$> take 3 (UserProfile.projects profile)))).
Proof.
  cbn zeta. unfold _tailor_projects, to_generate.
  destruct (tailor_projects_run (take 3 (UserProfile.projects profile)) jd_analysis
              extra_knowledge log) as (reqs & Hlog & Hreqs & Hres).
  exists reqs. split; [done|]. split; [done|].
  split; [|split; [|apply tailor_projects_complete]].
  - destruct (run service _ log) as [log' [tailored|e]]; cbn in *; lia.
  - intros tailored Hok. by rewrite Hok in Hres.
Qed.

Lemma run_bind_Ok {A B} (p : prog A) (f : A → prog B) (log log' : list request) (b : B) :
  run service (p ≫= f) log = (log', Ok b) →
  ∃ a log1, run service p log = (log1, Ok a) ∧ run service (f a) log1 = (log', Ok b).
Proof.
  rewrite run_bind. destruct (run service p log) as [log1 [a|e]]; [eauto|done].
Qed.

Lemma analyze_job_description_run (job_description : string) (log : list request) :
  run service (_analyze_job_description job_description) log
  = (log ++ [analysis_request job_description],
     service (analysis_request job_description) ≫= extract_json_from_text).
Proof.
  unfold _analyze_job_description. rewrite run_bind, run_call.
  fold (analysis_request job_description).
  destruct (service (analysis_request job_description)) as [text|e]; [|done].
  by rewrite run_lift.
Qed.

Lemma generate_summary_run (profile : UserProfile.t) (jd_analysis : json)
    (log log' : list request) (summary : string) :
  run service (_generate_summary dict_slice_error profile jd_analysis) log
  = (log', Ok summary) →
  ∃ req, log' = log ++ [req].
Proof.
  unfold _generate_summary. cbn zeta. rewrite run_bind, run_lift.
  destruct (_ ≫= _) as [prompt|e]; [|done].
  rewrite run_bind, run_call.
  destruct (service _) as [text|e]; [|done].
  rewrite run_ret. intros [= <- _]. by eexists.
Qed.

Lemma generate_skills_run (profile : UserProfile.t) (jd_analysis : json)
    (log log' : list request) (skills : json) :
  run service (_generate_skills profile jd_analysis) log = (log', Ok skills) →
  ∃ req technical languages tools,
    log' = log ++ [req] ∧
    skills = JObj [("technical", technical); ("languages", languages);
                   ("tools", tools)].
Proof.
  unfold _generate_skills. rewrite run_bind, run_lift.
  destruct (_ ≫= _) as [prompt|e]; [|done].
  rewrite run_bind, run_call.
  destruct (service _) as [text|e]; [|done].
  rewrite run_lift. intros [= <- H].
  apply bind_Ok_inv in H as (res & _ & H).
  apply bind_Ok_inv in H as (technical & _ & H).
  apply bind_Ok_inv in H as (languages & _ & H).
  apply bind_Ok_inv in H as (tools & _ & [= <-]).
  by eexists _, technical, languages, tools.
Qed.

(** When [generate_tailored_resume] returns, the record has the personal
    data, the education, the certifications and the awards of the profile
    as they are, an entry for each experience and for each of the first
    three projects, and skills under exactly the keys technical, languages
    and tools.  The service has been called first with the analysis of the
    job description, and in all three times, once for each experience and
    once for each of the three projects that lacks technologies or a
    description. *)
Theorem generate_tailored_resume_spec (profile : UserProfile.t)
    (job_description : string) (extra_knowledge : option string)
    (counts : option (gmap Z Z)) (log log' : list request) (resume : json) :
  run service
    (generate_tailored_resume repr dict_slice_error profile job_description
       extra_knowledge counts) log
  = (log', Ok resume) →
  ∃ jd_analysis summary experiences projects technical languages tools reqs,
    resume = tailored_resume profile jd_analysis summary experiences projects
               technical languages tools ∧
    Forall2 tailored_from (UserProfile.experience profile) experiences ∧
    Forall2 tailored_project (take 3 (UserProfile.projects profile)) projects ∧
    log' = log ++ analysis_request job_description :: reqs ∧
    length reqs = 2 + length (UserProfile.experience profile)
                  + length (to_generate profile).
Proof.
  unfold generate_tailored_resume. intros H.
  apply run_bind_Ok in H as (jd_analysis & log1 & H1 & H).
  apply run_bind_Ok in H as (summary & log2 & H2 & H).
  apply run_bind_Ok in H as (experiences & log3 & H3 & H).
  apply run_bind_Ok in H as (projects & log4 & H4 & H).
  apply run_bind_Ok in H as (skills & log5 & H5 & H).
  rewrite run_ret in H. injection H as <- <-.
  rewrite analyze_job_description_run in H1. injection H1 as <- _.
  apply generate_summary_run in H2 as (req2 & ->).
  apply generate_skills_run in H5 as (req5 & technical & languages & tools & -> & ->).
  unfold _tailor_experiences in H3.
  destruct (tailor_experiences_loop (UserProfile.experience profile) 0 jd_analysis
              extra_knowledge counts
              ((log ++ [analysis_request job_description]) ++ [req2]))
    as (reqs3 & Hlog3 & _ & Hres3).
  rewrite H3 in Hlog3, Hres3. cbn in Hlog3, Hres3. destruct Hres3 as [Hlen3 Hall3].
  unfold _tailor_projects in H4.
  destruct (tailor_projects_run (take 3 (UserProfile.projects profile)) jd_analysis
              extra_knowledge log3) as (reqs4 & Hlog4 & _ & Hres4).
  rewrite H4 in Hlog4, Hres4. cbn in Hlog4, Hres4. destruct Hres4 as [Hlen4 Hall4].
  exists jd_analysis, summary, experiences, projects, technical, languages, tools,
    (req2 :: reqs3 ++ reqs4 ++ [req5]).
  split; [done|]. split; [done|]. split; [done|]. split.
  - subst. by rewrite <- !(assoc_L (++)).
  - cbn [length]. rewrite !length_app. cbn [length]. unfold to_generate. lia.
Qed.
End tailoring.

Lemma tailor_experiences_entries_witness :
  Forall2 tailored_from (UserProfile.experience sample_profile)
    [experience_entry (Experience.mk "Engineer" "Acme" "Paris" "2020" "2024" ["Built it"] [])
       (JArr [JStr "Led the team"]) (JArr [])].
Proof.
  apply (tailor_experiences_entries sample_repr bullets_service sample_profile (JObj [])
           None None []
           (run bullets_service
              (ResumeGenerator._tailor_experiences sample_repr sample_profile (JObj [])
                 None None) []).1).
  vm_compute. reflexivity.
Defined.

Lemma generate_tailored_resume_witness :
  ∃ jd_analysis summary experiences projects technical languages tools reqs,
    sample_tailored
    = tailored_resume sample_profile jd_analysis summary experiences projects
        technical languages tools ∧
    Forall2 tailored_from (UserProfile.experience sample_profile) experiences ∧
    Forall2 tailored_project (take 3 (UserProfile.projects sample_profile)) projects ∧
    (run bullets_service
       (ResumeGenerator.generate_tailored_resume sample_repr TypeError sample_profile
          "Rust engineer" None None) []).1
    = [] ++ analysis_request "Rust engineer" :: reqs ∧
    length reqs = 2 + length (UserProfile.experience sample_profile)
                  + length (to_generate sample_profile).
Proof.
  apply (generate_tailored_resume_spec sample_repr TypeError bullets_service
           sample_profile "Rust engineer" None None []).
  vm_compute. reflexivity.
Defined.

Section route.
Import profile_manager backend_main.

Variable repr : json → string.
Variable dict_slice_error : exn.
Variable service : request → result string.

Lemma on_error_status (profile_name : string) (e : exn) :
  ∃ code d, on_error profile_name e = HTTPException code d ∧ (code = 404 ∨ code = 500).
Proof. destruct e; eexists _, _; (split; [done|]); auto. Qed.

(** [POST /api/generate-resume] never answers with status 400 and no
    exception leaves it: what it answers is the resume or an
    [HTTPException] of status 404 or 500.  Without a configured key it
    answers 500, the detail being the text of the 400 exception it has
    raised itself, and when the key is missing or the profile cannot be
    loaded the service is not called. *)
Theorem generate_resume_status (env_key : option string) (config : file)
    (store : gmap string json) (backup_dirs : list (gmap string json))
    (profile_name job_description : string) (extra_knowledge : option string)
    (experience_bullet_counts : option (gmap Z Z)) :
  let outcome :=
    generate_resume repr dict_slice_error service env_key config store backup_dirs
      profile_name job_description extra_knowledge experience_bullet_counts in
  match outcome.2 with
  | Reply r => ∃ resume, r = JObj [("resume", resume)]
  | HTTPException code _ => code = 404 ∨ code = 500
  | Unhandled => False
  end ∧
  (truthy (load_api_key config) = false →
   outcome = ([], HTTPException 500 (str_of_http 400 (Text "API key not configured")))) ∧
  (is_ok (backend_profile_manager.load_profile store backup_dirs profile_name) = false →
   outcome.1 = []).
Proof.
  cbn zeta. unfold generate_resume.
  destruct (truthy (load_api_key config)); cbn [negb].
  2: { split; [by right|]. by split. }
  destruct (backend_profile_manager.load_profile store backup_dirs profile_name)
    as [profile|e].
  2: { split; [|by split].
       destruct (on_error_status profile_name e) as (code & d & -> & Hcode). done. }
  destruct (ResumeGenerator.__init__ _ _) as [key|e].
  2: { split; [|by split].
       destruct (on_error_status profile_name e) as (code & d & -> & Hcode). done. }
  destruct (run service _ []) as [log [resume|e]]; cbn.
  - split; [by eexists|]. by split.
  - split; [|by split].
    destruct (on_error_status profile_name e) as (code & d & -> & Hcode). done.
Qed.

End route.

Section story_result.
Import resume_generator.

Variable service : request → result string.

(** What one requested key adds to the result. *)
Lemma story_key_inv (key : string) (res : json) (filtered result : list (string * string)) :
  (v ← py_get key res;
   if truthy v then
     w ← py_index key res;
     t ← as_str w;
     mret (dict.set key (Py.strip t) filtered)
   else mret filtered) = Ok result →
  ∃ d, res = JObj d ∧
    (result = filtered ∧ truthy (default JNull (dict.get key d)) = false
     ∨ ∃ answer, dict.get key d = Some (JStr answer) ∧ answer ≠ "" ∧
                 result = dict.set key (Py.strip answer) filtered).
Proof.
  intros H. apply bind_Ok_inv in H as (v & Hv & H).
  destruct res as [| | | | | |d]; try done. exists d. split; [done|].
  cbn in Hv. injection Hv as <-.
  destruct (truthy (default JNull (dict.get key d))) eqn:Htruthy.
  - right. apply bind_Ok_inv in H as (w & Hw & H).
    apply bind_Ok_inv in H as (t & Ht & [= <-]).
    cbn in Hw. destruct (dict.get key d) as [x|]; [|done]. injection Hw as ->.
    destruct w; try done. injection Ht as ->. exists t. split; [done|]. split; [|done].
    intros ->. done.
  - left. by injection H as <-.
Qed.

Lemma filter_story_inv (include_why include_cover_letter : bool) (res : json)
    (result : list (string * string)) :
  filter_story include_why include_cover_letter res = Ok result →
  (include_why = false → dict.get "why_you_want_to_work_here" result = None) ∧
  (include_cover_letter = false → dict.get "cover_letter" result = None) ∧
  ∀ key value, dict.get key result = Some value →
    (key = "why_you_want_to_work_here" ∨ key = "cover_letter") ∧
    ∃ d answer, res = JObj d ∧ dict.get key d = Some (JStr answer) ∧ answer ≠ "" ∧
                value = Py.strip answer.
Proof.
  unfold filter_story. intros H.
  apply bind_Ok_inv in H as (filtered & Hwhy & Hcover).
  assert (filtered = [] ∧ (include_why = false ∨ ∃ d, res = JObj d ∧
            truthy (default JNull (dict.get "why_you_want_to_work_here" d)) = false)
          ∨ include_why = true ∧
            ∃ d answer, res = JObj d ∧
              dict.get "why_you_want_to_work_here" d = Some (JStr answer) ∧
              answer ≠ "" ∧
              filtered = [("why_you_want_to_work_here", Py.strip answer)])
    as Hfiltered.
  { destruct include_why.
    - apply story_key_inv in Hwhy as (d & -> & [[-> Hno]|(answer & Hget & Hne & ->)]).
      + left. split; [done|]. right. by exists d.
      + right. split; [done|]. by exists d, answer.
    - injection Hwhy as <-. left. split; [done|]. by left. }
  assert (result = filtered ∧ (include_cover_letter = false ∨ ∃ d, res = JObj d ∧
            truthy (default JNull (dict.get "cover_letter" d)) = false)
          ∨ include_cover_letter = true ∧
            ∃ d answer, res = JObj d ∧
              dict.get "cover_letter" d = Some (JStr answer) ∧ answer ≠ "" ∧
              result = dict.set "cover_letter" (Py.strip answer) filtered)
    as Hresult.
  { destruct include_cover_letter.
    - apply story_key_inv in Hcover as (d & -> & [[-> Hno]|(answer & Hget & Hne & ->)]).
      + left. split; [done|]. right. by exists d.
      + right. split; [done|]. by exists d, answer.
    - injection Hcover as <-. left. split; [done|]. by left. }
  clear Hwhy Hcover.
  destruct Hfiltered as [[-> Hw]|(-> & d & answer & -> & Hget & Hne & ->)];
    destruct Hresult as [[-> Hc]|(-> & d' & answer' & Heq & Hget' & Hne' & ->)].
  - by repeat split.
  - split; [done|]. split; [done|]. intros key value. cbn.
    destruct (String.eqb_spec key "cover_letter") as [->|]; [|done].
    intros [= <-]. split; [by right|]. by exists d', answer'.
  - split; [done|]. split.
    { intros _. done. }
    intros key value. cbn.
    destruct (String.eqb_spec key "why_you_want_to_work_here") as [->|]; [|done].
    intros [= <-]. split; [by left|]. by exists d, answer.
  - injection Heq as <-. split; [done|]. split; [done|]. intros key value. cbn.
    destruct (String.eqb_spec key "why_you_want_to_work_here") as [->|].
    { intros [= <-]. split; [by left|]. by exists d, answer. }
    destruct (String.eqb_spec key "cover_letter") as [->|]; [|done].
    intros [= <-]. split; [by right|]. by exists d, answer'.
Qed.

(** When [generate_story_content] returns.  With no output requested the
    result is empty and the service has not been called.  With an output
    requested the service has been called once and has answered with text
    that holds an object; the result has none of the outputs that were
    not requested, whatever the object holds, and no other key than the
    two outputs; and each value it has is the text that the object holds
    under that key, not empty there, with the whitespace around it
    stripped. *)
Theorem generate_story_content_result (profile : UserProfile.t)
    (job_description : string) (include_why include_cover_letter : bool)
    (extra_knowledge : option string) (log log' : list request)
    (result : list (string * string)) :
  run service
    (generate_story_content profile job_description include_why
       include_cover_letter extra_knowledge) log
  = (log', Ok result) →
  (include_why || include_cover_letter = false → result = [] ∧ log' = log) ∧
  (include_why || include_cover_letter = true →
   ∃ req text d,
     log' = log ++ [req] ∧ max_tokens req = 1100 ∧ system req = story_system ∧
     service req = Ok text ∧
     extract_json_from_text text = Ok (JObj d) ∧
     (include_why = false → dict.get "why_you_want_to_work_here" result = None) ∧
     (include_cover_letter = false → dict.get "cover_letter" result = None) ∧
     ∀ key value, dict.get key result = Some value →
       (key = "why_you_want_to_work_here" ∨ key = "cover_letter") ∧
       ∃ answer, dict.get key d = Some (JStr answer) ∧ answer ≠ "" ∧
                 value = Py.strip answer).
Proof.
  unfold generate_story_content.
  destruct (negb include_why && negb include_cover_letter) eqn:Hnone.
  { intros [= <- <-]. split; [done|].
    by destruct include_why, include_cover_letter. }
  destruct (_ || _); [done|]. destruct (_ || _); [done|].
  cbn zeta. cbn [run].
  match goal with |- context [service ?r] => set (req := r) end.
  destruct (service req) as [text|e] eqn:Hservice; [|done].
  rewrite (run_lift service). intros [= <- H].
  split; [by destruct include_why, include_cover_letter|]. intros _.
  apply bind_Ok_inv in H as (res & Hres & H).
  pose proof H as Hfilter.
  apply filter_story_inv in H as (Hwhy & Hcover & Hkeys).
  assert (∃ d, res = JObj d) as [d ->].
  { unfold filter_story in Hfilter.
    apply bind_Ok_inv in Hfilter as (filtered & Hf & Hc).
    destruct include_why.
    - by apply story_key_inv in Hf as (d & -> & _); exists d.
    - destruct include_cover_letter; [|done].
      by apply story_key_inv in Hc as (d & -> & _); exists d. }
  exists req, text, d. split; [done|]. split; [done|]. split; [done|].
  split; [done|]. split; [done|]. split; [done|]. split; [done|].
  intros key value Hget.
  destruct (Hkeys key value Hget) as (Hkey & d' & answer & [= <-] & Hd & Hne & ->).
  split; [done|]. by exists answer.
Qed.

End story_result.

Lemma generate_story_content_result_witness :
  (false || true = false → [("cover_letter", "Dear team")] = [] ∧
     (run story_service
        (resume_generator.generate_story_content sample_profile "Rust engineer"
           false true None) []).1 = []) ∧
  (false || true = true →
   ∃ req text d,
     (run story_service
        (resume_generator.generate_story_content sample_profile "Rust engineer"
           false true None) []).1 = [] ++ [req] ∧
     max_tokens req = 1100 ∧ system req = resume_generator.story_system ∧
     story_service req = Ok text ∧
     resume_generator.extract_json_from_text text = Ok (JObj d) ∧
     (false = false →
      dict.get "why_you_want_to_work_here" [("cover_letter", "Dear team")] = None) ∧
     (true = false → dict.get "cover_letter" [("cover_letter", "Dear team")] = None) ∧
     ∀ key value, dict.get key [("cover_letter", "Dear team")] = Some value →
       (key = "why_you_want_to_work_here" ∨ key = "cover_letter") ∧
       ∃ answer, dict.get key d = Some (JStr answer) ∧ answer ≠ "" ∧
                 value = Py.strip answer).
Proof.
  apply (generate_story_content_result story_service sample_profile "Rust engineer"
           false true None []).
  vm_compute. reflexivity.
Defined.

(** ** The migration of two-token dates *)

Section migration_general.
Import profile_manager.

Lemma dict_get_del_ne {V} (k k' : string) (d : list (string * V)) :
  k' ≠ k → dict.get k' (dict.del k d) = dict.get k' d.
Proof.
  intros Hne. induction d as [|[k0 v0] d IH]; [done|]. cbn.
  destruct (String.eqb_spec k k0) as [->|Hk]; cbn.
  - apply String.eqb_neq in Hne. by rewrite Hne.
  - by rewrite IH.
Qed.

Lemma dict_get_None_keys {V} (k : string) (d : list (string * V)) :
  dict.get k d = None ↔ k ∉ d.*1.
Proof.
  induction d as [|[k0 v0] d IH]; cbn.
  - split; [intros _; apply not_elem_of_nil | done].
  - rewrite not_elem_of_cons.
    destruct (String.eqb_spec k k0) as [->|Hk]; [by split; [|intros [? _]]|].
    rewrite IH. split; [by intros ?; split | by intros [_ ?]].
Qed.

Lemma dict_get_del_eq {V} (k : string) (d : list (string * V)) :
  NoDup d.*1 → dict.get k (dict.del k d) = None.
Proof.
  induction d as [|[k0 v0] d IH]; [done|]. cbn. intros [Hk0 Hd]%NoDup_cons.
  destruct (String.eqb_spec k k0) as [->|Hk]; cbn.
  - by apply dict_get_None_keys.
  - apply String.eqb_neq in Hk. rewrite Hk. by apply IH.
Qed.

Lemma dict_set_keys {V} (k : string) (v : V) (d : list (string * V)) :
  (dict.set k v d).*1 = if dict.has k d then d.*1 else d.*1 ++ [k].
Proof.
  unfold dict.has. induction d as [|[k0 v0] d IH]; [done|]. cbn.
  destruct (String.eqb_spec k k0) as [->|Hk]; [done|]. cbn. rewrite IH.
  by destruct (dict.get k d).
Qed.

Lemma dict_set_NoDup {V} (k : string) (v : V) (d : list (string * V)) :
  NoDup d.*1 → NoDup (dict.set k v d).*1.
Proof.
  intros Hd. rewrite dict_set_keys. unfold dict.has.
  destruct (dict.get k d) eqn:Hk; [done|].
  apply NoDup_app. split; [done|]. split; [|apply NoDup_singleton].
  intros x Hx ->%list_elem_of_singleton. by apply dict_get_None_keys in Hk.
Qed.

Lemma start_years : forallb start_year_ok (seq 0 (Z.to_nat 10000)) = true.
Proof. vm_compute. reflexivity. Qed.

(** The migration of an education entry in the old format whose
    graduation date is made of two tokens, a month and a year.  The entry
    loses [graduation_date] and gets the original text, unchanged, as
    [end_date], and a [start_date]; its other fields stay as they are.  For
    a year below 10000 written in digits the start is the same month four
    years earlier; for a year that is not a number it is Sep 2020. *)
Theorem migrate_education_two_tokens (d : list (string * json))
    (g month year : string) :
  NoDup d.*1 →
  dict.get "graduation_date" d = Some (JStr g) →
  dict.get "start_date" d = None →
  Py.split g = [month; year] →
  ∃ d' start_date,
    migrate_education (JObj d) = Ok (JObj d') ∧
    dict.get "graduation_date" d' = None ∧
    dict.get "end_date" d' = Some (JStr g) ∧
    dict.get "start_date" d' = Some (JStr start_date) ∧
    (∀ k, k ≠ "graduation_date" → k ≠ "end_date" → k ≠ "start_date" →
       dict.get k d' = dict.get k d) ∧
    (∀ n : nat, (Z.of_nat n < 10000)%Z → year = pretty n →
       start_date = month +:+ " " +:+ pretty (Z.of_nat n - 4)%Z) ∧
    (py_int year = None → start_date = "Sep 2020").
Proof.
  intros Hnodup Hg Hs Hsplit.
  assert (g ≠ "") as Hne by (by intros ->).
  apply String.eqb_neq in Hne.
  eexists _, _. split.
  { unfold migrate_education, py_in, py_index, dict.has. rewrite Hg. cbn.
    rewrite Hs. cbn. rewrite Hne. cbn. unfold migrate_fields. rewrite Hsplit. done. }
  split; [|split; [|split; [|split; [|split]]]].
  - apply dict_get_del_eq. by do 2 apply dict_set_NoDup.
  - rewrite dict_get_del_ne by done. apply dict_get_set_eq.
  - rewrite dict_get_del_ne, dict_get_set_ne by done. apply dict_get_set_eq.
  - intros k H1 H2 H3. by rewrite dict_get_del_ne, !dict_get_set_ne.
  - intros n Hn ->.
    pose proof start_years as Hall. rewrite forallb_forall in Hall.
    assert (start_year_ok n = true) as Hok.
    { apply Hall. apply in_seq. lia. }
    unfold start_year_ok in Hok. apply bool_decide_eq_true in Hok. by rewrite Hok.
  - by intros ->.
Qed.

Lemma migrate_education_two_tokens_witness :
  ∃ d',
    migrate_education
      (JObj [("degree", JStr "BSc"); ("institution", JStr "MIT");
             ("graduation_date", JStr "May  2024")])
    = Ok (JObj d') ∧
    dict.get "end_date" d' = Some (JStr "May  2024") ∧
    dict.get "start_date" d' = Some (JStr "May 2020").
Proof.
  destruct (migrate_education_two_tokens
              [("degree", JStr "BSc"); ("institution", JStr "MIT");
               ("graduation_date", JStr "May  2024")] "May  2024" "May" "2024")
    as (d' & start_date & Hmig & _ & Hend & Hstart & _ & Hyear & _).
  - compute_done.
  - reflexivity.
  - reflexivity.
  - reflexivity.
  - exists d'. split; [exact Hmig|]. split; [exact Hend|].
    rewrite Hstart. rewrite (Hyear 2024); [reflexivity | lia | reflexivity].
Defined.

End migration_general.
